(** * JeevanFit analytic core: a shallow embedding and its properties

    The development follows the Python sources
    [jeevanfit/models/core.py], [jeevanfit/analyzers/food_classifier.py],
    [jeevanfit/analyzers/water_retention_predictor.py] and
    [jeevanfit/analyzers/trend_analyzer.py].

    Number model.  Python floats are read as exact numbers.  The two
    classifiers only add, multiply, divide and compare, so they are
    embedded over the rationals [Q] and every definition there computes.
    The trend analyzer takes square roots ([statistics.stdev]), so it is
    embedded over the reals [R]; rounding, overflow and NaN are outside
    both models.  A [datetime] is an integer count of clock ticks. *)

From Stdlib Require Import QArith Qabs Qminmax Reals Psatz ZArith Ascii.
From stdpp Require Import gmap strings list sorting pretty.

#[local] Set Warnings "-clear-no-such-hyp".

(** ** models/core.py *)

Module Core.

Inductive BodyTypeClassification := ECTOMORPH | MESOMORPH | ENDOMORPH | MIXED.

Inductive HabitType :=
  EXERCISE | STRESS | SCREEN_TIME | CAFFEINE | ALCOHOL | OTHER.

#[global] Instance HabitType_eq_dec : EqDecision HabitType.
Proof. solve_decision. Defined.

Record NutritionalInfo := {
  calories : Q;
  protein : Q;
  carbohydrates : Q;
  fat : Q;
  sodium : Q;
  sugar : Q;
  fiber : Q;
  preservatives : list string;
  processing_level : Z
}.

Record FoodItem := {
  name : string;
  serving_size : Q;
  unit_ : string;
  nutritional_info : NutritionalInfo
}.

(** [bedtime], [wake_time] and [timestamp] are clock values; no analyzer
    modelled here reads them. *)
Record SleepData := {
  duration : Q;
  quality : Z;
  interruptions : Z
}.

Record Habit := {
  type : HabitType;
  intensity : Z;
  habit_duration : option Q;
  notes : option string
}.

Record BodyType := {
  classification : BodyTypeClassification;
  characteristics : list string;
  user_id : string
}.

Record LifestyleInput := {
  food_items : list FoodItem;
  water_intake : Q;
  sleep_data : option SleepData;
  daily_habits : list Habit;
  lifestyle_user_id : string
}.

End Core.

(** ** Python's builtin [min] and [max] on two numbers.
    [min(a, b)] keeps [a] unless [b < a]; [max(a, b)] keeps [a] unless
    [b > a]. *)

Module PyQ.
Local Open Scope Q_scope.

Definition py_min (a b : Q) : Q := if Qlt_le_dec b a then b else a.
Definition py_max (a b : Q) : Q := if Qlt_le_dec a b then b else a.

(** The comparisons [a > b] and [a >= b] as booleans. *)
Definition gtb (a b : Q) : bool := if Qlt_le_dec b a then true else false.
Definition geb (a b : Q) : bool := if Qlt_le_dec a b then false else true.

(** [max(xs)] over a non-empty sequence whose head is [x]. *)
Definition py_max_list (x : Q) (xs : list Q) : Q := foldl py_max x xs.

End PyQ.

(** ** analyzers/food_classifier.py *)

Module FoodClassifier.
Import Core PyQ.
Local Open Scope Q_scope.

Inductive FoodCategory := HEALTHY | JUNK | PRESERVATIVE_HEAVY.

#[global] Instance FoodCategory_eq_dec : EqDecision FoodCategory.
Proof. solve_decision. Defined.

Record FSIParameters := {
  nutrient_density : Q;
  processing_score : Q;
  preservative_load : Q;
  sugar_content : Q;
  sodium_level : Q
}.

(** The [rationale] text interpolates floats and is left out; the
    factor tags that accompany it are kept. *)
Record FoodClassification := {
  category : FoodCategory;
  confidence : Q;
  dominant_factors : list string
}.

Definition NUTRIENT_DENSITY_HEALTHY_THRESHOLD : Q := 0.7.
Definition NUTRIENT_DENSITY_JUNK_THRESHOLD : Q := 0.3.
Definition PROCESSING_HEALTHY_MAX : Z := 2.
Definition PROCESSING_JUNK_MIN : Z := 4.
Definition PRESERVATIVE_COUNT_THRESHOLD : nat := 3.
Definition SUGAR_JUNK_THRESHOLD : Q := 15.
Definition SODIUM_JUNK_THRESHOLD : Q := 600.

(** A Python [dict] keyed by category, in insertion order. *)
Definition Scores := list (FoodCategory * Q).

(** [scores[c]]; every dict built below holds all three categories, so
    the [KeyError] branch is never taken. *)
Fixpoint score_of (scores : Scores) (c : FoodCategory) : Q :=
  match scores with
  | [] => 0
  | (c', s) :: rest => if decide (c' = c) then s else score_of rest c
  end.

Definition count_of (l : list string) : Q := inject_Z (Z.of_nat (length l)).

Definition get_fsi_parameters (food_item : FoodItem) : FSIParameters :=
  let nutrition := nutritional_info food_item in
  let nutrient_density :=
    if Qlt_le_dec 1 (calories nutrition)
    then py_min 1 ((protein nutrition + fiber nutrition)
                     / (calories nutrition / 100))
    else 0 in
  {| nutrient_density := nutrient_density;
     processing_score := (5 - inject_Z (processing_level nutrition)) / 4;
     preservative_load := py_min 1 (count_of (preservatives nutrition) / 5);
     sugar_content := py_min 1 (sugar nutrition / 30);
     sodium_level := py_min 1 (sodium nutrition / 1000) |}.

Definition _calculate_category_scores
    (food_item : FoodItem) (fsi_params : FSIParameters) : Scores :=
  let nutrition := nutritional_info food_item in
  let healthy_score :=
    nutrient_density fsi_params * 0.4 +
    processing_score fsi_params * 0.3 +
    (1 - preservative_load fsi_params) * 0.15 +
    (1 - sugar_content fsi_params) * 0.075 +
    (1 - sodium_level fsi_params) * 0.075 in
  let junk_score :=
    (1 - nutrient_density fsi_params) * 0.3 +
    (1 - processing_score fsi_params) * 0.3 +
    sugar_content fsi_params * 0.2 +
    sodium_level fsi_params * 0.2 in
  let preservative_score := preservative_load fsi_params in
  let preservative_score :=
    if (PRESERVATIVE_COUNT_THRESHOLD <=? length (preservatives nutrition))%nat
    then py_max preservative_score 0.8 else preservative_score in
  let junk_score :=
    if (PROCESSING_JUNK_MIN <=? processing_level nutrition)%Z
    then py_max junk_score 0.7 else junk_score in
  let junk_score :=
    if Qlt_le_dec SUGAR_JUNK_THRESHOLD (sugar nutrition)
    then py_max junk_score 0.6 else junk_score in
  let junk_score :=
    if Qlt_le_dec SODIUM_JUNK_THRESHOLD (sodium nutrition)
    then py_max junk_score 0.6 else junk_score in
  [(HEALTHY, healthy_score); (JUNK, junk_score);
   (PRESERVATIVE_HEAVY, preservative_score)].

(** [max(scores, key=scores.get)]: the first key, in insertion order,
    whose score no later key strictly exceeds. *)
Fixpoint argmax_from (best : FoodCategory * Q) (rest : Scores)
    : FoodCategory :=
  match rest with
  | [] => fst best
  | (c, s) :: rest' =>
      if Qlt_le_dec (snd best) s then argmax_from (c, s) rest'
      else argmax_from best rest'
  end.

(** On an empty dict [max] raises; the dicts built here are never
    empty. *)
Definition max_key (scores : Scores) : FoodCategory :=
  match scores with
  | [] => HEALTHY
  | b :: rest => argmax_from b rest
  end.

Definition _select_dominant_category
    (scores : Scores) (food_item : FoodItem) : FoodCategory :=
  let nutrition := nutritional_info food_item in
  if (PRESERVATIVE_COUNT_THRESHOLD <=? length (preservatives nutrition))%nat
  then PRESERVATIVE_HEAVY
  else if Qlt_le_dec (score_of scores PRESERVATIVE_HEAVY) 0.6 then
    let max_category := max_key scores in
    let max_score := score_of scores max_category in
    let score_threshold := 0.15 in
    if decide (max_category = HEALTHY) then
      if Qlt_le_dec (Qabs (score_of scores JUNK - max_score)) score_threshold
      then JUNK
      else max_category
    else max_category
  else PRESERVATIVE_HEAVY.

(** [_generate_rationale], for its list of dominant factors. *)
Definition _generate_factors
    (category : FoodCategory) (food_item : FoodItem)
    (fsi_params : FSIParameters) : list string :=
  let nutrition := nutritional_info food_item in
  let when (b : bool) (tag : string) : list string :=
    if b then [tag] else [] in
  let dominant_factors :=
    match category with
    | HEALTHY =>
        when (geb (nutrient_density fsi_params)
                   NUTRIENT_DENSITY_HEALTHY_THRESHOLD) "nutrient_density"
        ++ when (processing_level nutrition <=? PROCESSING_HEALTHY_MAX)%Z
                "low_processing"
        ++ when (length (preservatives nutrition) =? 0)%nat "no_preservatives"
        ++ when (geb (fiber nutrition) 3) "fiber"
    | JUNK =>
        when (gtb (sugar nutrition) SUGAR_JUNK_THRESHOLD) "high_sugar"
        ++ when (gtb (sodium nutrition) SODIUM_JUNK_THRESHOLD) "high_sodium"
        ++ when (PROCESSING_JUNK_MIN <=? processing_level nutrition)%Z
                "high_processing"
        ++ when (gtb NUTRIENT_DENSITY_JUNK_THRESHOLD
                      (nutrient_density fsi_params)) "low_nutrients"
    | PRESERVATIVE_HEAVY =>
        ["preservatives"]
        ++ when (PROCESSING_JUNK_MIN <=? processing_level nutrition)%Z
                "high_processing"
    end in
  match dominant_factors with
  | [] => ["overall_composition"]
  | _ => dominant_factors
  end.

Definition _calculate_confidence
    (scores : Scores) (category : FoodCategory) : Q :=
  let category_score := score_of scores category in
  let other_scores :=
    map snd (filter (λ cs, fst cs ≠ category) scores) in
  match other_scores with
  | [] => 95
  | s :: rest =>
      let max_other_score := py_max_list s rest in
      let separation := category_score - max_other_score in
      let confidence := 60 + separation * 70 in
      py_min 95 (py_max 60 confidence)
  end.

Definition classify_food (food_item : FoodItem) : FoodClassification :=
  let fsi_params := get_fsi_parameters food_item in
  let scores := _calculate_category_scores food_item fsi_params in
  let category := _select_dominant_category scores food_item in
  let dominant_factors := _generate_factors category food_item fsi_params in
  let confidence := _calculate_confidence scores category in
  {| category := category;
     confidence := confidence;
     dominant_factors := dominant_factors |}.

End FoodClassifier.

(** ** analyzers/water_retention_predictor.py *)

Module WaterRetentionPredictor.
Import Core PyQ.
Local Open Scope Q_scope.

Inductive RetentionLevel := LOW | MODERATE | HIGH.

Inductive RetentionFactorType := SODIUM | HYDRATION | SLEEP | HORMONAL | STRESS.

(** The [description] and [recommendation] texts interpolate formatted
    floats and are left out; a factor is its type and its impact. *)
Record RetentionFactor := {
  factor_type : RetentionFactorType;
  impact : Z
}.

(** The [explanation] text is left out for the same reason. *)
Record RetentionPrediction := {
  level : RetentionLevel;
  confidence : Q;
  primary_factor : RetentionFactor;
  contributing_factors : list RetentionFactor
}.

Definition HIGH_SODIUM_THRESHOLD : Q := 2000.
Definition MODERATE_SODIUM_THRESHOLD : Q := 1500.
Definition LOW_WATER_THRESHOLD : Q := 1500.
Definition OPTIMAL_WATER_MIN : Q := 2000.
Definition OPTIMAL_WATER_MAX : Q := 3500.
Definition VERY_HIGH_WATER_THRESHOLD : Q := 4500.
Definition POOR_SLEEP_QUALITY_THRESHOLD : Z := 5.
Definition POOR_SLEEP_DURATION_THRESHOLD : Q := 6.
Definition HIGH_STRESS_INTENSITY : Z := 7.

(** [BODY_TYPE_SENSITIVITY.get(classification, 1.0)]: the table has an
    entry for each of the four classifications. *)
Definition BODY_TYPE_SENSITIVITY (c : BodyTypeClassification) : Q :=
  match c with
  | ECTOMORPH => 0.8
  | MESOMORPH => 1.0
  | ENDOMORPH => 1.3
  | MIXED => 1.1
  end.

(** [sum(...)] over floats and over ints. *)
Definition sumQ (l : list Q) : Q := foldl Qplus 0 l.
Definition sumZ (l : list Z) : Z := foldl Z.add 0%Z l.

Definition total_sodium (lifestyle : LifestyleInput) : Q :=
  sumQ (map (λ item, sodium (nutritional_info item)) (food_items lifestyle)).

Definition _calculate_sodium_factor (lifestyle : LifestyleInput)
    : option RetentionFactor :=
  let total_sodium := total_sodium lifestyle in
  let impact :=
    if geb total_sodium HIGH_SODIUM_THRESHOLD then 3%Z
    else if geb total_sodium MODERATE_SODIUM_THRESHOLD then 2%Z
    else 0%Z in
  if (0 <? impact)%Z
  then Some {| factor_type := SODIUM; impact := impact |}
  else None.

Definition _calculate_hydration_factor (lifestyle : LifestyleInput)
    : option RetentionFactor :=
  let water_intake := water_intake lifestyle in
  if gtb LOW_WATER_THRESHOLD water_intake
  then Some {| factor_type := HYDRATION; impact := 2 |}
  else if gtb water_intake VERY_HIGH_WATER_THRESHOLD
  then Some {| factor_type := HYDRATION; impact := 1 |}
  else if gtb OPTIMAL_WATER_MIN water_intake
  then Some {| factor_type := HYDRATION; impact := 1 |}
  else None.

Definition _calculate_sleep_factor (lifestyle : LifestyleInput)
    : option RetentionFactor :=
  match sleep_data lifestyle with
  | None => None
  | Some sleep =>
      let poor_quality := (quality sleep <=? POOR_SLEEP_QUALITY_THRESHOLD)%Z in
      let poor_duration := gtb POOR_SLEEP_DURATION_THRESHOLD (duration sleep) in
      if poor_quality && poor_duration
      then Some {| factor_type := SLEEP; impact := 2 |}
      else if poor_quality
      then Some {| factor_type := SLEEP; impact := 2 |}
      else if poor_duration
      then Some {| factor_type := SLEEP; impact := 1 |}
      else None
  end.

(** [max(...)] over a non-empty sequence of ints whose head is [x]. *)
Definition maxZ (x : Z) (xs : list Z) : Z := foldl Z.max x xs.

Definition _calculate_stress_factor (lifestyle : LifestyleInput)
    : option RetentionFactor :=
  let stress_habits :=
    filter (λ h, type h = Core.STRESS) (daily_habits lifestyle) in
  match map intensity stress_habits with
  | [] => None
  | i :: rest =>
      let max_stress := maxZ i rest in
      if (HIGH_STRESS_INTENSITY <=? max_stress)%Z
      then Some {| factor_type := STRESS; impact := 2 |}
      else if (5 <=? max_stress)%Z
      then Some {| factor_type := STRESS; impact := 1 |}
      else None
  end.

(** [factors.sort(key=lambda f: f.impact, reverse=True)]: a stable sort,
    highest impact first; factors of equal impact keep their order. *)
Fixpoint insert_by_impact (f : RetentionFactor) (l : list RetentionFactor)
    : list RetentionFactor :=
  match l with
  | [] => [f]
  | g :: rest =>
      if (impact g <=? impact f)%Z then f :: g :: rest
      else g :: insert_by_impact f rest
  end.

Definition sort_by_impact (l : list RetentionFactor) : list RetentionFactor :=
  foldr insert_by_impact [] l.

(** [if factor: factors.append(factor)]. *)
Definition append_if (factors : list RetentionFactor)
    (factor : option RetentionFactor) : list RetentionFactor :=
  match factor with
  | Some f => factors ++ [f]
  | None => factors
  end.

Definition analyze_retention_factors (lifestyle : LifestyleInput)
    : list RetentionFactor :=
  let factors := [] in
  let factors := append_if factors (_calculate_sodium_factor lifestyle) in
  let factors := append_if factors (_calculate_hydration_factor lifestyle) in
  let factors := append_if factors (_calculate_sleep_factor lifestyle) in
  let factors := append_if factors (_calculate_stress_factor lifestyle) in
  sort_by_impact factors.

(** [max(factors, key=lambda f: f.impact)] over a non-empty list: the
    first factor that no later one strictly exceeds. *)
Definition max_by_impact (f : RetentionFactor) (rest : list RetentionFactor)
    : RetentionFactor :=
  foldl (λ best g, if (impact best <? impact g)%Z then g else best) f rest.

Definition _calculate_confidence
    (factors : list RetentionFactor) (adjusted_score : Q) : Q :=
  match map impact factors with
  | [] => 60
  | i :: rest =>
      let max_impact := maxZ i rest in
      let other_impacts :=
        filter (λ j, j ≠ max_impact) (map impact factors) in
      let base_confidence :=
        match other_impacts with
        | [] => 85
        | j :: others =>
            let second_highest := maxZ j others in
            let separation := (max_impact - second_highest)%Z in
            70 + inject_Z (separation * 10)
        end in
      let base_confidence :=
        if geb 1 adjusted_score || geb adjusted_score 7
        then base_confidence + 5 else base_confidence in
      py_min 95 (py_max 65 base_confidence)
  end.

Definition adjusted_score_of
    (factors : list RetentionFactor) (body_type : BodyType) : Q :=
  let total_score := sumZ (map impact factors) in
  let sensitivity := BODY_TYPE_SENSITIVITY (classification body_type) in
  inject_Z total_score * sensitivity.

Definition predict_retention
    (lifestyle : LifestyleInput) (body_type : BodyType)
    : RetentionPrediction :=
  let factors := analyze_retention_factors lifestyle in
  let adjusted_score := adjusted_score_of factors body_type in
  let level :=
    if geb 2 adjusted_score then LOW
    else if geb 5 adjusted_score then MODERATE
    else HIGH in
  let primary_factor :=
    match factors with
    | f :: rest => max_by_impact f rest
    | [] => {| factor_type := HYDRATION; impact := 1 |}
    end in
  let confidence := _calculate_confidence factors adjusted_score in
  {| level := level;
     confidence := confidence;
     primary_factor := primary_factor;
     contributing_factors := factors |}.

End WaterRetentionPredictor.

(** ** Exceptions

    The trend analyzer calls [statistics.mean], [statistics.stdev],
    float division, dict indexing and the validating constructors of
    the pydantic models; each of them can raise.  A computation that
    can raise returns a [result].

    These are the exceptions of exact arithmetic.  On floats the code
    can also raise [OverflowError] (a square or a sum that leaves the
    float range, [int] of an infinity) and a [ValidationError] on a NaN
    strength; both need an overflow, which the number model leaves out.
    An [Ok] below therefore speaks of a run without overflow; the
    statements about the detectors are about the results they return,
    not about whether they return. *)

Module Py.

Inductive Exn :=
  StatisticsError | ZeroDivisionError | ValidationError | KeyError.

Inductive result (A : Type) :=
  | Ok (a : A)
  | Raise (e : Exn).
Arguments Ok {A} a.
Arguments Raise {A} e.

#[global] Instance result_ret : MRet result := λ A a, Ok a.
#[global] Instance result_bind : MBind result := λ A B f m,
  match m with
  | Ok a => f a
  | Raise e => Raise e
  end.

End Py.

(** ** analyzers/trend_analyzer.py *)

Module TrendAnalyzer.
Import Py.
Local Open Scope R_scope.

Definition datetime := Z.

Inductive TrendType := INCREASING | DECREASING | STABLE | CYCLICAL.

(** [trend.value] *)
Definition TrendType_value (t : TrendType) : string :=
  match t with
  | INCREASING => "increasing"
  | DECREASING => "decreasing"
  | STABLE => "stable"
  | CYCLICAL => "cyclical"
  end.

Inductive CausalityLevel := LIKELY | POSSIBLE | UNLIKELY.

Record TimeRange := {
  start : datetime;
  end_ : datetime
}.

Module Pattern.
Record t := {
  metric : string;
  trend : TrendType;
  confidence : R;
  description : string;
  time_range : TimeRange
}.
End Pattern.

Module Correlation.
Record t := {
  metric1 : string;
  metric2 : string;
  strength : R;
  description : string;
  causality : CausalityLevel
}.
End Correlation.

Module Change.
Record t := {
  metric : string;
  change_point : datetime;
  magnitude : R;
  description : string;
  possible_causes : list string
}.
End Change.

(** The constructors validate their fields:
    [confidence: float = Field(ge=0, le=100)] and
    [strength: float = Field(ge=-1, le=1)]. *)
Definition mk_Pattern (metric : string) (trend : TrendType) (confidence : R)
    (description : string) (time_range : TimeRange) : result Pattern.t :=
  if Rle_dec 0 confidence then
    if Rle_dec confidence 100 then
      Ok {| Pattern.metric := metric; Pattern.trend := trend;
            Pattern.confidence := confidence;
            Pattern.description := description;
            Pattern.time_range := time_range |}
    else Raise ValidationError
  else Raise ValidationError.

Definition mk_Correlation (metric1 metric2 : string) (strength : R)
    (description : string) (causality : CausalityLevel)
    : result Correlation.t :=
  if Rle_dec (-1) strength then
    if Rle_dec strength 1 then
      Ok {| Correlation.metric1 := metric1; Correlation.metric2 := metric2;
            Correlation.strength := strength;
            Correlation.description := description;
            Correlation.causality := causality |}
    else Raise ValidationError
  else Raise ValidationError.

(** *** Numbers *)

Definition py_min (a b : R) : R := if Rlt_dec b a then b else a.
Definition py_max (a b : R) : R := if Rlt_dec a b then b else a.

(** [sum(...)]; over [R] the order of the additions is immaterial. *)
Definition sum (l : list R) : R := foldr Rplus 0 l.

(** [a / b] on floats raises when [b] is zero. *)
Definition py_div (a b : R) : result R :=
  if Req_dec_T b 0 then Raise ZeroDivisionError else Ok (a / b).

(** [int(x)] truncates toward zero. *)
Definition py_int (x : R) : Z :=
  if Rle_dec 0 x then Int_part x else (- Int_part (- x))%Z.

(** [statistics.mean] raises on an empty sequence. *)
Definition statistics_mean (xs : list R) : result R :=
  match xs with
  | [] => Raise StatisticsError
  | _ => Ok (sum xs / INR (length xs))
  end.

(** [statistics.stdev], the sample standard deviation, needs two points. *)
Definition statistics_stdev (xs : list R) : result R :=
  if (length xs <? 2)%nat then Raise StatisticsError
  else
    let c := sum xs / INR (length xs) in
    Ok (sqrt (sum (map (λ x, (x - c) ^ 2) xs) / (INR (length xs) - 1))).

(** [statistics.stdev(values) if len(values) > 1 else 0] *)
Definition stdev_or_zero (values : list R) : result R :=
  if (1 <? length values)%nat then statistics_stdev values else Ok 0.

(** *** Strings *)

(** [str.lower], on the ASCII letters. *)
Definition lower_ascii (c : ascii) : ascii :=
  let n := nat_of_ascii c in
  if ((65 <=? n) && (n <=? 90))%nat then ascii_of_nat (n + 32) else c.

Fixpoint lower (s : string) : string :=
  match s with
  | EmptyString => EmptyString
  | String c s' => String (lower_ascii c) (lower s')
  end.

(** *** The analyzer *)

Definition significant_change_threshold : R := 0.3.

Definition Series := list (datetime * R).

Definition _detect_pattern (metric : string) (time_series : Series)
    (time_range : TimeRange) : result (option Pattern.t) :=
  if (length time_series <? 3)%nat then Ok None
  else
    let values := map snd time_series in
    let n := length values in
    let x := map INR (seq 0 n) in
    mean_x ← statistics_mean x;
    mean_y ← statistics_mean values;
    let numerator :=
      sum (zip_with (λ xi vi, (xi - mean_x) * (vi - mean_y)) x values) in
    let denominator := sum (map (λ xi, (xi - mean_x) ^ 2) x) in
    '(trend, confidence) ←
      (if Req_dec_T denominator 0 then Ok (STABLE, 95)
       else
         slope ← py_div numerator denominator;
         std_dev ← stdev_or_zero values;
         let threshold := std_dev * 0.1 in
         let trend :=
           if Rlt_dec (Rabs slope) threshold then STABLE
           else if Rlt_dec 0 slope then INCREASING
           else DECREASING in
         let ss_tot := sum (map (λ v, (v - mean_y) ^ 2) values) in
         let predicted := map (λ i, mean_y + slope * (i - mean_x)) x in
         let ss_res :=
           sum (zip_with (λ v p, (v - p) ^ 2) values predicted) in
         r_squared ←
           (if Rlt_dec 0 ss_tot
            then q ← py_div ss_res ss_tot; Ok (1 - q)
            else Ok 0);
         let confidence := py_max 50 (py_min 100 (r_squared * 100)) in
         Ok (trend, confidence));
    let description :=
      "The " +:+ metric +:+ " shows a " +:+ TrendType_value trend
        +:+ " trend over the analyzed period" in
    p ← mk_Pattern metric trend confidence description time_range;
    Ok (Some p).

(** The loop [for i in range(midpoint, len(values))] of
    [_detect_significant_change], over the points from [midpoint] on;
    it returns at the first point that qualifies. *)
Fixpoint scan_changes (metric : string) (baseline : R) (rest : Series)
    : result (option Change.t) :=
  match rest with
  | [] => Ok None
  | (timestamp, value) :: rest' =>
      change_pct ← py_div (Rabs (value - baseline)) baseline;
      if Rlt_dec significant_change_threshold change_pct then
        let magnitude := value - baseline in
        let direction :=
          if Rlt_dec 0 magnitude then "increased" else "decreased" in
        let pct_change := py_int (change_pct * 100) in
        let description :=
          metric +:+ " " +:+ direction +:+ " by " +:+ pretty pct_change
            +:+ "% from baseline" in
        Ok (Some {| Change.metric := metric;
                    Change.change_point := timestamp;
                    Change.magnitude := magnitude;
                    Change.description := description;
                    Change.possible_causes := [] |})
      else scan_changes metric baseline rest'
  end.

Definition _detect_significant_change (metric : string) (time_series : Series)
    : result (option Change.t) :=
  if (length time_series <? 7)%nat then Ok None
  else
    let values := map snd time_series in
    let midpoint := (length values / 2)%nat in
    baseline ← statistics_mean (take midpoint values);
    if Req_dec_T baseline 0 then Ok None
    else scan_changes metric baseline (drop midpoint time_series).

(** [{t: v for t, v in data}]: a later pair overwrites an earlier one
    with the same timestamp. *)
Definition to_dict (data : Series) : gmap datetime R :=
  foldl (λ d tv, <[tv.1 := tv.2]> d) ∅ data.

(** [d[t]] raises on a missing key. *)
Definition getitem (d : gmap datetime R) (t : datetime) : result R :=
  match d !! t with
  | Some v => Ok v
  | None => Raise KeyError
  end.

Definition _align_time_series (data1 data2 : Series)
    : result (list (datetime * R * R)) :=
  let dict1 := to_dict data1 in
  let dict2 := to_dict data2 in
  let common_timestamps : gset datetime := dom dict1 ∩ dom dict2 in
  mapM (λ t, v1 ← getitem dict1 t; v2 ← getitem dict2 t; Ok (t, v1, v2))
       (merge_sort Z.le (elements common_timestamps)).

Definition _calculate_correlation (values1 values2 : list R) : result R :=
  if negb (length values1 =? length values2)%nat
     || (length values1 <? 2)%nat
  then Ok 0
  else
    let n := length values1 in
    mean1 ← statistics_mean values1;
    mean2 ← statistics_mean values2;
    let numerator :=
      sum (zip_with (λ v1 v2, (v1 - mean1) * (v2 - mean2)) values1 values2) in
    std1 ← stdev_or_zero values1;
    std2 ← stdev_or_zero values2;
    let denominator := std1 * std2 * INR n in
    if Req_dec_T denominator 0 then Ok 0
    else py_div numerator denominator.

Definition causal_pairs : list (string * string * CausalityLevel) :=
  [ ("caffeine", "sleep_quality", LIKELY);
    ("sodium", "water_retention", LIKELY);
    ("water_intake", "water_retention", LIKELY);
    ("sleep_quality", "stress", POSSIBLE);
    ("food_quality", "energy", LIKELY) ].

(** [table.get(key)] on a dict literal with distinct keys. *)
Fixpoint pair_lookup (table : list (string * string * CausalityLevel))
    (key : string * string) : option CausalityLevel :=
  match table with
  | [] => None
  | (k, v) :: rest => if decide (k = key) then Some v else pair_lookup rest key
  end.

Definition _assess_causality (metric1 metric2 : string)
    (correlation_strength : R) : CausalityLevel :=
  let pair_key := (lower metric1, lower metric2) in
  let reverse_key := (lower metric2, lower metric1) in
  match pair_lookup causal_pairs pair_key with
  | Some c => c
  | None =>
      match pair_lookup causal_pairs reverse_key with
      | Some c => c
      | None =>
          if Rlt_dec 0.7 (Rabs correlation_strength) then POSSIBLE
          else UNLIKELY
      end
  end.

Definition detect_correlations (user_id metric1 metric2 : string)
    (data1 data2 : Series) : result (option Correlation.t) :=
  if (length data1 <? 3)%nat || (length data2 <? 3)%nat then Ok None
  else
    aligned_data ← _align_time_series data1 data2;
    if (length aligned_data <? 3)%nat then Ok None
    else
      let values1 := map (λ a, a.1.2) aligned_data in
      let values2 := map (λ a, a.2) aligned_data in
      correlation_strength ← _calculate_correlation values1 values2;
      if Rlt_dec (Rabs correlation_strength) 0.3 then Ok None
      else
        let causality :=
          _assess_causality metric1 metric2 correlation_strength in
        let direction :=
          if Rlt_dec 0 correlation_strength then "positive" else "negative" in
        let strength_desc :=
          if Rlt_dec 0.7 (Rabs correlation_strength) then "strong"
          else "moderate" in
        let description :=
          "A " +:+ strength_desc +:+ " " +:+ direction
            +:+ " correlation exists between " +:+ metric1 +:+ " and "
            +:+ metric2 in
        c ← mk_Correlation metric1 metric2 correlation_strength
              description causality;
        Ok (Some c).

(** *** The façade: [analyze_trends] and [_detect_correlations] *)

Module ChartData.
Record t := {
  metric : string;
  data_points : Series;
  chart_type : string
}.
End ChartData.

Module TrendAnalysis.
Record t := {
  patterns : list Pattern.t;
  correlations : list Correlation.t;
  significant_changes : list Change.t;
  visualizations : list ChartData.t
}.
End TrendAnalysis.

(** [Dict[str, List[Tuple[datetime, float]]]], as the list of its items
    in insertion order; the keys of a dict are distinct. *)
Definition Data := list (string * Series).

(** [data[metric]] raises on a missing key. *)
Fixpoint data_getitem (data : Data) (metric : string) : result Series :=
  match data with
  | [] => Raise KeyError
  | (k, v) :: rest =>
      if decide (k = metric) then Ok v else data_getitem rest metric
  end.

(** [if x: xs.append(x)] *)
Definition append_some {A} (xs : list A) (x : option A) : list A :=
  match x with
  | Some a => xs ++ [a]
  | None => xs
  end.

(** The inner loop [for j in range(i + 1, len(metrics))] of
    [_detect_correlations], for a fixed [metric1 = metrics[i]]. *)
Fixpoint correlations_with (data : Data) (metric1 : string)
    (later : list string) (correlations : list Correlation.t)
    : result (list Correlation.t) :=
  match later with
  | [] => Ok correlations
  | metric2 :: later' =>
      data1 ← data_getitem data metric1;
      data2 ← data_getitem data metric2;
      correlation ← detect_correlations "" metric1 metric2 data1 data2;
      correlations_with data metric1 later'
        (append_some correlations correlation)
  end.

(** The outer loop [for i in range(len(metrics))], over the metrics
    from index [i] on. *)
Fixpoint correlations_from (data : Data) (metrics : list string)
    (correlations : list Correlation.t) : result (list Correlation.t) :=
  match metrics with
  | [] => Ok correlations
  | metric1 :: later =>
      correlations ← correlations_with data metric1 later correlations;
      correlations_from data later correlations
  end.

Definition _detect_correlations (data : Data) : result (list Correlation.t) :=
  let correlations := [] in
  let metrics := map fst data in
  correlations_from data metrics correlations.

(** The loop [for metric, time_series in data.items()] of
    [analyze_trends], threading the three lists it appends to. *)
Fixpoint analyze_metrics (time_range : TimeRange) (items : Data)
    (patterns : list Pattern.t) (significant_changes : list Change.t)
    (visualizations : list ChartData.t)
    : result (list Pattern.t * list Change.t * list ChartData.t) :=
  match items with
  | [] => Ok (patterns, significant_changes, visualizations)
  | (metric, time_series) :: items' =>
      if (3 <=? length time_series)%nat then
        pattern ← _detect_pattern metric time_series time_range;
        let patterns := append_some patterns pattern in
        change ← _detect_significant_change metric time_series;
        let significant_changes := append_some significant_changes change in
        let visualizations :=
          visualizations ++ [ {| ChartData.metric := metric;
                                 ChartData.data_points := time_series;
                                 ChartData.chart_type := "line" |} ] in
        analyze_metrics time_range items' patterns significant_changes
          visualizations
      else
        analyze_metrics time_range items' patterns significant_changes
          visualizations
  end.

Definition analyze_trends (user_id : string) (time_range : TimeRange)
    (data : Data) : result TrendAnalysis.t :=
  '(patterns, significant_changes, visualizations) ←
    analyze_metrics time_range data [] [] [];
  correlations ← _detect_correlations data;
  Ok {| TrendAnalysis.patterns := patterns;
        TrendAnalysis.correlations := correlations;
        TrendAnalysis.significant_changes := significant_changes;
        TrendAnalysis.visualizations := visualizations |}.

End TrendAnalyzer.

(** ** Vocabulary of the statements

    The notions that the statements below use next to the embedding, and
    the concrete inputs on which they are exercised. *)

Module FoodClassifierSpec.
Import Core PyQ FoodClassifier.
Local Open Scope Q_scope.

(** The clamp of the specification, on the library's [Qmin] and [Qmax]. *)
Definition clamp (x lo hi : Q) : Q := Qmin hi (Qmax lo x).

(** An item with three preservatives, whose JUNK score of 1 beats the
    floored preservative score. *)
Definition salted_snack : FoodItem :=
  {| name := "salted snack"; serving_size := 1; unit_ := "bag";
     nutritional_info :=
       {| calories := 500; protein := 0; carbohydrates := 60; fat := 30;
          sodium := 1200; sugar := 40; fiber := 0;
          preservatives := ["BHA"; "BHT"; "TBHQ"];
          processing_level := 5 |} |}.

(** An item on which HEALTHY scores 0.5325, JUNK 0.46 and
    PRESERVATIVE_HEAVY 0. *)
Definition sweet_cereal : FoodItem :=
  {| name := "sweet cereal"; serving_size := 1; unit_ := "bowl";
     nutritional_info :=
       {| calories := 200; protein := 0.4; carbohydrates := 40; fat := 1;
          sodium := 0; sugar := 15; fiber := 0.2;
          preservatives := [];
          processing_level := 3 |} |}.

(** The salted snack without its preservatives: HEALTHY scores 0.15 and
    JUNK 1. *)
Definition fried_snack : FoodItem :=
  {| name := "fried snack"; serving_size := 1; unit_ := "bag";
     nutritional_info :=
       {| calories := 500; protein := 0; carbohydrates := 60; fat := 30;
          sodium := 1200; sugar := 40; fiber := 0;
          preservatives := [];
          processing_level := 5 |} |}.

(** An item with five preservatives, on which PRESERVATIVE_HEAVY scores
    1, HEALTHY 0.6625 and JUNK 0.25. *)
Definition cured_meat : FoodItem :=
  {| name := "cured meat"; serving_size := 1; unit_ := "slice";
     nutritional_info :=
       {| calories := 200; protein := 20; carbohydrates := 1; fat := 12;
          sodium := 500; sugar := 0; fiber := 0;
          preservatives := ["E250"; "E251"; "E252"; "E316"; "E301"];
          processing_level := 3 |} |}.

(** An item on which HEALTHY scores more than 0.99 and JUNK less than
    0.02. *)
Definition lentils : FoodItem :=
  {| name := "lentils"; serving_size := 1; unit_ := "cup";
     nutritional_info :=
       {| calories := 100; protein := 9; carbohydrates := 20; fat := 0.4;
          sodium := 5; sugar := 2; fiber := 8;
          preservatives := [];
          processing_level := 1 |} |}.

End FoodClassifierSpec.

Module WaterRetentionSpec.
Import Core PyQ WaterRetentionPredictor.
Local Open Scope Q_scope.

(** The factors that the four signals yield, in generation order. *)
Definition qualifying_factors (l : LifestyleInput) : list RetentionFactor :=
  omap (λ factor, factor)
       [ _calculate_sodium_factor l; _calculate_hydration_factor l;
         _calculate_sleep_factor l; _calculate_stress_factor l ].

(** The lifestyle of the retention scenario: 2500 mg of sodium in all,
    1000 ml of water, a night of quality 3 and 5 hours, and stress habits
    whose highest intensity is 8. *)
Definition retention_scenario (l : LifestyleInput) : Prop :=
  total_sodium l == 2500 ∧
  water_intake l == 1000 ∧
  (∃ s, sleep_data l = Some s ∧ quality s = 3%Z ∧ duration s == 5) ∧
  (∃ i rest,
     map intensity (filter (λ h, type h = Core.STRESS) (daily_habits l))
       = i :: rest ∧ maxZ i rest = 8%Z).

(** A lifestyle that meets the scenario: the sodium comes from two food
    items, and caffeine and a lighter stress habit sit next to the
    intensity-8 one. *)
Definition scenario_food (na : Q) : FoodItem :=
  {| name := "meal"; serving_size := 1; unit_ := "plate";
     nutritional_info :=
       {| calories := 600; protein := 20; carbohydrates := 70; fat := 20;
          sodium := na; sugar := 10; fiber := 5;
          preservatives := []; processing_level := 3 |} |}.

Definition scenario_lifestyle : LifestyleInput :=
  {| food_items := [scenario_food 1500; scenario_food 1000];
     water_intake := 1000;
     sleep_data := Some {| duration := 5; quality := 3; interruptions := 2 |};
     daily_habits :=
       [ {| type := CAFFEINE; intensity := 6; habit_duration := None;
            notes := None |};
         {| type := Core.STRESS; intensity := 4; habit_duration := None;
            notes := None |};
         {| type := Core.STRESS; intensity := 8; habit_duration := Some 2;
            notes := None |} ];
     lifestyle_user_id := "user-123" |}.

Definition scenario_body : BodyType :=
  {| classification := ENDOMORPH; characteristics := []; user_id := "user-123" |}.

End WaterRetentionSpec.

Module TrendSpec.
Import Py TrendAnalyzer.
Local Open Scope R_scope.

(** The test of the scan loop on one value. *)
Definition exceeds (baseline value : R) : Prop :=
  significant_change_threshold < Rabs (value - baseline) / baseline.

(** The record that the loop builds for a qualifying point. *)
Definition change_at (metric : string) (baseline : R) (t : datetime)
    (value : R) : Change.t :=
  {| Change.metric := metric;
     Change.change_point := t;
     Change.magnitude := value - baseline;
     Change.description :=
       metric +:+ " "
         +:+ (if Rlt_dec 0 (value - baseline) then "increased"
              else "decreased")
         +:+ " by "
         +:+ pretty (py_int (Rabs (value - baseline) / baseline * 100))
         +:+ "% from baseline";
     Change.possible_causes := [] |}.

(** The baseline of a series: the mean of the first half of its values. *)
Definition baseline_of (time_series : Series) : R :=
  let values := map snd time_series in
  let midpoint := (length values / 2)%nat in
  sum (take midpoint values) / INR midpoint.

(** The observation window: the points from the midpoint on. *)
Definition window_of (time_series : Series) : Series :=
  drop (length time_series / 2)%nat time_series.

(** A step count that averages 100 over the first week and stays at 135
    over the second. *)
Definition rising : Series :=
  [ (0%Z, 90); (1%Z, 110); (2%Z, 100); (3%Z, 95); (4%Z, 105); (5%Z, 100);
    (6%Z, 100); (7%Z, 135); (8%Z, 135); (9%Z, 135); (10%Z, 135);
    (11%Z, 135); (12%Z, 135); (13%Z, 135) ].

(** The same shape below zero: the first week averages -100 and the
    second stays at 1.35 * -100 = -135. *)
Definition falling : Series :=
  [ (0%Z, -100); (1%Z, -100); (2%Z, -100); (3%Z, -100); (4%Z, -100);
    (5%Z, -100); (6%Z, -100); (7%Z, -135); (8%Z, -135); (9%Z, -135);
    (10%Z, -135); (11%Z, -135); (12%Z, -135); (13%Z, -135) ].

(** The dict comprehension, started from any dict. *)
Definition fill (d : gmap datetime R) (data : Series) : gmap datetime R :=
  foldl (λ d tv, <[tv.1 := tv.2]> d) d data.

(** The timestamps that [_align_time_series] walks through. *)
Definition common_sorted (data1 data2 : Series) : list datetime :=
  merge_sort Z.le (elements (dom (to_dict data1) ∩ dom (to_dict data2))).

(** One step of the list comprehension of [_align_time_series]. *)
Definition align_step (dict1 dict2 : gmap datetime R) (t : datetime)
    : result (datetime * R * R) :=
  v1 ← getitem dict1 t; v2 ← getitem dict2 t; Ok (t, v1, v2).

(** The quantities of the formula r = Σ(xi−x̄)(yi−ȳ) / (n·σx·σy): the
    mean, the sum of squared deviations, the sample standard deviation
    (divisor n−1, as [statistics.stdev] has it) and the sum of the
    products of the deviations. *)
Definition mean_of (xs : list R) : R := sum xs / INR (length xs).

Definition sq_dev (xs : list R) : R :=
  sum (map (λ x, (x - mean_of xs) ^ 2) xs).

Definition sample_sd (xs : list R) : R :=
  sqrt (sq_dev xs / (INR (length xs) - 1)).

Definition co_dev (xs ys : list R) : R :=
  sum (zip_with (λ x y, (x - mean_of xs) * (y - mean_of ys)) xs ys).

(** The dot product, and the deviations of a sequence from its mean. *)
Definition dot (us vs : list R) : R := sum (zip_with Rmult us vs).

Definition devs (xs : list R) : list R := map (λ x, x - mean_of xs) xs.

(** The label of the curated table for a pair of metrics, looked up
    under both orderings as [_assess_causality] does. *)
Definition curated_label (metric1 metric2 : string) : option CausalityLevel :=
  match pair_lookup causal_pairs (lower metric1, lower metric2) with
  | Some c => Some c
  | None => pair_lookup causal_pairs (lower metric2, lower metric1)
  end.

(** The two value columns of an alignment. *)
Definition column1 (l : list (datetime * R * R)) : list R :=
  map (λ a, a.1.2) l.
Definition column2 (l : list (datetime * R * R)) : list R :=
  map (λ a, a.2) l.

(** The record that [detect_correlations] builds for a strength [r]. *)
Definition correlation_of (metric1 metric2 : string) (r : R)
    : Correlation.t :=
  {| Correlation.metric1 := metric1;
     Correlation.metric2 := metric2;
     Correlation.strength := r;
     Correlation.description :=
       "A " +:+ (if Rlt_dec 0.7 (Rabs r) then "strong" else "moderate")
         +:+ " " +:+ (if Rlt_dec 0 r then "positive" else "negative")
         +:+ " correlation exists between " +:+ metric1 +:+ " and "
         +:+ metric2;
     Correlation.causality := _assess_causality metric1 metric2 r |}.

(** Two outcomes of [detect_correlations] agree: both are none, or both
    are Correlations of the same strength and causality. *)
Definition same_finding (o1 o2 : option Correlation.t) : Prop :=
  match o1, o2 with
  | Some c1, Some c2 =>
      Correlation.strength c1 = Correlation.strength c2 ∧
      Correlation.causality c1 = Correlation.causality c2
  | None, None => True
  | _, _ => False
  end.

(** The noise-free pair B = 2·A over the days 0..9, A = 1, ..., 10. *)
Definition ramp_A : Series :=
  [ (0%Z, 1); (1%Z, 2); (2%Z, 3); (3%Z, 4); (4%Z, 5);
    (5%Z, 6); (6%Z, 7); (7%Z, 8); (8%Z, 9); (9%Z, 10) ].

Definition ramp_B : Series :=
  [ (0%Z, 2); (1%Z, 4); (2%Z, 6); (3%Z, 8); (4%Z, 10);
    (5%Z, 12); (6%Z, 14); (7%Z, 16); (8%Z, 18); (9%Z, 20) ].


End TrendSpec.

(** *** Well-formed inputs

    The field constraints of the pydantic models of [models/core.py]
    ([ge=0] on the quantities, [ge=1, le=5] on the processing level). *)

Module InputSpec.
Import Core.
Local Open Scope Q_scope.

Definition valid_nutrition (n : NutritionalInfo) : Prop :=
  0 <= calories n ∧ 0 <= protein n ∧ 0 <= carbohydrates n ∧ 0 <= fat n ∧
  0 <= sodium n ∧ 0 <= sugar n ∧ 0 <= fiber n ∧
  (1 <= processing_level n <= 5)%Z.

(** A score of the range 0 to 1. *)
Definition unit_range (x : Q) : Prop := 0 <= x <= 1.

End InputSpec.

(** *** Retention levels and optimal lifestyles *)

Module RetentionSpec.
Import Core PyQ WaterRetentionPredictor.
Local Open Scope Q_scope.

(** LOW < MODERATE < HIGH. *)
Definition level_rank (l : RetentionLevel) : Z :=
  match l with
  | LOW => 0
  | MODERATE => 1
  | HIGH => 2
  end.

(** Highest impact first. *)
Definition impact_ge (f g : RetentionFactor) : Prop :=
  (impact g <= impact f)%Z.

(** A lifestyle on which no signal fires: sodium below 1500 mg, water
    from 2000 to 4500 ml, no sleep record or a night of quality above 5
    and 6 hours or more, and no stress habit of intensity 5 or more. *)
Definition optimal_lifestyle (l : LifestyleInput) : Prop :=
  total_sodium l < 1500 ∧
  2000 <= water_intake l <= 4500 ∧
  match sleep_data l with
  | None => True
  | Some s => (5 < quality s)%Z ∧ 6 <= duration s
  end ∧
  Forall (λ h, type h = Core.STRESS → (intensity h < 5)%Z) (daily_habits l).

(** The factor that [predict_retention] makes up when none qualifies. *)
Definition neutral_factor : RetentionFactor :=
  {| factor_type := HYDRATION; impact := 1 |}.

(** A quiet day: 2.5 l of water, a good night, a light stress habit. *)
Definition quiet_day : LifestyleInput :=
  {| food_items := [];
     water_intake := 2500;
     sleep_data := Some {| duration := 8; quality := 8; interruptions := 0 |};
     daily_habits :=
       [ {| type := Core.STRESS; intensity := 3; habit_duration := None;
            notes := None |};
         {| type := EXERCISE; intensity := 9; habit_duration := Some 1;
            notes := None |} ];
     lifestyle_user_id := "user-123" |}.

End RetentionSpec.

(** ** The vocabulary of the regression and of the façade *)

Module SeriesSpec.
Import Py TrendAnalyzer TrendSpec.
Local Open Scope R_scope.

(** [list(range(n))], as floats. *)
Definition indices (n : nat) : list R := map INR (seq 0 n).

(** The least-squares slope of the values over their indices. *)
Definition fitted_slope (values : list R) : R :=
  co_dev (indices (length values)) values / sq_dev (indices (length values)).

(** The residual sum of squares of the fitted line. *)
Definition residual (values : list R) : R :=
  let x := indices (length values) in
  sum (zip_with (λ v p, (v - p) ^ 2) values
         (map (λ i, mean_of values + fitted_slope values * (i - mean_of x))
              x)).

(** The Pattern that [_detect_pattern] builds. *)
Definition pattern_of (metric : string) (trend : TrendType) (confidence : R)
    (time_range : TimeRange) : Pattern.t :=
  {| Pattern.metric := metric;
     Pattern.trend := trend;
     Pattern.confidence := confidence;
     Pattern.description :=
       "The " +:+ metric +:+ " shows a " +:+ TrendType_value trend
         +:+ " trend over the analyzed period";
     Pattern.time_range := time_range |}.

(** The values a·0 + b, a·1 + b, ..., a·(n−1) + b of a straight line,
    and a series that takes them on the days 0, 1, ..., n−1. *)
Definition line_values (a b : R) (n : nat) : list R :=
  map (λ i, a * INR i + b) (seq 0 n).

Definition line_series (a b : R) (n : nat) : Series :=
  map (λ i, (Z.of_nat i, a * INR i + b)) (seq 0 n).

(** The direction of a slope that is not zero. *)
Definition slope_trend (a : R) : TrendType :=
  if Rlt_dec 0 a then INCREASING else DECREASING.

Definition sign_of (k : R) : R := if Rlt_dec 0 k then 1 else -1.

(** The items of a data set that [analyze_trends] analyses, and the
    chart it draws for one. *)
Definition analysed (data : Data) : Data :=
  filter (λ kv, (3 <= length kv.2)%nat) data.

(** [a] comes before [b] in the list [l]. *)
Definition before (l : list string) (a b : string) : Prop :=
  ∃ pre mid post, l = pre ++ a :: mid ++ b :: post.

Definition line_chart (kv : string * Series) : ChartData.t :=
  {| ChartData.metric := kv.1;
     ChartData.data_points := kv.2;
     ChartData.chart_type := "line" |}.

(** Two small data sets: a flat weight with a single step count, and
    the noise-free pair. *)
Definition flat_data : Data :=
  [ ("weight", [(0%Z, 5); (1%Z, 5); (2%Z, 5)]); ("steps", [(0%Z, 1)]) ].

Definition ramp_data : Data := [ ("metric_a", ramp_A); ("metric_b", ramp_B) ].

End SeriesSpec.

(** * Properties *)

(** ** The food classifier *)

Module FoodClassifierProps.
Import Core PyQ FoodClassifier FoodClassifierSpec.
Local Open Scope Q_scope.

Lemma py_min_Qmin a b : py_min a b == Qmin a b.
Proof.
  unfold py_min. destruct (Qlt_le_dec b a) as [Hlt | Hle].
  - symmetry. apply Q.min_r. lra.
  - symmetry. apply Q.min_l. lra.
Qed.

Lemma py_max_Qmax a b : py_max a b == Qmax a b.
Proof.
  unfold py_max. destruct (Qlt_le_dec a b) as [Hlt | Hle].
  - symmetry. apply Q.max_r. lra.
  - symmetry. apply Q.max_l. lra.
Qed.

Lemma py_max_ge_l a b : a <= py_max a b.
Proof. unfold py_max. destruct (Qlt_le_dec a b); lra. Qed.

Lemma py_max_ge_r a b : b <= py_max a b.
Proof. unfold py_max. destruct (Qlt_le_dec a b); lra. Qed.

Lemma py_max_cases a b : py_max a b = a ∨ py_max a b = b.
Proof. unfold py_max. destruct (Qlt_le_dec a b); auto. Qed.

Lemma py_min_le_l a b : py_min a b <= a.
Proof. unfold py_min. destruct (Qlt_le_dec b a); lra. Qed.

Lemma py_min_le_r a b : py_min a b <= b.
Proof. unfold py_min. destruct (Qlt_le_dec b a); lra. Qed.

(** [max(xs)] is an element of the sequence and bounds every element. *)
Lemma py_max_list_elem x xs : py_max_list x xs ∈ x :: xs.
Proof.
  unfold py_max_list. revert x. induction xs as [| y ys IH]; intros x; simpl.
  - left.
  - destruct (py_max_cases x y) as [E | E]; rewrite E.
    + pose proof (IH x) as H. apply elem_of_cons in H as [H | H].
      * rewrite H. left.
      * right. right. exact H.
    + right. apply IH.
Qed.

Lemma py_max_list_ge_head x xs : x <= py_max_list x xs.
Proof.
  unfold py_max_list. revert x. induction xs as [| y ys IH]; intros x; simpl.
  - lra.
  - pose proof (IH (py_max x y)). pose proof (py_max_ge_l x y). lra.
Qed.

Lemma py_max_list_upper x xs s : s ∈ x :: xs → s <= py_max_list x xs.
Proof.
  unfold py_max_list. revert x. induction xs as [| y ys IH]; intros x Hin; simpl.
  - apply list_elem_of_singleton in Hin as ->. lra.
  - apply elem_of_cons in Hin as [-> | Hin].
    + pose proof (py_max_list_ge_head (py_max x y) ys) as H.
      unfold py_max_list in H. pose proof (py_max_ge_l x y). lra.
    + apply elem_of_cons in Hin as [-> | Hin].
      * pose proof (py_max_list_ge_head (py_max x y) ys) as H.
        unfold py_max_list in H. pose proof (py_max_ge_r x y). lra.
      * apply IH. set_solver.
Qed.

(** The score dict always has the three categories, in this order. *)
Lemma scores_shape f fsi :
  ∃ h j p, _calculate_category_scores f fsi
           = [(HEALTHY, h); (JUNK, j); (PRESERVATIVE_HEAVY, p)].
Proof. unfold _calculate_category_scores. eauto. Qed.

Lemma clamp_py x : py_min 95 (py_max 60 x) == clamp x 60 95.
Proof.
  unfold clamp. rewrite py_min_Qmin. apply Q.min_compat; [reflexivity |].
  apply py_max_Qmax.
Qed.

Lemma clamp_bounds x : 60 <= py_min 95 (py_max 60 x) <= 95.
Proof.
  unfold py_min, py_max.
  destruct (Qlt_le_dec 60 x); destruct (Qlt_le_dec _ 95); lra.
Qed.

(** What [_calculate_confidence] returns when some other category is
    scored: the clamp of the separation from the best other score. *)
Lemma calculate_confidence_spec (scores : Scores) (c : FoodCategory) :
  let others := map snd (filter (λ cs, cs.1 ≠ c) scores) in
  others ≠ [] →
  ∃ second_best,
    second_best ∈ others ∧ (∀ s, s ∈ others → s <= second_best) ∧
    _calculate_confidence scores c
      == clamp (60 + 70 * (score_of scores c - second_best)) 60 95.
Proof.
  intros others Hne. unfold _calculate_confidence. fold others.
  destruct others as [| s rest]; [done |].
  exists (py_max_list s rest). split; [apply py_max_list_elem |].
  split; [intros s' Hs'; by apply py_max_list_upper |].
  rewrite clamp_py. unfold clamp.
  apply Q.min_compat; [reflexivity |]. apply Q.max_compat; [reflexivity |].
  ring.
Qed.

Lemma calculate_confidence_bounds (scores : Scores) (c : FoodCategory) :
  60 <= _calculate_confidence scores c <= 95.
Proof.
  unfold _calculate_confidence.
  destruct (map snd _) as [| s rest]; [lra | apply clamp_bounds].
Qed.

(** C4.  The confidence of every classification is
    clamp(60 + 70 * (winner score - best other score), 60, 95), where the
    best other score is the maximum over the other categories of the
    score dict; hence it lies between 60 and 95.  With a single scored
    category the confidence is exactly 95. *)
Theorem classify_food_confidence (f : FoodItem) :
  let scores := _calculate_category_scores f (get_fsi_parameters f) in
  let winner := category (classify_food f) in
  let others := map snd (filter (λ cs, cs.1 ≠ winner) scores) in
  (∃ second_best,
     second_best ∈ others ∧ (∀ s, s ∈ others → s <= second_best) ∧
     confidence (classify_food f)
       == clamp (60 + 70 * (score_of scores winner - second_best)) 60 95) ∧
  60 <= confidence (classify_food f) <= 95 ∧
  (∀ c s, _calculate_confidence [(c, s)] c = 95).
Proof.
  intros scores winner others. split; [| split].
  - apply (calculate_confidence_spec scores winner).
    unfold scores.
    destruct (scores_shape f (get_fsi_parameters f)) as (h & j & p & ->).
    destruct winner; discriminate.
  - apply calculate_confidence_bounds.
  - intros c s. destruct c; reflexivity.
Qed.

(** The override of [_select_dominant_category]. *)
Lemma select_many_preservatives (f : FoodItem) (scores : Scores) :
  (3 <= length (preservatives (nutritional_info f)))%nat →
  _select_dominant_category scores f = PRESERVATIVE_HEAVY.
Proof.
  intros Hn. unfold _select_dominant_category.
  assert (Hb : (PRESERVATIVE_COUNT_THRESHOLD
                  <=? length (preservatives (nutritional_info f)))%nat = true)
    by (apply Nat.leb_le; exact Hn).
  by rewrite Hb.
Qed.

(** C5.  With at least three preservatives the category is
    PRESERVATIVE_HEAVY: the override in [_select_dominant_category]
    answers before the arg-max is looked at, whatever the scores are, and
    the hard threshold has raised the preservative score to 0.8 or more. *)
Theorem preservative_override (f : FoodItem) :
  (3 <= length (preservatives (nutritional_info f)))%nat →
  category (classify_food f) = PRESERVATIVE_HEAVY ∧
  (∀ scores : Scores,
     _select_dominant_category scores f = PRESERVATIVE_HEAVY) ∧
  0.8 <= score_of (_calculate_category_scores f (get_fsi_parameters f))
           PRESERVATIVE_HEAVY.
Proof.
  intros Hn.
  assert (Hb : (PRESERVATIVE_COUNT_THRESHOLD
                  <=? length (preservatives (nutritional_info f)))%nat = true)
    by (apply Nat.leb_le; exact Hn).
  split; [by apply (select_many_preservatives f) | split].
  { intros scores. by apply select_many_preservatives. }
  unfold _calculate_category_scores. rewrite Hb. simpl.
  apply py_max_ge_r.
Qed.

(** On the salted snack JUNK is the arg-max, and the override answers
    PRESERVATIVE_HEAVY. *)
Lemma preservative_override_witness :
  max_key (_calculate_category_scores salted_snack
             (get_fsi_parameters salted_snack)) = JUNK ∧
  category (classify_food salted_snack) = PRESERVATIVE_HEAVY.
Proof.
  split; [vm_compute; reflexivity |].
  apply (preservative_override salted_snack). simpl. lia.
Defined.

(** With fewer than three preservatives the preservative score stays
    below the 0.6 gate of [_select_dominant_category]. *)
Lemma few_preservatives_score (f : FoodItem) :
  (length (preservatives (nutritional_info f)) < 3)%nat →
  score_of (_calculate_category_scores f (get_fsi_parameters f))
    PRESERVATIVE_HEAVY < 0.6.
Proof.
  intros Hn. unfold _calculate_category_scores.
  assert (Hb : (PRESERVATIVE_COUNT_THRESHOLD
                  <=? length (preservatives (nutritional_info f)))%nat = false)
    by (apply Nat.leb_gt; exact Hn).
  rewrite Hb. simpl.
  pose proof (py_min_le_r 1 (count_of (preservatives (nutritional_info f)) / 5))
    as Hle.
  assert (Hc : count_of (preservatives (nutritional_info f)) <= 2).
  { unfold count_of. rewrite <- (Zle_Qle _ 2). lia. }
  revert Hle. unfold Qdiv. change (/ 5) with (1 # 5). lra.
Qed.

(** The selection, once the override and the 0.6 gate are out of the way. *)
Lemma select_few_preservatives (f : FoodItem) :
  let scores := _calculate_category_scores f (get_fsi_parameters f) in
  (length (preservatives (nutritional_info f)) < 3)%nat →
  category (classify_food f) =
    if decide (max_key scores = HEALTHY) then
      if Qlt_le_dec (Qabs (score_of scores JUNK - score_of scores HEALTHY)) 0.15
      then JUNK else HEALTHY
    else max_key scores.
Proof.
  intros scores Hn.
  change (category (classify_food f))
    with (_select_dominant_category scores f).
  unfold _select_dominant_category. cbv zeta.
  assert (Hb : (PRESERVATIVE_COUNT_THRESHOLD
                  <=? length (preservatives (nutritional_info f)))%nat = false)
    by (apply Nat.leb_gt; exact Hn).
  rewrite Hb.
  pose proof (few_preservatives_score f Hn) as Hp. fold scores in Hp.
  destruct (Qlt_le_dec (score_of scores PRESERVATIVE_HEAVY) 0.6) as [_ | Hge];
    [| lra].
  destruct (decide (max_key scores = HEALTHY)) as [-> | _]; reflexivity.
Qed.

(** The arg-max of the three scores, read off the scores. *)
Lemma max_key_scores (h j p : Q) :
  let scores := [(HEALTHY, h); (JUNK, j); (PRESERVATIVE_HEAVY, p)] in
  (max_key scores = HEALTHY ↔ j <= h ∧ p <= h) ∧
  (max_key scores = JUNK ↔ h < j ∧ p <= j) ∧
  (max_key scores = PRESERVATIVE_HEAVY ↔
     (h < j ∧ j < p) ∨ (j <= h ∧ h < p)).
Proof.
  simpl. destruct (Qlt_le_dec h j); simpl;
    destruct (Qlt_le_dec _ p); simpl;
    repeat split; intros; try done; try lra;
    try (exfalso; lra); try (left; split; lra); try (right; split; lra);
    repeat match goal with H : _ ∨ _ |- _ => destruct H end; lra.
Qed.

(** C6.  With fewer than three preservatives, a HEALTHY score that is
    (weakly) the highest and a JUNK score less than 0.15 below it give
    JUNK.  The tie-break second-guesses a HEALTHY winner only: a JUNK
    score above the HEALTHY score and not below the PRESERVATIVE_HEAVY
    score gives JUNK, a PRESERVATIVE_HEAVY score above both others gives
    PRESERVATIVE_HEAVY, and HEALTHY is returned only when its score is
    (weakly) the highest and the JUNK score is 0.15 or more below it. *)
Theorem caution_tie_break (f : FoodItem) :
  let scores := _calculate_category_scores f (get_fsi_parameters f) in
  ((length (preservatives (nutritional_info f)) < 3)%nat →
   score_of scores JUNK <= score_of scores HEALTHY →
   score_of scores PRESERVATIVE_HEAVY <= score_of scores HEALTHY →
   score_of scores HEALTHY - score_of scores JUNK < 0.15 →
   category (classify_food f) = JUNK) ∧
  ((length (preservatives (nutritional_info f)) < 3)%nat →
   score_of scores HEALTHY < score_of scores JUNK →
   score_of scores PRESERVATIVE_HEAVY <= score_of scores JUNK →
   category (classify_food f) = JUNK) ∧
  (score_of scores HEALTHY < score_of scores PRESERVATIVE_HEAVY →
   score_of scores JUNK < score_of scores PRESERVATIVE_HEAVY →
   category (classify_food f) = PRESERVATIVE_HEAVY) ∧
  (category (classify_food f) = HEALTHY →
   score_of scores JUNK <= score_of scores HEALTHY ∧
   score_of scores PRESERVATIVE_HEAVY <= score_of scores HEALTHY ∧
   0.15 <= score_of scores HEALTHY - score_of scores JUNK).
Proof.
  intros scores.
  assert (Hsel : (length (preservatives (nutritional_info f)) < 3)%nat →
    category (classify_food f) =
      if decide (max_key scores = HEALTHY) then
        if Qlt_le_dec (Qabs (score_of scores JUNK - score_of scores HEALTHY))
             0.15
        then JUNK else HEALTHY
      else max_key scores)
    by apply (select_few_preservatives f).
  assert (Hmany : (3 <= length (preservatives (nutritional_info f)))%nat →
    category (classify_food f) = PRESERVATIVE_HEAVY)
    by (intros Hge; by apply (select_many_preservatives f scores)).
  revert Hsel. unfold scores. clear scores.
  destruct (scores_shape f (get_fsi_parameters f)) as (h & j & p & ->).
  destruct (max_key_scores h j p) as (HmH & HmJ & HmP).
  set (S := [(HEALTHY, h); (JUNK, j); (PRESERVATIVE_HEAVY, p)]) in *.
  change (score_of S HEALTHY) with h.
  change (score_of S JUNK) with j.
  change (score_of S PRESERVATIVE_HEAVY) with p.
  intros Hsel. split; [| split; [| split]].
  - intros Hn Hj Hp Hclose. rewrite (Hsel Hn).
    rewrite decide_True by (apply HmH; by split).
    destruct (Qlt_le_dec _ 0.15) as [_ | Hfar]; [reflexivity |].
    exfalso. revert Hfar. apply Qlt_not_le.
    apply Qabs_case; intros; lra.
  - intros Hn Hj Hp. rewrite (Hsel Hn).
    assert (Hm : max_key S = JUNK) by (apply HmJ; by split).
    rewrite Hm. by rewrite decide_False.
  - intros Hh Hj.
    destruct (le_lt_dec 3 (length (preservatives (nutritional_info f))))
      as [Hge | Hlt]; [by apply Hmany |].
    rewrite (Hsel Hlt).
    assert (Hm : max_key S = PRESERVATIVE_HEAVY).
    { apply HmP. destruct (Qlt_le_dec h j); [left | right]; split; lra. }
    rewrite Hm. by rewrite decide_False.
  - intros Hcat.
    destruct (le_lt_dec 3 (length (preservatives (nutritional_info f))))
      as [Hge | Hlt].
    { rewrite (Hmany Hge) in Hcat. discriminate. }
    rewrite (Hsel Hlt) in Hcat.
    destruct (decide (max_key _ = HEALTHY)) as [E | Hne];
      [| contradiction].
    apply HmH in E as [Hj Hp].
    destruct (Qlt_le_dec _ 0.15) as [| Hfar]; [discriminate |].
    split; [exact Hj |]. split; [exact Hp |].
    revert Hfar. apply Qabs_case; intros; lra.
Qed.

(** The four cases: the sweet cereal (HEALTHY ahead of JUNK by 0.0725),
    the fried snack (JUNK ahead), the cured meat (PRESERVATIVE_HEAVY
    ahead) and the lentils (classified HEALTHY). *)
Lemma caution_tie_break_witness :
  category (classify_food sweet_cereal) = JUNK ∧
  category (classify_food fried_snack) = JUNK ∧
  category (classify_food cured_meat) = PRESERVATIVE_HEAVY ∧
  0.15 <= score_of (_calculate_category_scores lentils
                      (get_fsi_parameters lentils)) HEALTHY
          - score_of (_calculate_category_scores lentils
                        (get_fsi_parameters lentils)) JUNK.
Proof.
  split; [| split; [| split]].
  - destruct (caution_tie_break sweet_cereal) as (Hclose & _).
    apply Hclose; first [simpl; lia | by vm_compute].
  - destruct (caution_tie_break fried_snack) as (_ & Hjunk & _).
    apply Hjunk; first [simpl; lia | by vm_compute].
  - destruct (caution_tie_break cured_meat) as (_ & _ & Hheavy & _).
    apply Hheavy; by vm_compute.
  - destruct (caution_tie_break lentils) as (_ & _ & _ & Hhealthy).
    apply Hhealthy. by vm_compute.
Defined.

End FoodClassifierProps.

(** ** The water-retention predictor *)

Module WaterRetentionProps.
Import Core PyQ WaterRetentionPredictor WaterRetentionSpec.
Local Open Scope Q_scope.

Lemma foldl_add_shift (a : Z) (l : list Z) :
  foldl Z.add a l = (a + foldl Z.add 0 l)%Z.
Proof.
  revert a. induction l as [| x l IH]; intros a; simpl; [lia |].
  rewrite (IH (a + x)%Z), (IH (0 + x)%Z). lia.
Qed.

Lemma sumZ_cons (x : Z) (l : list Z) : sumZ (x :: l) = (x + sumZ l)%Z.
Proof. unfold sumZ. simpl. apply foldl_add_shift. Qed.

Lemma sumZ_perm (l1 l2 : list Z) : l1 ≡ₚ l2 → sumZ l1 = sumZ l2.
Proof.
  induction 1 as [| x l1 l2 _ IH | x y l | l1 l2 l3 _ IH1 _ IH2].
  - reflexivity.
  - rewrite !sumZ_cons. lia.
  - rewrite !sumZ_cons. lia.
  - congruence.
Qed.

Lemma insert_by_impact_perm f l : insert_by_impact f l ≡ₚ f :: l.
Proof.
  induction l as [| g l IH]; simpl; [reflexivity |].
  destruct (impact g <=? impact f)%Z; [reflexivity |].
  rewrite IH. apply Permutation_swap.
Qed.

Lemma sort_by_impact_perm l : sort_by_impact l ≡ₚ l.
Proof.
  induction l as [| f l IH]; simpl; [reflexivity |].
  rewrite insert_by_impact_perm. by rewrite IH.
Qed.

Lemma analyze_retention_factors_perm (l : LifestyleInput) :
  analyze_retention_factors l ≡ₚ qualifying_factors l.
Proof.
  unfold analyze_retention_factors, qualifying_factors.
  rewrite sort_by_impact_perm.
  destruct (_calculate_sodium_factor l), (_calculate_hydration_factor l),
    (_calculate_sleep_factor l), (_calculate_stress_factor l); reflexivity.
Qed.

(** Every factor that a signal yields has an impact between 1 and 3. *)
Ltac factor_cases :=
  intros Hf; repeat case_match; simplify_eq; simpl; lia.

Lemma sodium_factor_impact l f :
  _calculate_sodium_factor l = Some f → (1 <= impact f <= 3)%Z.
Proof. unfold _calculate_sodium_factor. factor_cases. Qed.

Lemma hydration_factor_impact l f :
  _calculate_hydration_factor l = Some f → (1 <= impact f <= 3)%Z.
Proof. unfold _calculate_hydration_factor. factor_cases. Qed.

Lemma sleep_factor_impact l f :
  _calculate_sleep_factor l = Some f → (1 <= impact f <= 3)%Z.
Proof. unfold _calculate_sleep_factor. factor_cases. Qed.

Lemma stress_factor_impact l f :
  _calculate_stress_factor l = Some f → (1 <= impact f <= 3)%Z.
Proof. unfold _calculate_stress_factor. factor_cases. Qed.

Lemma qualifying_factors_impact (l : LifestyleInput) (f : RetentionFactor) :
  f ∈ qualifying_factors l → (1 <= impact f <= 3)%Z.
Proof.
  unfold qualifying_factors. intros Hin.
  apply list_elem_of_omap in Hin as (o & Ho & Hf).
  repeat (apply elem_of_cons in Ho as [-> | Ho]);
    eauto using sodium_factor_impact, hydration_factor_impact,
      sleep_factor_impact, stress_factor_impact.
  by apply elem_of_nil in Ho.
Qed.

Lemma adjusted_score_qualifying (l : LifestyleInput) (b : BodyType) :
  adjusted_score_of (analyze_retention_factors l) b
  = inject_Z (sumZ (map impact (qualifying_factors l)))
      * BODY_TYPE_SENSITIVITY (classification b).
Proof.
  unfold adjusted_score_of. f_equal. f_equal. apply sumZ_perm.
  by rewrite analyze_retention_factors_perm.
Qed.

Lemma retention_scenario_factors (l : LifestyleInput) :
  retention_scenario l →
  analyze_retention_factors l
  = [ {| factor_type := SODIUM; impact := 3 |};
      {| factor_type := HYDRATION; impact := 2 |};
      {| factor_type := SLEEP; impact := 2 |};
      {| factor_type := STRESS; impact := 2 |} ].
Proof.
  intros (Hna & Hwater & (s & Hs & Hq & Hd) & (i & rest & Hi & Hmax)).
  assert (H1 : _calculate_sodium_factor l
               = Some {| factor_type := SODIUM; impact := 3 |}).
  { unfold _calculate_sodium_factor, geb, HIGH_SODIUM_THRESHOLD.
    destruct (Qlt_le_dec (total_sodium l) 2000); [lra | reflexivity]. }
  assert (H2 : _calculate_hydration_factor l
               = Some {| factor_type := HYDRATION; impact := 2 |}).
  { unfold _calculate_hydration_factor, gtb, LOW_WATER_THRESHOLD.
    destruct (Qlt_le_dec (water_intake l) 1500); [reflexivity | lra]. }
  assert (H3 : _calculate_sleep_factor l
               = Some {| factor_type := SLEEP; impact := 2 |}).
  { unfold _calculate_sleep_factor, gtb, POOR_SLEEP_DURATION_THRESHOLD.
    rewrite Hs, Hq. simpl.
    destruct (Qlt_le_dec (duration s) 6); [reflexivity | lra]. }
  assert (H4 : _calculate_stress_factor l
               = Some {| factor_type := STRESS; impact := 2 |}).
  { unfold _calculate_stress_factor. rewrite Hi, Hmax. reflexivity. }
  unfold analyze_retention_factors. rewrite H1, H2, H3, H4. reflexivity.
Qed.

(** C7.  The adjusted score of [predict_retention] is the sum of the
    impacts of the factors that the signals yield, times the sensitivity
    of the body type (ectomorph 0.8, mesomorph 1.0, mixed 1.1, endomorph
    1.3); the level is LOW up to 2, MODERATE up to 5 and HIGH above.  In
    the scenario with an ENDOMORPH body type the level is HIGH, the four
    factors contribute, and the primary factor is the sodium one. *)
Theorem predict_retention_level (l : LifestyleInput) (b : BodyType) :
  let r := predict_retention l b in
  let adjusted :=
    inject_Z (sumZ (map impact (qualifying_factors l)))
      * BODY_TYPE_SENSITIVITY (classification b) in
  (BODY_TYPE_SENSITIVITY ECTOMORPH = 0.8 ∧
   BODY_TYPE_SENSITIVITY MESOMORPH = 1.0 ∧
   BODY_TYPE_SENSITIVITY MIXED = 1.1 ∧
   BODY_TYPE_SENSITIVITY ENDOMORPH = 1.3) ∧
  contributing_factors r ≡ₚ qualifying_factors l ∧
  (adjusted <= 2 → level r = LOW) ∧
  (2 < adjusted → adjusted <= 5 → level r = MODERATE) ∧
  (5 < adjusted → level r = HIGH) ∧
  (retention_scenario l → classification b = ENDOMORPH →
   level r = HIGH ∧
   (3 <= length (contributing_factors r))%nat ∧
   primary_factor r ∈ contributing_factors r ∧
   factor_type (primary_factor r) = SODIUM).
Proof.
  intros r adjusted.
  assert (Hlevel : level r =
            if geb 2 adjusted then LOW
            else if geb 5 adjusted then MODERATE else HIGH).
  { unfold r, predict_retention. cbv zeta. simpl level.
    by rewrite adjusted_score_qualifying. }
  split; [by repeat split |].
  split; [apply analyze_retention_factors_perm |].
  split; [| split; [| split]].
  - intros H. rewrite Hlevel. unfold geb.
    destruct (Qlt_le_dec 2 adjusted); [lra | reflexivity].
  - intros H2 H5. rewrite Hlevel. unfold geb.
    destruct (Qlt_le_dec 2 adjusted); [| lra].
    destruct (Qlt_le_dec 5 adjusted); [lra | reflexivity].
  - intros H. rewrite Hlevel. unfold geb.
    destruct (Qlt_le_dec 2 adjusted); [| lra].
    destruct (Qlt_le_dec 5 adjusted); [reflexivity | lra].
  - intros Hsc Hb.
    pose proof (retention_scenario_factors l Hsc) as Hf.
    unfold r, predict_retention. cbv zeta. rewrite Hf.
    unfold adjusted_score_of. rewrite Hb.
    repeat split; simpl; [lia | set_solver].
Qed.

(** The scenario on a concrete lifestyle: four factors, 9 points of
    impact, an adjusted score of 11.7. *)
Lemma predict_retention_level_witness :
  level (predict_retention scenario_lifestyle scenario_body) = HIGH ∧
  factor_type (primary_factor (predict_retention scenario_lifestyle
                                 scenario_body)) = SODIUM.
Proof.
  destruct (predict_retention_level scenario_lifestyle scenario_body)
    as (_ & _ & _ & _ & _ & Hsc).
  destruct Hsc as (Hl & _ & _ & Hp).
  - split; [by vm_compute | split; [by vm_compute | split]].
    + exists {| duration := 5; quality := 3; interruptions := 2 |}.
      split; [reflexivity | split; [reflexivity | by vm_compute]].
    + exists 4%Z, [8%Z]. split; reflexivity.
  - reflexivity.
  - split; assumption.
Defined.

End WaterRetentionProps.

(** ** The trend analyzer: sums, means and deviations *)

Module TrendStats.
Import Py TrendAnalyzer TrendSpec.
Local Open Scope R_scope.

(** Binding a value that was returned. *)
Lemma bind_Ok {A B} (f : A → result B) (a : A) : (Ok a ≫= f) = f a.
Proof. reflexivity. Qed.

Lemma sum_cons (x : R) (l : list R) : sum (x :: l) = x + sum l.
Proof. reflexivity. Qed.

Lemma sum_replicate (n : nat) (c : R) : sum (replicate n c) = INR n * c.
Proof.
  induction n as [| n IH].
  - unfold sum. simpl. lra.
  - rewrite S_INR. change (replicate (S n) c) with (c :: replicate n c).
    rewrite sum_cons, IH. lra.
Qed.

Lemma sum_zero (l : list R) : Forall (λ x, x = 0) l → sum l = 0.
Proof.
  induction 1 as [| x l Hx _ IH]; [reflexivity |].
  rewrite sum_cons, IH, Hx. lra.
Qed.

Lemma sum_nonneg (l : list R) : Forall (λ x, 0 <= x) l → 0 <= sum l.
Proof.
  induction 1 as [| x l Hx _ IH]; [unfold sum; simpl; lra |].
  rewrite sum_cons. lra.
Qed.

(** A sum of non-negative terms is zero only if every term is. *)
Lemma sum_nonneg_zero (l : list R) :
  Forall (λ x, 0 <= x) l → sum l = 0 → Forall (λ x, x = 0) l.
Proof.
  induction 1 as [| x l Hx Hl IH]; intros Hs; [constructor |].
  rewrite sum_cons in Hs. pose proof (sum_nonneg l Hl).
  constructor; [lra | apply IH; lra].
Qed.

Lemma Forall_squares {A} (f : A → R) (l : list A) :
  Forall (λ x, 0 <= x) (map (λ a, f a ^ 2) l).
Proof.
  apply Forall_map, Forall_forall. intros a _. simpl. nra.
Qed.

Lemma sum_squares_nonneg {A} (f : A → R) (l : list A) :
  0 <= sum (map (λ a, f a ^ 2) l).
Proof. apply sum_nonneg, Forall_squares. Qed.

Lemma length_ge_nonempty {A} (l : list A) (k : nat) :
  (S k <= length l)%nat → l ≠ [].
Proof. destruct l; simpl; [lia | done]. Qed.

Lemma statistics_mean_ok (xs : list R) :
  xs ≠ [] → statistics_mean xs = Ok (sum xs / INR (length xs)).
Proof. destruct xs; [done | reflexivity]. Qed.

Lemma statistics_stdev_ok (xs : list R) :
  (2 <= length xs)%nat →
  stdev_or_zero xs
  = Ok (sqrt (sum (map (λ x, (x - sum xs / INR (length xs)) ^ 2) xs)
              / (INR (length xs) - 1))).
Proof.
  intros Hn. unfold stdev_or_zero, statistics_stdev.
  assert (H1 : (1 <? length xs)%nat = true) by (apply Nat.ltb_lt; lia).
  assert (H2 : (length xs <? 2)%nat = false) by (apply Nat.ltb_ge; lia).
  by rewrite H1, H2.
Qed.

(** The mean of a constant sequence is the constant. *)
Lemma mean_replicate (n : nat) (c : R) :
  (0 < n)%nat → sum (replicate n c) / INR n = c.
Proof.
  intros Hn. rewrite sum_replicate. field.
  apply not_0_INR. lia.
Qed.

Lemma py_max_min_bounds (lo hi x : R) :
  lo <= hi → lo <= py_max lo (py_min hi x) <= hi.
Proof.
  intros H. unfold py_max, py_min.
  destruct (Rlt_dec x hi); destruct (Rlt_dec lo _); lra.
Qed.

Lemma confidence_valid (x : R) : 0 <= py_max 50 (py_min 100 x) <= 100.
Proof. pose proof (py_max_min_bounds 50 100 x). lra. Qed.

Lemma mk_Pattern_ok metric trend confidence description time_range :
  0 <= confidence <= 100 →
  mk_Pattern metric trend confidence description time_range
  = Ok {| Pattern.metric := metric; Pattern.trend := trend;
          Pattern.confidence := confidence;
          Pattern.description := description;
          Pattern.time_range := time_range |}.
Proof.
  intros [H0 H100]. unfold mk_Pattern.
  destruct (Rle_dec 0 confidence); [| lra].
  destruct (Rle_dec confidence 100); [reflexivity | lra].
Qed.

Lemma mk_Correlation_ok metric1 metric2 strength description causality :
  -1 <= strength <= 1 →
  mk_Correlation metric1 metric2 strength description causality
  = Ok {| Correlation.metric1 := metric1; Correlation.metric2 := metric2;
          Correlation.strength := strength;
          Correlation.description := description;
          Correlation.causality := causality |}.
Proof.
  intros [H0 H1]. unfold mk_Correlation.
  destruct (Rle_dec (-1) strength); [| lra].
  destruct (Rle_dec strength 1); [reflexivity | lra].
Qed.

Lemma py_div_ok (a b : R) : b ≠ 0 → py_div a b = Ok (a / b).
Proof. intros Hb. unfold py_div. destruct (Req_dec_T b 0); done. Qed.

End TrendStats.

(** ** The trend detector *)

Module TrendDetectorProps.
Import Py TrendAnalyzer TrendSpec TrendStats.
Local Open Scope R_scope.

(** The indices 0, 1, ... of two or more points are not all equal, so
    their squared deviations from any centre do not sum to zero: the
    [denominator == 0] branch of [_detect_pattern] is dead for the
    series that reach it. *)
Lemma index_deviation_nonzero (n : nat) (m : R) :
  (2 <= n)%nat → sum (map (λ xi, (xi - m) ^ 2) (map INR (seq 0 n))) ≠ 0.
Proof.
  intros Hn Hs.
  apply sum_nonneg_zero in Hs; [| apply Forall_squares].
  destruct n as [| [| n]]; [lia | lia |].
  simpl in Hs. inversion Hs as [| ? ? Hx0 Hs']. inversion Hs' as [| ? ? Hx1 _].
  nra.
Qed.

Lemma zip_with_const_r (g : R → R → R) (xs ys : list R) (c : R) :
  Forall (λ y, y = c) ys →
  Forall (λ z, ∃ x, z = g x c) (zip_with g xs ys).
Proof.
  intros Hys. revert xs. induction Hys as [| y ys -> _ IH]; intros xs.
  - destruct xs; constructor.
  - destruct xs as [| x xs]; [constructor |].
    simpl. constructor; [by exists x | apply IH].
Qed.

Lemma Forall_replicate_eq {A} (l : list A) (c : A) :
  Forall (λ y, y = c) l → l = replicate (length l) c.
Proof. induction 1 as [| y l -> _ IH]; simpl; congruence. Qed.

(** A constant series of three or more points: the regression slope is
    0, the sample deviation is 0, the test [abs(slope) < threshold] reads
    [0 < 0], and the branch taken is the last one. *)
Lemma detect_pattern_constant metric (time_series : Series) time_range c :
  (3 <= length time_series)%nat →
  Forall (λ p, p.2 = c) time_series →
  _detect_pattern metric time_series time_range
  = Ok (Some {| Pattern.metric := metric;
                Pattern.trend := DECREASING;
                Pattern.confidence := 50;
                Pattern.description :=
                  "The " +:+ metric
                    +:+ " shows a decreasing trend over the analyzed period";
                Pattern.time_range := time_range |}).
Proof.
  intros Hn Hc. unfold _detect_pattern.
  assert (Hlt : (length time_series <? 3)%nat = false)
    by (apply Nat.ltb_ge; exact Hn).
  rewrite Hlt. cbv zeta.
  set (values := map snd time_series).
  assert (Hlen : length values = length time_series)
    by (unfold values; apply length_map).
  assert (Hvals : Forall (λ y, y = c) values).
  { unfold values. apply Forall_map. exact Hc. }
  set (n := length values). set (x := map INR (seq 0 n)).
  assert (Hxlen : length x = n).
  { unfold x. by rewrite length_map, length_seq. }
  rewrite (statistics_mean_ok x), (statistics_mean_ok values).
  2: { apply (length_ge_nonempty _ 2). lia. }
  2: { apply (length_ge_nonempty _ 2). lia. }
  rewrite Hxlen. fold n.
  set (mean_x := sum x / INR n).
  assert (Hmean : sum values / INR n = c).
  { rewrite (Forall_replicate_eq values c Hvals). fold n.
    apply mean_replicate. lia. }
  rewrite !bind_Ok, Hmean.
  assert (Hnum : sum (zip_with (λ xi vi, (xi - mean_x) * (vi - c)) x values)
                 = 0).
  { apply sum_zero.
    eapply Forall_impl;
      [exact (zip_with_const_r (λ xi vi, (xi - mean_x) * (vi - c)) x values c
                Hvals) |].
    simpl. intros z [xi ->]. lra. }
  rewrite Hnum.
  destruct (Req_dec_T (sum (map (λ xi, (xi - mean_x) ^ 2) x)) 0) as [H0 | Hd].
  { exfalso. revert H0. apply index_deviation_nonzero. lia. }
  rewrite (py_div_ok _ _ Hd), bind_Ok.
  assert (Hss : sum (map (λ v, (v - c) ^ 2) values) = 0).
  { apply sum_zero, Forall_map. eapply Forall_impl; [exact Hvals |].
    simpl. intros v ->. lra. }
  rewrite statistics_stdev_ok by lia. rewrite bind_Ok.
  fold n. rewrite Hmean, Hss.
  replace (0 / (INR n - 1)) with 0 by (unfold Rdiv; lra).
  rewrite sqrt_0.
  replace (0 / sum (map (λ xi, (xi - mean_x) ^ 2) x)) with 0
    by (unfold Rdiv; lra).
  destruct (Rlt_dec (Rabs 0) (0 * 0.1)) as [Habs | _].
  { rewrite Rabs_R0 in Habs. lra. }
  destruct (Rlt_dec 0 0) as [? | _]; [lra |].
  rewrite !bind_Ok.
  replace (py_max 50 (py_min 100 (0 * 100))) with 50.
  2: { unfold py_max, py_min.
       destruct (Rlt_dec (0 * 100) 100); [| lra].
       destruct (Rlt_dec 50 (0 * 100)); lra. }
  rewrite mk_Pattern_ok by lra. reflexivity.
Qed.



(** C1 (defect).  On the flat series 5, 5, 5 the detector answers
    "decreasing" with confidence 50, where "stable" with confidence 95 is
    specified: the degenerate branch tests the spread of the indices,
    which is never zero, instead of the spread of the values. *)
Theorem detect_pattern_flat_series :
  _detect_pattern "weight" [(0%Z, 5); (1%Z, 5); (2%Z, 5)]
    {| start := 0%Z; end_ := 2%Z |}
  = Ok (Some {| Pattern.metric := "weight";
                Pattern.trend := DECREASING;
                Pattern.confidence := 50;
                Pattern.description :=
                  "The weight shows a decreasing trend over the analyzed period";
                Pattern.time_range := {| start := 0%Z; end_ := 2%Z |} |}).
Proof.
  apply (detect_pattern_constant "weight" _ _ 5); [simpl; lia |].
  repeat constructor.
Qed.

End TrendDetectorProps.

(** ** The change-point detector *)

Module ChangeDetectorProps.
Import Py TrendAnalyzer TrendSpec TrendStats.
Local Open Scope R_scope.

Lemma scan_changes_cons metric baseline t value rest :
  baseline ≠ 0 →
  scan_changes metric baseline ((t, value) :: rest)
  = if Rlt_dec significant_change_threshold
         (Rabs (value - baseline) / baseline)
    then Ok (Some (change_at metric baseline t value))
    else scan_changes metric baseline rest.
Proof.
  intros Hb. simpl scan_changes. rewrite (py_div_ok _ _ Hb), bind_Ok.
  reflexivity.
Qed.

(** No point qualifies: the loop runs to its end. *)
Lemma scan_changes_none metric baseline (rest : Series) :
  baseline ≠ 0 →
  Forall (λ p, ¬ exceeds baseline p.2) rest →
  scan_changes metric baseline rest = Ok None.
Proof.
  intros Hb. induction 1 as [| [t v] rest Hv _ IH]; [reflexivity |].
  rewrite scan_changes_cons by exact Hb.
  destruct (Rlt_dec _ _) as [Hex | _]; [| exact IH].
  exfalso. apply Hv. exact Hex.
Qed.

(** The first qualifying point is reported, whatever follows it. *)
Lemma scan_changes_first metric baseline (pre post : Series) t value :
  baseline ≠ 0 →
  Forall (λ p, ¬ exceeds baseline p.2) pre →
  exceeds baseline value →
  scan_changes metric baseline (pre ++ (t, value) :: post)
  = Ok (Some (change_at metric baseline t value)).
Proof.
  intros Hb Hpre Hv. induction Hpre as [| [t' v'] pre Hv' _ IH].
  - simpl app. rewrite scan_changes_cons by exact Hb.
    destruct (Rlt_dec _ _) as [_ | Hn]; [reflexivity |].
    exfalso. apply Hn. exact Hv.
  - change (((t', v') :: pre) ++ (t, value) :: post)
      with ((t', v') :: (pre ++ (t, value) :: post)).
    rewrite scan_changes_cons by exact Hb.
    destruct (Rlt_dec _ _) as [Hex | _]; [| exact IH].
    exfalso. apply Hv'. exact Hex.
Qed.

(** The loop never raises once the baseline is not zero, and it answers
    none exactly when no point of the window qualifies. *)
Lemma scan_changes_total metric baseline (rest : Series) :
  baseline ≠ 0 →
  ∃ o, scan_changes metric baseline rest = Ok o ∧
       (o = None ↔ Forall (λ p, ¬ exceeds baseline p.2) rest).
Proof.
  intros Hb. induction rest as [| [t v] rest (o & Ho & Hiff)].
  - exists None. split; [reflexivity |]. split; [constructor | done].
  - rewrite scan_changes_cons by exact Hb.
    destruct (Rlt_dec _ _) as [Hex | Hn].
    + eexists. split; [reflexivity |]. split; [done |].
      intros HF. inversion HF as [| ? ? Hv _]. contradiction.
    + exists o. split; [exact Ho |]. rewrite Hiff. split.
      * intros HF. constructor; [exact Hn | exact HF].
      * intros HF. by inversion HF.
Qed.

Lemma detect_change_short metric (time_series : Series) :
  (length time_series < 7)%nat →
  _detect_significant_change metric time_series = Ok None.
Proof.
  intros Hn. unfold _detect_significant_change.
  assert (Hlt : (length time_series <? 7)%nat = true)
    by (apply Nat.ltb_lt; exact Hn).
  by rewrite Hlt.
Qed.

Lemma detect_change_long metric (time_series : Series) :
  (7 <= length time_series)%nat →
  _detect_significant_change metric time_series
  = if Req_dec_T (baseline_of time_series) 0 then Ok None
    else scan_changes metric (baseline_of time_series)
           (window_of time_series).
Proof.
  intros Hn. unfold _detect_significant_change, baseline_of, window_of.
  assert (Hlt : (length time_series <? 7)%nat = false)
    by (apply Nat.ltb_ge; exact Hn).
  rewrite Hlt. cbv zeta. rewrite length_map.
  set (midpoint := (length time_series / 2)%nat).
  assert (Hmid : (3 <= midpoint <= length time_series)%nat).
  { unfold midpoint. split.
    - apply (Nat.Div0.div_le_mono 6 _ 2); lia.
    - apply Nat.Div0.div_le_upper_bound; lia. }
  assert (Hlen : length (take midpoint (map snd time_series)) = midpoint).
  { rewrite length_take, length_map. lia. }
  rewrite statistics_mean_ok.
  2: { apply (length_ge_nonempty _ 2). lia. }
  rewrite bind_Ok, Hlen. reflexivity.
Qed.

(** Over a positive baseline the test of the loop is the test
    |relative deviation| > 0.3. *)
Lemma exceeds_relative (baseline value : R) :
  0 < baseline →
  exceeds baseline value ↔ 0.3 < Rabs ((value - baseline) / baseline).
Proof.
  intros Hb. unfold exceeds, significant_change_threshold.
  unfold Rdiv at 2. rewrite Rabs_mult, (Rabs_pos_eq (/ baseline)); [done |].
  left. by apply Rinv_0_lt_compat.
Qed.

Lemma Rdiv_scale (k V : R) : V ≠ 0 → k * V / V = k.
Proof. intros HV. field. exact HV. Qed.

Lemma py_int_IZR (z : Z) : (0 <= z)%Z → py_int (IZR z) = z.
Proof.
  intros Hz. unfold py_int.
  destruct (Rle_dec 0 (IZR z)) as [_ | Hn].
  - symmetry. apply Int_part_spec. lra.
  - exfalso. apply Hn. by apply IZR_le.
Qed.

(** The record reported in the 1.35 V scenario. *)
Lemma change_at_scenario metric (V : R) (t : datetime) :
  0 < V →
  change_at metric V t (1.35 * V)
  = {| Change.metric := metric;
       Change.change_point := t;
       Change.magnitude := 0.35 * V;
       Change.description := metric +:+ " increased by 35% from baseline";
       Change.possible_causes := [] |}.
Proof.
  intros HV. unfold change_at.
  replace (1.35 * V - V) with (0.35 * V) by lra.
  destruct (Rlt_dec 0 (0.35 * V)) as [_ | Hn]; [| lra].
  rewrite Rabs_pos_eq by lra.
  rewrite Rdiv_scale by lra.
  replace (0.35 * 100) with (IZR 35) by lra.
  rewrite py_int_IZR by lia. reflexivity.
Qed.

(** C3 (as amended).  Take a 14-point series whose first 7 values have
    a positive mean V and whose last 7 values all equal 1.35 V: the
    change is reported at the timestamp of the 8th point, with magnitude
    0.35 V and a description that says "increased".  In general, over a
    positive baseline, the first point of the observation window whose
    |relative deviation| exceeds 0.3 is the one reported, whatever the
    later points are. *)
Theorem detect_change_first_point metric (time_series : Series) :
  (∀ V, length time_series = 14%nat →
        sum (take 7 (map snd time_series)) / 7 = V →
        0 < V →
        Forall (λ p, p.2 = 1.35 * V) (drop 7 time_series) →
        ∃ t8 v8,
          time_series !! 7%nat = Some (t8, v8) ∧
          _detect_significant_change metric time_series
          = Ok (Some {| Change.metric := metric;
                        Change.change_point := t8;
                        Change.magnitude := 0.35 * V;
                        Change.description :=
                          metric +:+ " increased by 35% from baseline";
                        Change.possible_causes := [] |})) ∧
  (∀ pre t v post,
     let b := baseline_of time_series in
     (7 <= length time_series)%nat →
     0 < b →
     window_of time_series = pre ++ (t, v) :: post →
     Forall (λ p, Rabs ((p.2 - b) / b) <= 0.3) pre →
     0.3 < Rabs ((v - b) / b) →
     _detect_significant_change metric time_series
     = Ok (Some (change_at metric b t v))).
Proof.
  assert (Hgen : ∀ pre t v post,
     let b := baseline_of time_series in
     (7 <= length time_series)%nat →
     0 < b →
     window_of time_series = pre ++ (t, v) :: post →
     Forall (λ p, Rabs ((p.2 - b) / b) <= 0.3) pre →
     0.3 < Rabs ((v - b) / b) →
     _detect_significant_change metric time_series
     = Ok (Some (change_at metric b t v))).
  { intros pre t v post b Hn Hb Hw Hpre Hv.
    rewrite detect_change_long by exact Hn. fold b.
    destruct (Req_dec_T b 0) as [H0 | Hne]; [lra |].
    rewrite Hw. apply scan_changes_first; [exact Hne | |].
    - eapply Forall_impl; [exact Hpre |]. simpl. intros p Hp Hex.
      apply exceeds_relative in Hex; [lra | exact Hb].
    - by apply exceeds_relative. }
  split; [| exact Hgen].
  intros V Hlen Hmean HV Hlast.
  assert (Hb : baseline_of time_series = V).
  { unfold baseline_of. rewrite length_map, Hlen.
    change (14 / 2)%nat with 7%nat. rewrite <- Hmean. simpl INR.
    f_equal. lra. }
  assert (Hw : window_of time_series = drop 7 time_series).
  { unfold window_of. by rewrite Hlen. }
  destruct (drop 7 time_series) as [| [t8 v8] post] eqn:Hdrop.
  { apply (f_equal length) in Hdrop. rewrite length_drop, Hlen in Hdrop.
    discriminate. }
  exists t8, v8. split.
  { pose proof (lookup_drop time_series 7 0) as Hl.
    rewrite Hdrop in Hl. symmetry. exact Hl. }
  inversion Hlast as [| ? ? Hv8 _]. simpl in Hv8. subst v8.
  rewrite <- (change_at_scenario metric V t8 HV), <- Hb.
  apply (Hgen [] t8 (1.35 * baseline_of time_series) post).
  - lia.
  - lra.
  - rewrite Hw, Hb. reflexivity.
  - constructor.
  - rewrite Hb. replace (1.35 * V - V) with (0.35 * V) by lra.
    rewrite Rdiv_scale by lra. rewrite Rabs_pos_eq; lra.
Qed.

(** The scenario on the rising step count, V = 100. *)
Lemma detect_change_first_point_witness :
  _detect_significant_change "steps" rising
  = Ok (Some {| Change.metric := "steps";
                Change.change_point := 7%Z;
                Change.magnitude := 0.35 * 100;
                Change.description := "steps increased by 35% from baseline";
                Change.possible_causes := [] |}).
Proof.
  destruct (detect_change_first_point "steps" rising) as [Hscenario _].
  destruct (Hscenario 100) as (t8 & v8 & Hlook & Hres).
  - reflexivity.
  - unfold rising, sum. simpl. lra.
  - lra.
  - unfold rising. simpl. repeat constructor; simpl; lra.
  - injection Hlook as <- _. exact Hres.
Defined.

(** C3 as stated fails below zero: the mean of the first 7 values is
    -100, not zero, the last 7 values all equal 1.35 * -100, and no
    change is reported, because the loop compares
    [abs(value - baseline) / baseline], a negative number, with 0.3. *)
Lemma detect_change_negative_baseline :
  length falling = 14%nat ∧
  sum (take 7 (map snd falling)) / 7 = -100 ∧
  -100 ≠ 0 ∧
  Forall (λ p, p.2 = 1.35 * -100) (drop 7 falling) ∧
  _detect_significant_change "weight_change" falling = Ok None.
Proof.
  assert (Hb : baseline_of falling = -100).
  { unfold baseline_of, falling, sum. simpl. lra. }
  split; [reflexivity |].
  split; [unfold falling, sum; simpl; lra |].
  split; [lra |].
  split; [unfold falling; simpl; repeat constructor; simpl; lra |].
  rewrite detect_change_long by (simpl; lia). rewrite Hb.
  destruct (Req_dec_T (-100) 0) as [H0 | _]; [lra |].
  apply scan_changes_none; [lra |].
  unfold window_of, falling. simpl.
  repeat constructor; simpl; unfold exceeds, significant_change_threshold;
    rewrite Rabs_left by lra; lra.
Qed.

End ChangeDetectorProps.

(** ** Alignment of two series *)

Module AlignProps.
Import Py TrendAnalyzer TrendSpec TrendStats.
Local Open Scope R_scope.

Lemma to_dict_fill (data : Series) : to_dict data = fill ∅ data.
Proof. reflexivity. Qed.

Lemma fill_app d (data1 data2 : Series) :
  fill d (data1 ++ data2) = fill (fill d data1) data2.
Proof. apply foldl_app. Qed.

Lemma fill_cons d t v (data : Series) :
  fill d ((t, v) :: data) = fill (<[t := v]> d) data.
Proof. reflexivity. Qed.

(** Pairs with other timestamps leave the entry of [t] alone. *)
Lemma fill_lookup_other d (data : Series) (t : datetime) :
  t ∉ data.*1 → fill d data !! t = d !! t.
Proof.
  revert d. induction data as [| [t' v'] data IH]; intros d Hnin.
  - reflexivity.
  - rewrite fill_cons, IH by set_solver.
    apply lookup_insert_ne. set_solver.
Qed.

(** Last write wins. *)
Lemma to_dict_lookup_last (data1 data2 : Series) (t : datetime) (v : R) :
  t ∉ data2.*1 → to_dict (data1 ++ (t, v) :: data2) !! t = Some v.
Proof.
  intros Hnin. rewrite to_dict_fill, fill_app, fill_cons.
  rewrite fill_lookup_other by exact Hnin.
  apply lookup_insert_eq.
Qed.

Lemma dom_fill d (data : Series) :
  dom (fill d data) = dom d ∪ list_to_set data.*1.
Proof.
  revert d. induction data as [| [t v] data IH]; intros d.
  - simpl. set_solver.
  - rewrite fill_cons, IH, dom_insert_L. set_solver.
Qed.

Lemma dom_to_dict (data : Series) : dom (to_dict data) = list_to_set data.*1.
Proof. rewrite to_dict_fill, dom_fill. set_solver. Qed.

Lemma align_unfold (data1 data2 : Series) :
  _align_time_series data1 data2
  = mapM (align_step (to_dict data1) (to_dict data2))
      (common_sorted data1 data2).
Proof. reflexivity. Qed.

Lemma mapM_align_cons dict1 dict2 (t : datetime) (keys : list datetime) :
  mapM (align_step dict1 dict2) (t :: keys)
  = (v1 ← getitem dict1 t;
     v2 ← getitem dict2 t;
     k ← mapM (align_step dict1 dict2) keys;
     Ok ((t, v1, v2) :: k)).
Proof.
  change (mapM (align_step dict1 dict2) (t :: keys))
    with (y ← align_step dict1 dict2 t;
          k ← mapM (align_step dict1 dict2) keys; Ok (y :: k)).
  unfold align_step at 2.
  destruct (getitem dict1 t) as [v1 |]; [| reflexivity].
  destruct (getitem dict2 t) as [v2 |]; reflexivity.
Qed.

(** Over keys present in both dicts the comprehension does not raise,
    and it pairs each key with its two values. *)
Lemma mapM_align_step (dict1 dict2 : gmap datetime R) (keys : list datetime) :
  Forall (λ t, is_Some (dict1 !! t) ∧ is_Some (dict2 !! t)) keys →
  ∃ l, mapM (align_step dict1 dict2) keys = Ok l ∧
       l.*1.*1 = keys ∧
       Forall (λ e, dict1 !! e.1.1 = Some e.1.2 ∧ dict2 !! e.1.1 = Some e.2) l.
Proof.
  induction 1 as [| t keys [[v1 H1] [v2 H2]] _ (l & Hl & Hk & Hv)].
  - exists []. by repeat split.
  - exists ((t, v1, v2) :: l). rewrite mapM_align_cons.
    unfold getitem. rewrite H1, H2, !bind_Ok, Hl, bind_Ok.
    split; [reflexivity |]. split; [by rewrite !fmap_cons, Hk |].
    constructor; [done | exact Hv].
Qed.

Lemma common_sorted_keys (data1 data2 : Series) :
  Forall (λ t, is_Some (to_dict data1 !! t) ∧ is_Some (to_dict data2 !! t))
    (common_sorted data1 data2).
Proof.
  apply Forall_forall. intros t Ht. unfold common_sorted in Ht.
  rewrite merge_sort_Permutation in Ht.
  apply elem_of_elements, elem_of_intersection in Ht as [H1 H2].
  by rewrite <- !elem_of_dom.
Qed.

(** [_align_time_series] never raises: every timestamp it looks up is a
    key of both dicts. *)
Lemma align_total (data1 data2 : Series) :
  ∃ l, _align_time_series data1 data2 = Ok l ∧
       l.*1.*1 = common_sorted data1 data2 ∧
       Forall (λ e, to_dict data1 !! e.1.1 = Some e.1.2 ∧
                    to_dict data2 !! e.1.1 = Some e.2) l.
Proof.
  rewrite align_unfold. apply mapM_align_step, common_sorted_keys.
Qed.

Lemma common_sorted_comm (data1 data2 : Series) :
  common_sorted data2 data1 = common_sorted data1 data2.
Proof.
  unfold common_sorted.
  by rewrite (comm_L (∩) (dom (to_dict data2)) (dom (to_dict data1))).
Qed.

(** Swapping the two series swaps the two value columns. *)
Lemma mapM_align_step_swap dict1 dict2 (keys : list datetime) l :
  mapM (align_step dict1 dict2) keys = Ok l →
  mapM (align_step dict2 dict1) keys = Ok (map (λ e, (e.1.1, e.2, e.1.2)) l).
Proof.
  revert l. induction keys as [| t keys IH]; intros l.
  - intros [= <-]. reflexivity.
  - rewrite !mapM_align_cons. unfold getitem.
    destruct (dict1 !! t) as [v1 |]; [| by destruct (dict2 !! t)].
    destruct (dict2 !! t) as [v2 |]; [| done].
    rewrite !bind_Ok.
    destruct (mapM (align_step dict1 dict2) keys) as [l' |]; [| done].
    rewrite (IH l' eq_refl), !bind_Ok. intros [= <-]. reflexivity.
Qed.

Lemma align_swap (data1 data2 : Series) l :
  _align_time_series data1 data2 = Ok l →
  _align_time_series data2 data1 = Ok (map (λ e, (e.1.1, e.2, e.1.2)) l).
Proof.
  rewrite !align_unfold, common_sorted_comm. apply mapM_align_step_swap.
Qed.

(** The timestamps of an alignment are strictly increasing. *)
Lemma common_sorted_increasing (data1 data2 : Series) :
  Sorted Z.lt (common_sorted data1 data2).
Proof.
  unfold common_sorted.
  set (keys := elements _).
  assert (Hnd : NoDup (merge_sort Z.le keys)).
  { rewrite merge_sort_Permutation. apply NoDup_elements. }
  assert (Hs : StronglySorted Z.le (merge_sort Z.le keys)).
  { apply StronglySorted_merge_sort; apply _. }
  induction Hs as [| t l _ IH Hall]; [constructor |].
  apply NoDup_cons in Hnd as [Hnin Hnd].
  constructor; [by apply IH |].
  destruct l as [| t' l]; constructor.
  inversion Hall as [| ? ? Hle _].
  assert (t ≠ t') by set_solver. lia.
Qed.

End AlignProps.

(** ** The correlation coefficient *)

Module CorrelationStats.
Import Py TrendAnalyzer TrendSpec TrendStats.
Local Open Scope R_scope.

Lemma sq_dev_nonneg xs : 0 <= sq_dev xs.
Proof. apply sum_squares_nonneg. Qed.

Lemma sample_sd_nonneg xs : 0 <= sample_sd xs.
Proof. apply sqrt_pos. Qed.

(** What [_calculate_correlation] computes on two sequences of the same
    length, two points or more. *)
Lemma calculate_correlation_eq (xs ys : list R) :
  length xs = length ys → (2 <= length xs)%nat →
  _calculate_correlation xs ys
  = if Req_dec_T (sample_sd xs * sample_sd ys * INR (length xs)) 0
    then Ok 0
    else Ok (co_dev xs ys
             / (sample_sd xs * sample_sd ys * INR (length xs))).
Proof.
  intros Hlen Hn. unfold _calculate_correlation.
  assert (H1 : (length xs =? length ys)%nat = true)
    by (apply Nat.eqb_eq; exact Hlen).
  assert (H2 : (length xs <? 2)%nat = false) by (apply Nat.ltb_ge; lia).
  rewrite H1, H2. simpl negb. simpl orb. cbv iota zeta.
  rewrite (statistics_mean_ok xs), (statistics_mean_ok ys).
  2: { apply (length_ge_nonempty _ 1). lia. }
  2: { apply (length_ge_nonempty _ 1). lia. }
  rewrite !bind_Ok.
  rewrite (statistics_stdev_ok xs), (statistics_stdev_ok ys) by lia.
  rewrite !bind_Ok.
  fold (mean_of xs) (mean_of ys) (sq_dev xs) (sq_dev ys).
  fold (sample_sd xs) (sample_sd ys) (co_dev xs ys).
  destruct (Req_dec_T _ 0) as [_ | Hd]; [reflexivity |].
  by rewrite py_div_ok.
Qed.

(** [_calculate_correlation] never raises. *)
Lemma calculate_correlation_total (xs ys : list R) :
  ∃ r, _calculate_correlation xs ys = Ok r.
Proof.
  destruct (decide (length xs = length ys ∧ (2 <= length xs)%nat))
    as [[Hlen Hn] | Hno].
  - rewrite calculate_correlation_eq by assumption.
    destruct (Req_dec_T _ 0); eauto.
  - exists 0. unfold _calculate_correlation.
    destruct (length xs =? length ys)%nat eqn:E1; [| reflexivity].
    destruct (length xs <? 2)%nat eqn:E2; [reflexivity |].
    exfalso. apply Hno. split.
    + by apply Nat.eqb_eq.
    + apply Nat.ltb_ge in E2. lia.
Qed.

Lemma zip_with_flip {A B C} (g : A → B → C) (l : list A) (k : list B) :
  zip_with (λ b a, g a b) k l = zip_with g l k.
Proof.
  revert k. induction l as [| a l IH]; intros [| b k]; simpl; try done.
  by rewrite IH.
Qed.

Lemma co_dev_comm (xs ys : list R) : co_dev ys xs = co_dev xs ys.
Proof.
  unfold co_dev.
  rewrite <- (zip_with_flip (λ x y, (x - mean_of xs) * (y - mean_of ys))).
  f_equal. apply zip_with_ext; [| done | done].
  intros y x. apply Rmult_comm.
Qed.

(** The coefficient does not depend on the order of its arguments. *)
Lemma calculate_correlation_comm (xs ys : list R) :
  _calculate_correlation ys xs = _calculate_correlation xs ys.
Proof.
  destruct (decide (length xs = length ys ∧ (2 <= length xs)%nat))
    as [[Hlen Hn] | Hno].
  - rewrite (calculate_correlation_eq xs ys) by assumption.
    rewrite (calculate_correlation_eq ys xs) by lia.
    rewrite co_dev_comm, <- Hlen.
    by rewrite (Rmult_comm (sample_sd ys) (sample_sd xs)).
  - unfold _calculate_correlation.
    rewrite (Nat.eqb_sym (length ys) (length xs)).
    destruct (length xs =? length ys)%nat eqn:E1; [| reflexivity].
    apply Nat.eqb_eq in E1. rewrite <- E1.
    destruct (length xs <? 2)%nat eqn:E2; [reflexivity |].
    exfalso. apply Hno. split; [done |]. apply Nat.ltb_ge in E2. lia.
Qed.

(** *** The Cauchy–Schwarz inequality, for the validation of
    [Correlation.strength] *)

Lemma dot_self_nonneg (us : list R) : 0 <= dot us us.
Proof.
  unfold dot. apply sum_nonneg.
  induction us as [| u us IH]; simpl; constructor; [nra | exact IH].
Qed.

Lemma dot_quadratic (us vs : list R) (t : R) :
  length us = length vs →
  sum (zip_with (λ u v, (u * t + v) ^ 2) us vs)
  = dot us us * t ^ 2 + 2 * dot us vs * t + dot vs vs.
Proof.
  unfold dot. revert vs.
  induction us as [| u us IH]; intros [| v vs] Hlen; try discriminate.
  - unfold sum. simpl. lra.
  - simpl zip_with. rewrite !sum_cons, IH by (simpl in Hlen; lia). ring.
Qed.

Lemma dot_quadratic_nonneg (us vs : list R) (t : R) :
  length us = length vs →
  0 <= dot us us * t ^ 2 + 2 * dot us vs * t + dot vs vs.
Proof.
  intros Hlen. rewrite <- dot_quadratic by exact Hlen.
  apply sum_nonneg. clear Hlen. revert vs.
  induction us as [| u us IH]; intros vs; [constructor |].
  destruct vs as [| v vs]; simpl; [constructor |].
  constructor; [generalize (u * t + v); intros w; nra | apply IH].
Qed.

Lemma cauchy_schwarz (us vs : list R) :
  length us = length vs →
  dot us vs ^ 2 <= dot us us * dot vs vs.
Proof.
  intros Hlen.
  pose proof (dot_self_nonneg us) as HA.
  pose proof (dot_self_nonneg vs) as HB.
  pose proof (dot_quadratic_nonneg us vs) as Hq.
  set (A := dot us us) in *. set (B := dot vs vs) in *.
  set (C := dot us vs) in *.
  destruct (Req_dec_T A 0) as [HA0 | HA0].
  - destruct (Req_dec_T C 0) as [HC0 | HC0]; [rewrite HC0; nra |].
    exfalso. specialize (Hq (- (B + 1) / (2 * C)) Hlen).
    rewrite HA0 in Hq.
    replace (2 * C * (- (B + 1) / (2 * C))) with (- (B + 1)) in Hq
      by (field; exact HC0).
    lra.
  - specialize (Hq (- C / A) Hlen).
    replace (A * (- C / A) ^ 2 + 2 * C * (- C / A) + B)
      with ((A * B - C ^ 2) / A) in Hq by (field; exact HA0).
    apply (Rmult_le_compat_r A) in Hq; [| lra].
    unfold Rdiv in Hq. rewrite Rmult_assoc, Rinv_l in Hq by exact HA0.
    lra.
Qed.

Lemma co_dev_dot (xs ys : list R) : co_dev xs ys = dot (devs xs) (devs ys).
Proof.
  unfold co_dev, dot, devs. by rewrite zip_with_fmap_l, zip_with_fmap_r.
Qed.

Lemma zip_with_diag_square (m : R) (xs : list R) :
  zip_with (λ x y, (x - m) * (y - m)) xs xs = map (λ x, (x - m) ^ 2) xs.
Proof.
  induction xs as [| x xs IH]; [done |].
  simpl. f_equal; [ring | exact IH].
Qed.

Lemma sq_dev_dot (xs : list R) : sq_dev xs = dot (devs xs) (devs xs).
Proof.
  unfold sq_dev, dot, devs. rewrite zip_with_fmap_l, zip_with_fmap_r.
  by rewrite zip_with_diag_square.
Qed.

Lemma length_devs (xs : list R) : length (devs xs) = length xs.
Proof. apply length_map. Qed.

(** The square of the sample deviation, times n−1, is the sum of the
    squared deviations. *)
Lemma sample_sd_square (xs : list R) :
  (2 <= length xs)%nat →
  sq_dev xs = (INR (length xs) - 1) * (sample_sd xs * sample_sd xs).
Proof.
  intros Hn.
  assert (Hm : 0 < INR (length xs) - 1).
  { apply le_INR in Hn. simpl in Hn. lra. }
  unfold sample_sd. rewrite sqrt_sqrt.
  - field. lra.
  - apply Rmult_le_pos; [apply sq_dev_nonneg |].
    left. by apply Rinv_0_lt_compat.
Qed.

(** |Σ(xi−x̄)(yi−ȳ)| ≤ (n−1)·σx·σy. *)
Lemma co_dev_bound (xs ys : list R) :
  length xs = length ys → (2 <= length xs)%nat →
  - ((INR (length xs) - 1) * (sample_sd xs * sample_sd ys))
  <= co_dev xs ys
  <= (INR (length xs) - 1) * (sample_sd xs * sample_sd ys).
Proof.
  intros Hlen Hn.
  assert (Hm : 0 < INR (length xs) - 1).
  { apply le_INR in Hn. simpl in Hn. lra. }
  pose proof (cauchy_schwarz (devs xs) (devs ys)) as Hcs.
  rewrite <- co_dev_dot, <- !sq_dev_dot in Hcs.
  specialize (Hcs ltac:(by rewrite !length_devs)).
  rewrite (sample_sd_square xs), (sample_sd_square ys) in Hcs by lia.
  rewrite <- Hlen in Hcs.
  pose proof (sample_sd_nonneg xs) as Hx.
  pose proof (sample_sd_nonneg ys) as Hy.
  set (m := INR (length xs) - 1) in *.
  set (sx := sample_sd xs) in *. set (sy := sample_sd ys) in *.
  set (c := co_dev xs ys) in *.
  assert (Hb : 0 <= m * (sx * sy)).
  { apply Rmult_le_pos; [lra | by apply Rmult_le_pos]. }
  assert (Hsq : c * c <= (m * (sx * sy)) * (m * (sx * sy))) by nra.
  generalize dependent (m * (sx * sy)). intros b Hb Hsq.
  split; nra.
Qed.

Lemma div_within_unit (a d : R) : 0 < d → - d <= a <= d → -1 <= a / d <= 1.
Proof.
  intros Hd [Hlo Hhi]. split.
  - apply (Rmult_le_reg_r d); [exact Hd |].
    unfold Rdiv. rewrite Rmult_assoc, Rinv_l by lra. lra.
  - apply (Rmult_le_reg_r d); [exact Hd |].
    unfold Rdiv. rewrite Rmult_assoc, Rinv_l by lra. lra.
Qed.

(** The value of [_calculate_correlation] always passes the validation
    of [Correlation.strength]. *)
Lemma calculate_correlation_range (xs ys : list R) (r : R) :
  _calculate_correlation xs ys = Ok r → -1 <= r <= 1.
Proof.
  destruct (decide (length xs = length ys ∧ (2 <= length xs)%nat))
    as [[Hlen Hn] | Hno].
  - rewrite calculate_correlation_eq by assumption.
    destruct (Req_dec_T _ 0) as [_ | Hd]; intros [= <-]; [lra |].
    pose proof (co_dev_bound xs ys Hlen Hn) as Hb.
    pose proof (sample_sd_nonneg xs) as Hx.
    pose proof (sample_sd_nonneg ys) as Hy.
    assert (Hp : 0 <= sample_sd xs * sample_sd ys)
      by (by apply Rmult_le_pos).
    assert (Hnn : 0 < INR (length xs)) by (apply lt_0_INR; lia).
    set (p := sample_sd xs * sample_sd ys) in *.
    apply div_within_unit; nra.
  - unfold _calculate_correlation.
    destruct (length xs =? length ys)%nat eqn:E1;
      [| intros [= <-]; lra].
    destruct (length xs <? 2)%nat eqn:E2; [intros [= <-]; lra |].
    exfalso. apply Hno. split.
    + by apply Nat.eqb_eq.
    + apply Nat.ltb_ge in E2. lia.
Qed.

End CorrelationStats.

(** ** The correlation analyzer *)

Module CorrelationProps.
Import Py TrendAnalyzer TrendSpec TrendStats AlignProps CorrelationStats.
Local Open Scope R_scope.

Lemma assess_causality_eq metric1 metric2 r :
  _assess_causality metric1 metric2 r
  = match curated_label metric1 metric2 with
    | Some c => c
    | None => if Rlt_dec 0.7 (Rabs r) then POSSIBLE else UNLIKELY
    end.
Proof.
  unfold _assess_causality, curated_label.
  by destruct (pair_lookup causal_pairs (lower metric1, lower metric2)).
Qed.

(** No pair of the curated table is the reverse of another one, so the
    two orderings of a pair of names find the same label. *)
Lemma pair_lookup_reverse (a b : string) :
  match pair_lookup causal_pairs (a, b) with
  | Some c => Some c
  | None => pair_lookup causal_pairs (b, a)
  end
  = match pair_lookup causal_pairs (b, a) with
    | Some c => Some c
    | None => pair_lookup causal_pairs (a, b)
    end.
Proof.
  unfold causal_pairs, pair_lookup.
  repeat (case_decide; simplify_eq; try reflexivity).
Qed.

Lemma curated_label_comm metric1 metric2 :
  curated_label metric2 metric1 = curated_label metric1 metric2.
Proof. unfold curated_label. apply pair_lookup_reverse. Qed.

Lemma assess_causality_comm metric1 metric2 r :
  _assess_causality metric2 metric1 r = _assess_causality metric1 metric2 r.
Proof. by rewrite !assess_causality_eq, curated_label_comm. Qed.

(** [detect_correlations], once the alignment and the coefficient are
    known: no step raises, and the four gates are the only ways to
    none. *)
Lemma detect_correlations_eq user_id metric1 metric2 (data1 data2 : Series)
    l r :
  _align_time_series data1 data2 = Ok l →
  _calculate_correlation (column1 l) (column2 l) = Ok r →
  detect_correlations user_id metric1 metric2 data1 data2
  = if (length data1 <? 3)%nat || (length data2 <? 3)%nat then Ok None
    else if (length l <? 3)%nat then Ok None
    else if Rlt_dec (Rabs r) 0.3 then Ok None
    else Ok (Some (correlation_of metric1 metric2 r)).
Proof.
  intros Hl Hr. unfold detect_correlations.
  destruct ((length data1 <? 3)%nat || (length data2 <? 3)%nat);
    [reflexivity |].
  rewrite Hl, bind_Ok.
  destruct (length l <? 3)%nat; [reflexivity |].
  cbv zeta. fold (column1 l) (column2 l). rewrite Hr, bind_Ok.
  destruct (Rlt_dec (Rabs r) 0.3); [reflexivity |].
  rewrite mk_Correlation_ok by (by apply (calculate_correlation_range _ _ r Hr)).
  reflexivity.
Qed.

Lemma column_swap (l : list (datetime * R * R)) :
  column1 (map (λ e, (e.1.1, e.2, e.1.2)) l) = column2 l ∧
  column2 (map (λ e, (e.1.1, e.2, e.1.2)) l) = column1 l.
Proof.
  unfold column1, column2. rewrite <- !list_fmap_compose. done.
Qed.

(** Swapping the two series, under any pair of names that gets the same
    causality label. *)
Lemma detect_correlations_swap
    user_id metric1 metric2 name1 name2 (data1 data2 : Series) :
  (∀ r, _assess_causality name1 name2 r = _assess_causality metric1 metric2 r) →
  ∃ o1 o2,
    detect_correlations user_id metric1 metric2 data1 data2 = Ok o1 ∧
    detect_correlations user_id name1 name2 data2 data1 = Ok o2 ∧
    same_finding o1 o2.
Proof.
  intros Hnames.
  destruct (align_total data1 data2) as (l & Hl & _ & _).
  destruct (calculate_correlation_total (column1 l) (column2 l)) as [r Hr].
  pose proof (align_swap data1 data2 l Hl) as Hl'.
  destruct (column_swap l) as [Hc1 Hc2].
  assert (Hr' : _calculate_correlation
                  (column1 (map (λ e, (e.1.1, e.2, e.1.2)) l))
                  (column2 (map (λ e, (e.1.1, e.2, e.1.2)) l)) = Ok r).
  { by rewrite Hc1, Hc2, calculate_correlation_comm. }
  rewrite (detect_correlations_eq _ _ _ _ _ _ _ Hl Hr).
  rewrite (detect_correlations_eq _ _ _ _ _ _ _ Hl' Hr').
  rewrite length_map.
  rewrite (orb_comm (length data2 <? 3)%nat (length data1 <? 3)%nat).
  destruct ((length data1 <? 3)%nat || (length data2 <? 3)%nat);
    [by exists None, None |].
  destruct (length l <? 3)%nat; [by exists None, None |].
  destruct (Rlt_dec (Rabs r) 0.3); [by exists None, None |].
  eexists _, _. split; [reflexivity |]. split; [reflexivity |].
  simpl. split; [reflexivity |]. symmetry. apply Hnames.
Qed.

(** C8.  Correlation detection is symmetric in its two series: with
    the series swapped, and the metric names swapped along or left in
    place, a Correlation is returned exactly when one is returned in
    the given order, and it has the same strength and the same
    causality label. *)
Theorem detect_correlations_symmetric
    user_id metric1 metric2 (data1 data2 : Series) :
  ∃ o o_swapped o_series,
    detect_correlations user_id metric1 metric2 data1 data2 = Ok o ∧
    detect_correlations user_id metric2 metric1 data2 data1 = Ok o_swapped ∧
    detect_correlations user_id metric1 metric2 data2 data1 = Ok o_series ∧
    same_finding o o_swapped ∧
    same_finding o o_series.
Proof.
  destruct (detect_correlations_swap user_id metric1 metric2 metric2 metric1
              data1 data2) as (o1 & o2 & H1 & H2 & Hsame).
  { intros r. apply assess_causality_comm. }
  destruct (detect_correlations_swap user_id metric1 metric2 metric1 metric2
              data1 data2) as (o1' & o3 & H1' & H3 & Hsame').
  { reflexivity. }
  assert (o1' = o1) as -> by congruence.
  by exists o1, o2, o3.
Qed.

(** C10.  Building the timestamp-to-value dict, the last pair of a
    timestamp wins.  Hence the alignment never raises, lists each common
    timestamp once, in increasing order, with the last value that each
    series gives it, and depends on the two series through their
    last-write dicts only. *)
Theorem align_last_write_wins (data1 data2 : Series) :
  (∀ pre t v post,
     data1 = pre ++ (t, v) :: post → t ∉ post.*1 →
     to_dict data1 !! t = Some v) ∧
  (∃ l,
     _align_time_series data1 data2 = Ok l ∧
     Sorted Z.lt l.*1.*1 ∧
     (∀ t, t ∈ l.*1.*1 ↔ t ∈ data1.*1 ∧ t ∈ data2.*1) ∧
     (∀ t x y, (t, x, y) ∈ l →
        (∀ pre v post,
           data1 = pre ++ (t, v) :: post → t ∉ post.*1 → x = v) ∧
        (∀ pre v post,
           data2 = pre ++ (t, v) :: post → t ∉ post.*1 → y = v))) ∧
  (∀ data1' data2' : Series,
     to_dict data1' = to_dict data1 → to_dict data2' = to_dict data2 →
     _align_time_series data1' data2' = _align_time_series data1 data2).
Proof.
  split; [| split].
  - intros pre t v post -> Hnin. by apply to_dict_lookup_last.
  - destruct (align_total data1 data2) as (l & Hl & Hkeys & Hvals).
    exists l. split; [exact Hl |].
    split; [rewrite Hkeys; apply common_sorted_increasing |].
    split.
    + intros t. rewrite Hkeys. unfold common_sorted.
      rewrite merge_sort_Permutation, elem_of_elements, elem_of_intersection.
      rewrite !dom_to_dict, !elem_of_list_to_set. done.
    + intros t x y Hin.
      rewrite Forall_forall in Hvals. destruct (Hvals _ Hin) as [Hx Hy].
      simpl in Hx, Hy. split.
      * intros pre v post -> Hnin.
        rewrite to_dict_lookup_last in Hx by exact Hnin. congruence.
      * intros pre v post -> Hnin.
        rewrite to_dict_lookup_last in Hy by exact Hnin. congruence.
  - intros data1' data2' H1 H2. rewrite !align_unfold.
    unfold common_sorted. by rewrite H1, H2.
Qed.

(** A series that reports timestamp 1 twice, aligned with a plain one:
    the later value 30 is the one paired. *)
Lemma align_last_write_wins_witness :
  ∃ l, _align_time_series [(1%Z, 10); (2%Z, 20); (1%Z, 30)]
         [(1%Z, 5); (2%Z, 6)] = Ok l ∧
       ∀ x y, (1%Z, x, y) ∈ l → x = 30 ∧ y = 5.
Proof.
  destruct (align_last_write_wins [(1%Z, 10); (2%Z, 20); (1%Z, 30)]
              [(1%Z, 5); (2%Z, 6)]) as (_ & (l & Hl & _ & _ & Hlast) & _).
  exists l. split; [exact Hl |].
  intros x y Hin. destruct (Hlast 1%Z x y Hin) as [H1 H2]. split.
  - apply (H1 [(1%Z, 10); (2%Z, 20)] 30 []); [reflexivity |].
    simpl. apply not_elem_of_nil.
  - apply (H2 [] 5 [(2%Z, 6)]); [reflexivity |].
    simpl. rewrite list_elem_of_singleton. lia.
Defined.


(** *** The noise-free ten-day pair *)

(** The alignment of two series over the days 0..9. *)
Lemma align_ten_days (a0 a1 a2 a3 a4 a5 a6 a7 a8 a9 : R)
    (b0 b1 b2 b3 b4 b5 b6 b7 b8 b9 : R) :
  _align_time_series
    [ (0%Z, a0); (1%Z, a1); (2%Z, a2); (3%Z, a3); (4%Z, a4);
      (5%Z, a5); (6%Z, a6); (7%Z, a7); (8%Z, a8); (9%Z, a9) ]
    [ (0%Z, b0); (1%Z, b1); (2%Z, b2); (3%Z, b3); (4%Z, b4);
      (5%Z, b5); (6%Z, b6); (7%Z, b7); (8%Z, b8); (9%Z, b9) ]
  = Ok [ (0%Z, a0, b0); (1%Z, a1, b1); (2%Z, a2, b2); (3%Z, a3, b3);
         (4%Z, a4, b4); (5%Z, a5, b5); (6%Z, a6, b6); (7%Z, a7, b7);
         (8%Z, a8, b8); (9%Z, a9, b9) ].
Proof. vm_compute. reflexivity. Qed.

(** The product of two sample deviations, from the product of the two
    variances. *)
Lemma sample_sd_product (xs ys : list R) (p : R) :
  (2 <= length xs)%nat → (2 <= length ys)%nat → 0 <= p →
  sq_dev xs / (INR (length xs) - 1) * (sq_dev ys / (INR (length ys) - 1))
  = p * p →
  sample_sd xs * sample_sd ys = p.
Proof.
  intros Hx Hy Hp Hprod. unfold sample_sd.
  assert (Hmx : 0 < INR (length xs) - 1).
  { apply le_INR in Hx. simpl in Hx. lra. }
  assert (Hmy : 0 < INR (length ys) - 1).
  { apply le_INR in Hy. simpl in Hy. lra. }
  rewrite <- sqrt_mult.
  - rewrite Hprod. by apply sqrt_square.
  - apply Rmult_le_pos; [apply sq_dev_nonneg |].
    left. by apply Rinv_0_lt_compat.
  - apply Rmult_le_pos; [apply sq_dev_nonneg |].
    left. by apply Rinv_0_lt_compat.
Qed.

Ltac ten_point_sum :=
  unfold co_dev, sq_dev, mean_of, sum;
  cbn [map zip_with foldr length fst snd];
  replace (INR 10) with 10 by (simpl; lra);
  lra.

(** The strength of the noise-free pair: Σ(xi−x̄)(yi−ȳ) = 165 and
    n·σx·σy = 10 · 165/9. *)
Lemma ramp_strength :
  _calculate_correlation (map snd ramp_A) (map snd ramp_B) = Ok 0.9.
Proof.
  set (xs := map snd ramp_A). set (ys := map snd ramp_B).
  assert (Hp : sample_sd xs * sample_sd ys = 165 / 9).
  { apply sample_sd_product; [simpl; lia | simpl; lia | lra |].
    assert (Hx : sq_dev xs = 82.5)
      by (subst xs; unfold ramp_A; ten_point_sum).
    assert (Hy : sq_dev ys = 330)
      by (subst ys; unfold ramp_B; ten_point_sum).
    rewrite Hx, Hy. replace (INR (length xs)) with 10 by (simpl; lra).
    replace (INR (length ys)) with 10 by (simpl; lra). lra. }
  assert (Hc : co_dev xs ys = 165)
    by (subst xs ys; unfold ramp_A, ramp_B; ten_point_sum).
  rewrite calculate_correlation_eq by (simpl; lia).
  rewrite Hp, Hc. replace (INR (length xs)) with 10 by (simpl; lra).
  destruct (Req_dec_T (165 / 9 * 10) 0) as [H0 | _]; [lra |].
  f_equal. lra.
Qed.

(** On the noise-free pair the Correlation is returned with strength
    0.9. *)
Lemma ramp_pair_detected :
  detect_correlations "" "metric_a" "metric_b" ramp_A ramp_B
  = Ok (Some (correlation_of "metric_a" "metric_b" 0.9)).
Proof.
  rewrite (detect_correlations_eq _ _ _ _ _ _ 0.9 (align_ten_days _ _ _ _ _
             _ _ _ _ _ _ _ _ _ _ _ _ _ _ _) ramp_strength).
  simpl orb. cbv iota. simpl Nat.ltb. cbv iota.
  assert (Habs : Rabs 0.9 = 0.9) by (apply Rabs_pos_eq; lra).
  rewrite Habs. destruct (Rlt_dec 0.9 0.3); [lra | reflexivity].
Qed.

(** C2 (defect).  The ten-day pair A = 1, ..., 10 and B = 2·A, with no
    noise at all, has strength exactly 0.9, not above 0.9 as specified:
    [_calculate_correlation] divides by n·σx·σy with the sample
    deviations of [statistics.stdev] (divisor n−1), so it returns
    (n−1)/n times the Pearson coefficient that its docstring names. *)
Theorem detect_correlations_ramp_pair :
  length ramp_A = 10%nat ∧
  Forall2 (λ a b, a.1 = b.1 ∧ b.2 = 2 * a.2) ramp_A ramp_B ∧
  ramp_A !! 0%nat ≠ ramp_A !! 1%nat ∧
  ∃ c, detect_correlations "" "metric_a" "metric_b" ramp_A ramp_B
       = Ok (Some c) ∧
       Correlation.strength c = 0.9 ∧
       ¬ 0.9 < Correlation.strength c ∧
       Correlation.causality c = POSSIBLE.
Proof.
  split; [reflexivity |].
  split; [unfold ramp_A, ramp_B; repeat constructor; simpl; lra |].
  split; [simpl; intros [= H]; lra |].
  rewrite ramp_pair_detected. eexists. split; [reflexivity |]. simpl.
  split; [reflexivity |]. split; [lra |].
  rewrite assess_causality_eq.
  change (curated_label "metric_a" "metric_b") with (@None CausalityLevel).
  assert (Habs : Rabs 0.9 = 0.9) by (apply Rabs_pos_eq; lra).
  rewrite Habs. destruct (Rlt_dec 0.7 0.9); [reflexivity | lra].
Qed.

End CorrelationProps.

(** ** Absent results *)

Module AbsenceProps.
Import Py TrendAnalyzer TrendSpec TrendStats TrendDetectorProps ChangeDetectorProps.
Import AlignProps CorrelationStats CorrelationProps.
Local Open Scope R_scope.




End AbsenceProps.

(** ** The food classifier: ranges, thresholds and factor tags *)

Module FoodClassifierRanges.
Import Core PyQ FoodClassifier FoodClassifierSpec InputSpec.
Import FoodClassifierProps.
Local Open Scope Q_scope.

Lemma py_min_unit (x : Q) : 0 <= x → unit_range (py_min 1 x).
Proof.
  intros Hx. unfold unit_range, py_min. destruct (Qlt_le_dec x 1); lra.
Qed.

Lemma count_of_nonneg (l : list string) : 0 <= count_of l.
Proof. unfold count_of. rewrite <- (Zle_Qle 0). lia. Qed.

Lemma nutrient_density_unit (f : FoodItem) :
  valid_nutrition (nutritional_info f) →
  unit_range (nutrient_density (get_fsi_parameters f)).
Proof.
  intros (Hc & Hp & _ & _ & _ & _ & Hf & _). simpl.
  destruct (Qlt_le_dec 1 (calories (nutritional_info f))) as [Hcal | _];
    [| unfold unit_range; lra].
  apply py_min_unit. apply Qle_shift_div_l.
  - unfold Qdiv. change (/ 100) with (1 # 100). lra.
  - lra.
Qed.

(** The five FSI parameters of a well-formed item. *)
Lemma fsi_parameters_bounds (f : FoodItem) :
  valid_nutrition (nutritional_info f) →
  let fsi := get_fsi_parameters f in
  unit_range (nutrient_density fsi) ∧
  unit_range (processing_score fsi) ∧
  unit_range (preservative_load fsi) ∧
  unit_range (sugar_content fsi) ∧
  unit_range (sodium_level fsi).
Proof.
  intros Hv. pose proof (nutrient_density_unit f Hv) as Hnd.
  destruct Hv as (_ & _ & _ & _ & Hna & Hs & _ & Hl1 & Hl5).
  split; [exact Hnd |]. simpl. split; [| split; [| split]].
  - rewrite Zle_Qle in Hl1, Hl5. unfold unit_range, Qdiv.
    change (/ 4) with (1 # 4).
    change (inject_Z 1) with 1 in Hl1. change (inject_Z 5) with 5 in Hl5.
    lra.
  - apply py_min_unit. pose proof (count_of_nonneg
      (preservatives (nutritional_info f))).
    unfold Qdiv. change (/ 5) with (1 # 5). lra.
  - apply py_min_unit. unfold Qdiv. change (/ 30) with (1 # 30). lra.
  - apply py_min_unit. unfold Qdiv. change (/ 1000) with (1 # 1000). lra.
Qed.

(** X1.  On a well-formed item the five FSI parameters lie between 0
    and 1. *)
Theorem fsi_parameters_unit (f : FoodItem) :
  valid_nutrition (nutritional_info f) →
  let fsi := get_fsi_parameters f in
  unit_range (nutrient_density fsi) ∧
  unit_range (processing_score fsi) ∧
  unit_range (preservative_load fsi) ∧
  unit_range (sugar_content fsi) ∧
  unit_range (sodium_level fsi).
Proof. exact (fsi_parameters_bounds f). Qed.

Lemma fsi_parameters_unit_witness :
  unit_range (nutrient_density (get_fsi_parameters sweet_cereal)) ∧
  unit_range (sodium_level (get_fsi_parameters salted_snack)).
Proof.
  split.
  - apply (fsi_parameters_unit sweet_cereal).
    unfold valid_nutrition. simpl.
    repeat split; first [lia | by vm_compute].
  - apply (fsi_parameters_unit salted_snack).
    unfold valid_nutrition. simpl.
    repeat split; first [lia | by vm_compute].
Defined.

(** The three scores, as [_calculate_category_scores] leaves them: the
    weighted HEALTHY sum, a JUNK score that the hard thresholds can only
    raise, to 0.7 at most, and the preservative load, raised to 0.8 with
    three preservatives. *)
Lemma scores_facts (f : FoodItem) (fsi : FSIParameters) :
  let n := nutritional_info f in
  let raw_junk :=
    (1 - nutrient_density fsi) * 0.3 + (1 - processing_score fsi) * 0.3 +
    sugar_content fsi * 0.2 + sodium_level fsi * 0.2 in
  ∃ h j p,
    _calculate_category_scores f fsi
    = [(HEALTHY, h); (JUNK, j); (PRESERVATIVE_HEAVY, p)] ∧
    h = nutrient_density fsi * 0.4 + processing_score fsi * 0.3 +
        (1 - preservative_load fsi) * 0.15 +
        (1 - sugar_content fsi) * 0.075 + (1 - sodium_level fsi) * 0.075 ∧
    raw_junk <= j ∧ (j <= raw_junk ∨ j <= 0.7) ∧
    ((4 <= processing_level n)%Z → 0.7 <= j) ∧
    (15 < sugar n → 0.6 <= j) ∧
    (600 < sodium n → 0.6 <= j) ∧
    preservative_load fsi <= p ∧
    (p <= preservative_load fsi ∨ p <= 0.8) ∧
    ((length (preservatives n) < 3)%nat → p = preservative_load fsi) ∧
    ((3 <= length (preservatives n))%nat → 0.8 <= p).
Proof.
  intros n raw_junk. unfold _calculate_category_scores. fold n.
  fold raw_junk. do 3 eexists. split; [reflexivity |].
  split; [reflexivity |].
  unfold PROCESSING_JUNK_MIN, SUGAR_JUNK_THRESHOLD, SODIUM_JUNK_THRESHOLD,
    PRESERVATIVE_COUNT_THRESHOLD, py_max.
  destruct (4 <=? processing_level n)%Z eqn:E4;
    [apply Z.leb_le in E4 | apply Z.leb_gt in E4];
  destruct (3 <=? length (preservatives n))%nat eqn:E3;
    [apply Nat.leb_le in E3 | apply Nat.leb_gt in E3
    | apply Nat.leb_le in E3 | apply Nat.leb_gt in E3];
  repeat match goal with
  | |- context [Qlt_le_dec ?a ?b] =>
      lazymatch a with
      | context [Qlt_le_dec _ _] => fail
      | _ => destruct (Qlt_le_dec a b)
      end
  end;
  repeat split; intros;
    first [reflexivity | lra | lia | (left; lra) | (right; lra)].
Qed.

(** X2.  On a well-formed item every category score lies between 0
    and 1. *)
Theorem category_scores_unit (f : FoodItem) (c : FoodCategory) :
  valid_nutrition (nutritional_info f) →
  unit_range
    (score_of (_calculate_category_scores f (get_fsi_parameters f)) c).
Proof.
  intros Hv.
  destruct (fsi_parameters_bounds f Hv) as (Hnd & Hps & Hpl & Hs & Hna).
  destruct (scores_facts f (get_fsi_parameters f))
    as (h & j & p & -> & Hh & Hj1 & Hj2 & _ & _ & _ & Hp1 & Hp2 & _ & _).
  set (fsi := get_fsi_parameters f) in *. clearbody fsi.
  unfold unit_range in *. subst h. destruct c; simpl.
  - split; lra.
  - destruct Hj2; split; lra.
  - destruct Hp2; split; lra.
Qed.

Lemma category_scores_unit_witness :
  unit_range
    (score_of (_calculate_category_scores salted_snack
                 (get_fsi_parameters salted_snack)) JUNK).
Proof.
  apply (category_scores_unit salted_snack JUNK).
  unfold valid_nutrition. simpl. repeat split; first [lia | by vm_compute].
Defined.

(** X3.  The hard thresholds are floors of the JUNK score that no later
    rule lowers: 0.7 from processing level 4 on, 0.6 above 15 g of sugar
    and 0.6 above 600 mg of sodium. *)
Theorem junk_score_floors (f : FoodItem) (fsi : FSIParameters) :
  let n := nutritional_info f in
  let junk := score_of (_calculate_category_scores f fsi) JUNK in
  ((4 <= processing_level n)%Z → 0.7 <= junk) ∧
  (15 < sugar n → 0.6 <= junk) ∧
  (600 < sodium n → 0.6 <= junk).
Proof.
  intros n junk. unfold junk.
  destruct (scores_facts f fsi)
    as (h & j & p & -> & _ & _ & _ & H4 & Hs & Hna & _).
  simpl. auto.
Qed.

Lemma junk_score_floors_witness :
  0.7 <= score_of (_calculate_category_scores salted_snack
                     (get_fsi_parameters salted_snack)) JUNK.
Proof.
  apply (junk_score_floors salted_snack (get_fsi_parameters salted_snack)).
  by vm_compute.
Defined.

(** The arg-max of a three-entry dict, by cases. *)
Lemma max_key_three (h j p : Q) :
  let scores := [(HEALTHY, h); (JUNK, j); (PRESERVATIVE_HEAVY, p)] in
  (max_key scores = HEALTHY ∧ j <= h ∧ p <= h) ∨
  (max_key scores = JUNK ∧ h < j ∧ p <= j) ∨
  (max_key scores = PRESERVATIVE_HEAVY ∧ h < p ∧ j < p).
Proof.
  simpl. destruct (Qlt_le_dec h j); simpl.
  - destruct (Qlt_le_dec j p); [right; right | right; left];
      repeat split; first [reflexivity | lra].
  - destruct (Qlt_le_dec h p); [right; right | left];
      repeat split; first [reflexivity | lra].
Qed.

(** The arg-max holds a score that no category exceeds. *)
Lemma max_key_upper (f : FoodItem) (fsi : FSIParameters) (c : FoodCategory) :
  let scores := _calculate_category_scores f fsi in
  score_of scores c <= score_of scores (max_key scores).
Proof.
  intros scores. unfold scores.
  destruct (scores_facts f fsi) as (h & j & p & -> & _).
  destruct (max_key_three h j p) as [(-> & ? & ?) | [(-> & ? & ?) | (-> & ? & ?)]];
    destruct c; simpl; lra.
Qed.

(** Below three preservatives the load is 0.4 at most. *)
Lemma few_preservatives_load (f : FoodItem) :
  (length (preservatives (nutritional_info f)) < 3)%nat →
  preservative_load (get_fsi_parameters f) <= 0.4.
Proof.
  intros Hlt. simpl.
  pose proof (py_min_le_r 1
    (count_of (preservatives (nutritional_info f)) / 5)) as Hle.
  assert (Hc : count_of (preservatives (nutritional_info f)) <= 2).
  { unfold count_of. rewrite <- (Zle_Qle _ 2). lia. }
  revert Hle. unfold Qdiv. change (/ 5) with (1 # 5). lra.
Qed.

(** X4.  A well-formed item is classified PRESERVATIVE_HEAVY exactly
    when it lists three preservatives or more: below three the
    preservative score is at most 0.4, and HEALTHY and JUNK sum to 0.84
    at least. *)
Theorem preservative_heavy_iff (f : FoodItem) :
  valid_nutrition (nutritional_info f) →
  category (classify_food f) = PRESERVATIVE_HEAVY ↔
  (3 <= length (preservatives (nutritional_info f)))%nat.
Proof.
  intros Hv. split.
  - intros Hcat.
    destruct (le_lt_dec 3 (length (preservatives (nutritional_info f))))
      as [Hge | Hlt]; [exact Hge | exfalso].
    rewrite (select_few_preservatives f Hlt) in Hcat.
    pose proof (few_preservatives_load f Hlt) as Hp.
    destruct (fsi_parameters_bounds f Hv) as (Hnd & Hps & Hpl & Hs & Hna).
    revert Hcat.
    destruct (scores_facts f (get_fsi_parameters f))
      as (h & j & p & -> & Hh & Hj1 & _ & _ & _ & _ & _ & _ & Hp3 & _).
    specialize (Hp3 Hlt).
    set (fsi := get_fsi_parameters f) in *. clearbody fsi.
    unfold unit_range in *. subst h p. simpl score_of.
    intros Hcat.
    destruct (max_key_three
                (nutrient_density fsi * 0.4 + processing_score fsi * 0.3 +
                 (1 - preservative_load fsi) * 0.15 +
                 (1 - sugar_content fsi) * 0.075 +
                 (1 - sodium_level fsi) * 0.075) j (preservative_load fsi))
      as [(Hm & ? & ?) | [(Hm & ? & ?) | (Hm & ? & ?)]];
      rewrite Hm in Hcat; simpl in Hcat.
    + destruct (Qlt_le_dec _ _); discriminate.
    + discriminate.
    + lra.
  - intros Hge. by apply (select_many_preservatives f).
Qed.

Lemma preservative_heavy_iff_witness :
  category (classify_food sweet_cereal) ≠ PRESERVATIVE_HEAVY.
Proof.
  intros Hcat. apply (preservative_heavy_iff sweet_cereal) in Hcat.
  - simpl in Hcat. lia.
  - unfold valid_nutrition. simpl. repeat split; first [lia | by vm_compute].
Defined.

(** From processing level 4 on, the processing score is 0.25 at most. *)
Lemma high_processing_score (f : FoodItem) :
  (4 <= processing_level (nutritional_info f))%Z →
  processing_score (get_fsi_parameters f) <= 0.25.
Proof.
  intros Hl. simpl. rewrite Zle_Qle in Hl.
  change (inject_Z 4) with 4 in Hl.
  unfold Qdiv. change (/ 4) with (1 # 4). lra.
Qed.

(** X5.  A well-formed item of processing level 4 or 5 is never
    classified HEALTHY: its HEALTHY score is at most 0.775 and its JUNK
    score at least 0.7, so a HEALTHY arg-max loses the tie-break. *)
Theorem highly_processed_never_healthy (f : FoodItem) :
  valid_nutrition (nutritional_info f) →
  (4 <= processing_level (nutritional_info f))%Z →
  category (classify_food f) ≠ HEALTHY.
Proof.
  intros Hv Hl Hcat.
  destruct (le_lt_dec 3 (length (preservatives (nutritional_info f))))
    as [Hge | Hlt].
  { change (category (classify_food f))
      with (_select_dominant_category
              (_calculate_category_scores f (get_fsi_parameters f)) f)
      in Hcat.
    rewrite select_many_preservatives in Hcat by exact Hge. discriminate. }
  rewrite (select_few_preservatives f Hlt) in Hcat.
  pose proof (high_processing_score f Hl) as Hps'.
  destruct (fsi_parameters_bounds f Hv) as (Hnd & Hps & Hpl & Hs & Hna).
  revert Hcat.
  destruct (scores_facts f (get_fsi_parameters f))
    as (h & j & p & -> & Hh & _ & _ & H4 & _).
  specialize (H4 Hl).
  set (fsi := get_fsi_parameters f) in *. clearbody fsi.
  unfold unit_range in *. subst h. simpl score_of.
  set (h := nutrient_density fsi * 0.4 + processing_score fsi * 0.3 +
            (1 - preservative_load fsi) * 0.15 +
            (1 - sugar_content fsi) * 0.075 +
            (1 - sodium_level fsi) * 0.075).
  assert (Hh : h <= 0.775) by (unfold h; lra).
  clearbody h.
  destruct (max_key_three h j p)
    as [(Hm & ? & ?) | [(Hm & ? & ?) | (Hm & ? & ?)]];
    rewrite Hm;
    [| rewrite decide_False by done; by intros ?
     | rewrite decide_False by done; by intros ?].
  rewrite decide_True by reflexivity.
  destruct (Qlt_le_dec (Qabs (j - h)) 0.15) as [_ | Hfar]; [by intros ? |].
  intros _. revert Hfar. apply Qlt_not_le.
  apply Qabs_case; intros; lra.
Qed.

Lemma highly_processed_never_healthy_witness :
  category (classify_food salted_snack) ≠ HEALTHY.
Proof.
  apply (highly_processed_never_healthy salted_snack).
  - unfold valid_nutrition. simpl. repeat split; first [lia | by vm_compute].
  - by vm_compute.
Defined.

(** X6.  Whenever the category returned is not the arg-max of the
    scores (the override or the tie-break chose it), the confidence is
    60: the separation from the best other score is not positive. *)
Theorem demoted_confidence (f : FoodItem) :
  let scores := _calculate_category_scores f (get_fsi_parameters f) in
  category (classify_food f) ≠ max_key scores →
  confidence (classify_food f) = 60.
Proof.
  intros scores Hne.
  change (confidence (classify_food f))
    with (_calculate_confidence scores (category (classify_food f))).
  revert Hne. generalize (category (classify_food f)). intros c.
  unfold scores. clear scores.
  destruct (scores_facts f (get_fsi_parameters f)) as (h & j & p & -> & _).
  intros Hne.
  destruct (max_key_three h j p)
    as [(Hm & ? & ?) | [(Hm & ? & ?) | (Hm & ? & ?)]];
    rewrite Hm in Hne; destruct c; try done;
    unfold _calculate_confidence; simpl;
    unfold py_max_list, py_min, py_max; simpl;
    repeat match goal with
    | |- context [Qlt_le_dec ?a ?b] =>
        lazymatch a with
        | context [Qlt_le_dec _ _] => fail
        | _ => lazymatch b with
               | context [Qlt_le_dec _ _] => fail
               | _ => destruct (Qlt_le_dec a b)
               end
        end
    end;
    first [reflexivity | exfalso; lra].
Qed.

Lemma demoted_confidence_witness :
  confidence (classify_food sweet_cereal) = 60 ∧
  confidence (classify_food salted_snack) = 60.
Proof.
  split.
  - apply (demoted_confidence sweet_cereal). by vm_compute.
  - apply (demoted_confidence salted_snack). by vm_compute.
Defined.

(** X7.  The list of dominant factors is never empty and repeats no
    tag; the generic tag "overall_composition" only stands alone; and a
    PRESERVATIVE_HEAVY classification leads with "preservatives". *)
Theorem dominant_factors_shape (f : FoodItem) :
  let factors := dominant_factors (classify_food f) in
  factors ≠ [] ∧
  NoDup factors ∧
  ("overall_composition" ∈ factors → factors = ["overall_composition"]) ∧
  (category (classify_food f) = PRESERVATIVE_HEAVY →
   head factors = Some "preservatives").
Proof.
  change (dominant_factors (classify_food f))
    with (_generate_factors (category (classify_food f)) f
            (get_fsi_parameters f)).
  generalize (get_fsi_parameters f). generalize (category (classify_food f)).
  intros c fsi. unfold _generate_factors. cbv zeta beta.
  destruct c;
    repeat match goal with
    | |- context [if ?b then [_] else []] => destruct b
    end;
    simpl; (split; [done |]); (split; [| split; [| done]]);
    first [ apply (bool_decide_unpack _); by vm_compute
          | intros Hin; exfalso; revert Hin;
            apply (bool_decide_unpack _); by vm_compute
          | reflexivity
          | intros _; reflexivity ].
Qed.

Lemma dominant_factors_shape_witness :
  head (dominant_factors (classify_food salted_snack)) = Some "preservatives".
Proof.
  apply (dominant_factors_shape salted_snack). by vm_compute.
Defined.

End FoodClassifierRanges.

(** ** The water-retention predictor: order, types and bounds *)

Module WaterRetentionMore.
Import Core PyQ WaterRetentionPredictor WaterRetentionSpec RetentionSpec.
Import WaterRetentionProps.
Local Open Scope Q_scope.

Lemma analyze_sorts_qualifying (l : LifestyleInput) :
  analyze_retention_factors l = sort_by_impact (qualifying_factors l).
Proof.
  unfold analyze_retention_factors, qualifying_factors.
  destruct (_calculate_sodium_factor l), (_calculate_hydration_factor l),
    (_calculate_sleep_factor l), (_calculate_stress_factor l); reflexivity.
Qed.

Lemma insert_by_impact_HdRel g f l :
  (impact f < impact g)%Z → HdRel impact_ge g l →
  HdRel impact_ge g (insert_by_impact f l).
Proof.
  intros Hfg Hl. destruct l as [| h l]; simpl.
  - constructor. unfold impact_ge. lia.
  - destruct (impact h <=? impact f)%Z.
    + constructor. unfold impact_ge. lia.
    + constructor. by inversion Hl.
Qed.

Lemma insert_by_impact_sorted f l :
  Sorted impact_ge l → Sorted impact_ge (insert_by_impact f l).
Proof.
  induction 1 as [| g l Hs IH Hhd]; simpl.
  - repeat constructor.
  - destruct (impact g <=? impact f)%Z eqn:E.
    + apply Z.leb_le in E. constructor; [by constructor |].
      constructor. exact E.
    + apply Z.leb_gt in E. constructor; [exact IH |].
      by apply insert_by_impact_HdRel.
Qed.

Lemma sort_by_impact_sorted l : Sorted impact_ge (sort_by_impact l).
Proof.
  induction l as [| f l IH]; simpl; [constructor |].
  by apply insert_by_impact_sorted.
Qed.

(** The sort is stable: among the factors of one impact the order of
    generation is kept. *)
Lemma insert_by_impact_filter (k : Z) f l :
  filter (λ g, impact g = k) (insert_by_impact f l)
  = filter (λ g, impact g = k) (f :: l).
Proof.
  induction l as [| g l IH]; simpl; [reflexivity |].
  destruct (impact g <=? impact f)%Z eqn:E; [reflexivity |].
  apply Z.leb_gt in E.
  rewrite (filter_cons _ g), IH, !filter_cons.
  repeat case_decide; try reflexivity. lia.
Qed.

Lemma sort_by_impact_filter (k : Z) l :
  filter (λ g, impact g = k) (sort_by_impact l)
  = filter (λ g, impact g = k) l.
Proof.
  induction l as [| f l IH]; simpl; [reflexivity |].
  rewrite insert_by_impact_filter, !filter_cons, IH. reflexivity.
Qed.

Lemma max_by_impact_head f rest :
  Forall (λ g, (impact g <= impact f)%Z) rest → max_by_impact f rest = f.
Proof.
  unfold max_by_impact. induction 1 as [| g rest Hg _ IH]; simpl;
    [reflexivity |].
  assert (E : (impact f <? impact g)%Z = false) by (apply Z.ltb_ge; lia).
  by rewrite E.
Qed.

(** X8.  The contributing factors come sorted by impact, highest first,
    and stably (factors of equal impact stay in the order sodium,
    hydration, sleep, stress); the primary factor is the first of them,
    and no contributing factor has a higher impact. *)
Theorem contributing_factors_sorted (l : LifestyleInput) (b : BodyType) :
  let r := predict_retention l b in
  Sorted impact_ge (contributing_factors r) ∧
  (∀ k, filter (λ g, impact g = k) (contributing_factors r)
        = filter (λ g, impact g = k) (qualifying_factors l)) ∧
  (contributing_factors r ≠ [] →
   head (contributing_factors r) = Some (primary_factor r)) ∧
  (∀ g, g ∈ contributing_factors r →
        (impact g <= impact (primary_factor r))%Z).
Proof.
  intros r.
  change (contributing_factors r) with (analyze_retention_factors l).
  change (primary_factor r)
    with (match analyze_retention_factors l with
          | f :: rest => max_by_impact f rest
          | [] => {| factor_type := HYDRATION; impact := 1 |}
          end).
  pose proof (sort_by_impact_sorted (qualifying_factors l)) as Hs.
  rewrite <- analyze_sorts_qualifying in Hs.
  split; [exact Hs |]. split.
  { intros k. rewrite analyze_sorts_qualifying. apply sort_by_impact_filter. }
  destruct (analyze_retention_factors l) as [| f rest].
  { split; [done |]. intros g Hin. by apply elem_of_nil in Hin. }
  apply Sorted_StronglySorted in Hs; [| intros x y z; unfold impact_ge; lia].
  apply StronglySorted_inv in Hs as [_ Hall].
  rewrite max_by_impact_head by exact Hall.
  split; [done |].
  intros g [-> | Hin]%elem_of_cons; [lia |].
  rewrite Forall_forall in Hall. by apply Hall.
Qed.

Lemma contributing_factors_sorted_witness :
  head (contributing_factors (predict_retention scenario_lifestyle
                                scenario_body))
  = Some (primary_factor (predict_retention scenario_lifestyle
                            scenario_body)).
Proof.
  apply (contributing_factors_sorted scenario_lifestyle scenario_body).
  by vm_compute.
Defined.

(** The type of the factor that each signal yields. *)
Ltac factor_type_cases :=
  intros Hf; repeat case_match; simplify_eq; reflexivity.

Lemma sodium_factor_type l f :
  _calculate_sodium_factor l = Some f → factor_type f = SODIUM.
Proof. unfold _calculate_sodium_factor. factor_type_cases. Qed.

Lemma hydration_factor_type l f :
  _calculate_hydration_factor l = Some f → factor_type f = HYDRATION.
Proof. unfold _calculate_hydration_factor. factor_type_cases. Qed.

Lemma sleep_factor_type l f :
  _calculate_sleep_factor l = Some f → factor_type f = SLEEP.
Proof. unfold _calculate_sleep_factor. factor_type_cases. Qed.

Lemma stress_factor_type l f :
  _calculate_stress_factor l = Some f → factor_type f = STRESS.
Proof. unfold _calculate_stress_factor. factor_type_cases. Qed.

(** The types of the qualifying factors form a sublist of sodium,
    hydration, sleep, stress. *)
Lemma qualifying_types_sublist (l : LifestyleInput) :
  sublist (map factor_type (qualifying_factors l))
    [SODIUM; HYDRATION; SLEEP; STRESS].
Proof.
  unfold qualifying_factors. simpl.
  destruct (_calculate_sodium_factor l) as [f1 |] eqn:E1;
  destruct (_calculate_hydration_factor l) as [f2 |] eqn:E2;
  destruct (_calculate_sleep_factor l) as [f3 |] eqn:E3;
  destruct (_calculate_stress_factor l) as [f4 |] eqn:E4;
  simpl;
  repeat match goal with
  | H : _calculate_sodium_factor _ = Some _ |- _ =>
      rewrite (sodium_factor_type _ _ H); clear H
  | H : _calculate_hydration_factor _ = Some _ |- _ =>
      rewrite (hydration_factor_type _ _ H); clear H
  | H : _calculate_sleep_factor _ = Some _ |- _ =>
      rewrite (sleep_factor_type _ _ H); clear H
  | H : _calculate_stress_factor _ = Some _ |- _ =>
      rewrite (stress_factor_type _ _ H); clear H
  end;
  repeat constructor.
Qed.

(** X9.  The contributing factors carry pairwise different types, at
    most four of them, each of sodium, hydration, sleep or stress (never
    hormonal), with an impact from 1 to 3. *)
Theorem contributing_factor_types (l : LifestyleInput) (b : BodyType) :
  let factors := contributing_factors (predict_retention l b) in
  NoDup (map factor_type factors) ∧
  (length factors <= 4)%nat ∧
  (∀ f, f ∈ factors →
        factor_type f ≠ HORMONAL ∧ (1 <= impact f <= 3)%Z).
Proof.
  intros factors. unfold factors.
  change (contributing_factors (predict_retention l b))
    with (analyze_retention_factors l).
  pose proof (analyze_retention_factors_perm l) as Hperm.
  pose proof (qualifying_types_sublist l) as Hsub.
  assert (Hnd : NoDup [SODIUM; HYDRATION; SLEEP; STRESS]).
  { repeat (apply NoDup_cons; split; [set_solver |]). apply NoDup_nil_2. }
  split; [| split].
  - rewrite Hperm. by eapply sublist_NoDup.
  - rewrite Hperm. apply sublist_length in Hsub.
    rewrite length_map in Hsub. exact Hsub.
  - intros f Hin. rewrite Hperm in Hin. split.
    + intros Ht.
      assert (Hin' : HORMONAL ∈ map factor_type (qualifying_factors l)).
      { rewrite <- Ht. apply list_elem_of_fmap. eauto. }
      apply (elem_of_sublist _ _ _ Hin') in Hsub. set_solver.
    + by apply (qualifying_factors_impact l).
Qed.

Lemma contributing_factor_types_witness :
  factor_type (primary_factor (predict_retention scenario_lifestyle
                                 scenario_body)) ≠ HORMONAL.
Proof.
  apply (contributing_factor_types scenario_lifestyle scenario_body).
  vm_compute. apply list_elem_of_here.
Defined.

(** *** When no signal fires *)

Lemma sodium_factor_none (l : LifestyleInput) :
  _calculate_sodium_factor l = None ↔ total_sodium l < 1500.
Proof.
  unfold _calculate_sodium_factor, geb, HIGH_SODIUM_THRESHOLD,
    MODERATE_SODIUM_THRESHOLD.
  destruct (Qlt_le_dec (total_sodium l) 2000);
    destruct (Qlt_le_dec (total_sodium l) 1500); simpl;
    split; intros H; first [done | lra].
Qed.

Lemma hydration_factor_none (l : LifestyleInput) :
  _calculate_hydration_factor l = None ↔ 2000 <= water_intake l <= 4500.
Proof.
  unfold _calculate_hydration_factor, gtb, LOW_WATER_THRESHOLD,
    VERY_HIGH_WATER_THRESHOLD, OPTIMAL_WATER_MIN.
  destruct (Qlt_le_dec (water_intake l) 1500);
    destruct (Qlt_le_dec 4500 (water_intake l));
    destruct (Qlt_le_dec (water_intake l) 2000);
    split; intros H; first [done | lra | split; lra].
Qed.

Lemma sleep_factor_none (l : LifestyleInput) :
  _calculate_sleep_factor l = None ↔
  match sleep_data l with
  | None => True
  | Some s => (5 < quality s)%Z ∧ 6 <= duration s
  end.
Proof.
  unfold _calculate_sleep_factor, gtb, POOR_SLEEP_QUALITY_THRESHOLD,
    POOR_SLEEP_DURATION_THRESHOLD.
  destruct (sleep_data l) as [s |]; [| done].
  destruct (quality s <=? 5)%Z eqn:Eq;
    [apply Z.leb_le in Eq | apply Z.leb_gt in Eq];
    destruct (Qlt_le_dec (duration s) 6); simpl;
    split; intros H; first [done | lia | lra | split; [lia | lra]].
Qed.

Lemma maxZ_lt (k i : Z) (rest : list Z) :
  (maxZ i rest < k)%Z ↔ Forall (λ j, (j < k)%Z) (i :: rest).
Proof.
  unfold maxZ. revert i. induction rest as [| j rest IH]; intros i; simpl.
  - split; [intros H; by repeat constructor | by inversion 1].
  - rewrite IH. split.
    + intros HF. inversion HF as [| ? ? Hm Hrest]; subst.
      repeat constructor; [lia | lia | exact Hrest].
    + intros HF. inversion HF as [| ? ? Hi HF']; subst.
      inversion HF' as [| ? ? Hj Hrest]; subst.
      constructor; [lia | exact Hrest].
Qed.

Lemma stress_intensities_lt (k : Z) (habits : list Habit) :
  Forall (λ j, (j < k)%Z)
    (map intensity (filter (λ h, type h = Core.STRESS) habits)) ↔
  Forall (λ h, type h = Core.STRESS → (intensity h < k)%Z) habits.
Proof.
  induction habits as [| h habits IH]; [by split; constructor |].
  rewrite filter_cons. case_decide as Ht.
  - simpl. rewrite !Forall_cons, IH. tauto.
  - rewrite Forall_cons, IH. tauto.
Qed.

Lemma stress_factor_none (l : LifestyleInput) :
  _calculate_stress_factor l = None ↔
  Forall (λ h, type h = Core.STRESS → (intensity h < 5)%Z) (daily_habits l).
Proof.
  rewrite <- stress_intensities_lt. unfold _calculate_stress_factor.
  destruct (map intensity _) as [| i rest]; [by split; constructor |].
  rewrite <- maxZ_lt. unfold HIGH_STRESS_INTENSITY.
  destruct (7 <=? maxZ i rest)%Z eqn:E7;
    [apply Z.leb_le in E7 | apply Z.leb_gt in E7];
    destruct (5 <=? maxZ i rest)%Z eqn:E5;
    [apply Z.leb_le in E5 | apply Z.leb_gt in E5
    | apply Z.leb_le in E5 | apply Z.leb_gt in E5];
    split; intros H; first [done | lia].
Qed.

Lemma sort_by_impact_nil l : sort_by_impact l = [] ↔ l = [].
Proof.
  split; [| by intros ->].
  intros H. apply Permutation_nil_r. rewrite <- H.
  by rewrite sort_by_impact_perm.
Qed.

(** X10.  No factor contributes exactly on an optimal lifestyle; the
    prediction is then LOW with confidence 60, whatever the body type,
    and the primary factor is the made-up hydration factor of impact
    1. *)
Theorem no_factor_iff_optimal (l : LifestyleInput) (b : BodyType) :
  (contributing_factors (predict_retention l b) = [] ↔ optimal_lifestyle l) ∧
  (optimal_lifestyle l →
   predict_retention l b
   = {| level := LOW; confidence := 60;
        primary_factor := neutral_factor;
        contributing_factors := [] |}).
Proof.
  assert (Hiff : analyze_retention_factors l = [] ↔ optimal_lifestyle l).
  { rewrite analyze_sorts_qualifying, sort_by_impact_nil.
    unfold optimal_lifestyle.
    rewrite <- sodium_factor_none, <- hydration_factor_none,
      <- sleep_factor_none, <- stress_factor_none.
    unfold qualifying_factors. simpl.
    destruct (_calculate_sodium_factor l), (_calculate_hydration_factor l),
      (_calculate_sleep_factor l), (_calculate_stress_factor l); simpl;
      split; first [done | by intros (? & ? & ? & ?)]. }
  split; [exact Hiff |].
  intros Hopt. apply Hiff in Hopt. unfold predict_retention. rewrite Hopt.
  unfold adjusted_score_of. destruct (classification b); reflexivity.
Qed.

Lemma no_factor_iff_optimal_witness :
  level (predict_retention quiet_day scenario_body) = LOW ∧
  contributing_factors (predict_retention quiet_day scenario_body) = [].
Proof.
  destruct (no_factor_iff_optimal quiet_day scenario_body) as [_ Hopt].
  rewrite Hopt; [by split |].
  unfold optimal_lifestyle, quiet_day. simpl.
  split; [by vm_compute |]. split; [split; by vm_compute |].
  split; [split; [lia | by vm_compute] |].
  apply Forall_cons; split; [intros _; simpl; lia |].
  apply Forall_cons; split; [simpl; discriminate |].
  apply Forall_nil_2.
Defined.

(** *** The finitely many signal profiles *)

Ltac factor_shape_cases := repeat case_match; simplify_eq; auto.

Lemma sodium_factor_shape l :
  _calculate_sodium_factor l = None ∨
  _calculate_sodium_factor l = Some {| factor_type := SODIUM; impact := 2 |} ∨
  _calculate_sodium_factor l = Some {| factor_type := SODIUM; impact := 3 |}.
Proof. unfold _calculate_sodium_factor. factor_shape_cases. Qed.

Lemma hydration_factor_shape l :
  _calculate_hydration_factor l = None ∨
  _calculate_hydration_factor l
  = Some {| factor_type := HYDRATION; impact := 1 |} ∨
  _calculate_hydration_factor l
  = Some {| factor_type := HYDRATION; impact := 2 |}.
Proof. unfold _calculate_hydration_factor. factor_shape_cases. Qed.

Lemma sleep_factor_shape l :
  _calculate_sleep_factor l = None ∨
  _calculate_sleep_factor l = Some {| factor_type := SLEEP; impact := 1 |} ∨
  _calculate_sleep_factor l = Some {| factor_type := SLEEP; impact := 2 |}.
Proof. unfold _calculate_sleep_factor. factor_shape_cases. Qed.

Lemma stress_factor_shape l :
  _calculate_stress_factor l = None ∨
  _calculate_stress_factor l = Some {| factor_type := STRESS; impact := 1 |} ∨
  _calculate_stress_factor l = Some {| factor_type := STRESS; impact := 2 |}.
Proof. unfold _calculate_stress_factor. factor_shape_cases. Qed.

(** Case analysis on the 3 x 3 x 3 x 3 signal profiles of [l] and the
    four classifications of [b]. *)
Ltac retention_profiles l b :=
  unfold predict_retention, analyze_retention_factors, adjusted_score_of;
  destruct (sodium_factor_shape l) as [-> | [-> | ->]],
    (hydration_factor_shape l) as [-> | [-> | ->]],
    (sleep_factor_shape l) as [-> | [-> | ->]],
    (stress_factor_shape l) as [-> | [-> | ->]];
  destruct (classification b).

Lemma sumZ_nonneg (l : list Z) : Forall (λ i, (0 <= i)%Z) l → (0 <= sumZ l)%Z.
Proof.
  induction 1 as [| i l Hi _ IH]; [done |]. rewrite sumZ_cons. lia.
Qed.

Lemma total_score_nonneg (l : LifestyleInput) :
  (0 <= sumZ (map impact (analyze_retention_factors l)))%Z.
Proof.
  apply sumZ_nonneg, Forall_forall. intros i Hi.
  apply list_elem_of_fmap in Hi as (f & -> & Hf).
  rewrite analyze_retention_factors_perm in Hf.
  apply qualifying_factors_impact in Hf. lia.
Qed.

(** X11.  A more sensitive body type never lowers the predicted level,
    and the body type changes neither the contributing factors nor the
    primary factor. *)
Theorem level_monotone_in_sensitivity (l : LifestyleInput) (b1 b2 : BodyType) :
  BODY_TYPE_SENSITIVITY (classification b1)
    <= BODY_TYPE_SENSITIVITY (classification b2) →
  (level_rank (level (predict_retention l b1))
   <= level_rank (level (predict_retention l b2)))%Z ∧
  contributing_factors (predict_retention l b1)
  = contributing_factors (predict_retention l b2) ∧
  primary_factor (predict_retention l b1)
  = primary_factor (predict_retention l b2).
Proof.
  intros Hs. split; [| by split].
  unfold predict_retention, adjusted_score_of. cbn [level].
  pose proof (total_score_nonneg l) as Ht.
  set (t := sumZ (map impact (analyze_retention_factors l))) in *.
  assert (Hq : 0 <= inject_Z t).
  { change 0 with (inject_Z 0). by rewrite <- Zle_Qle. }
  set (s1 := BODY_TYPE_SENSITIVITY (classification b1)) in *.
  set (s2 := BODY_TYPE_SENSITIVITY (classification b2)) in *.
  assert (Hle : inject_Z t * s1 <= inject_Z t * s2) by nra.
  unfold geb.
  destruct (Qlt_le_dec 2 (inject_Z t * s1)),
    (Qlt_le_dec 5 (inject_Z t * s1)),
    (Qlt_le_dec 2 (inject_Z t * s2)),
    (Qlt_le_dec 5 (inject_Z t * s2)); simpl; first [lia | lra].
Qed.

Lemma level_monotone_in_sensitivity_witness :
  (level_rank (level (predict_retention scenario_lifestyle
     {| classification := ECTOMORPH; characteristics := [];
        user_id := "user-123" |}))
   <= level_rank (level (predict_retention scenario_lifestyle
                           scenario_body)))%Z.
Proof.
  apply (level_monotone_in_sensitivity scenario_lifestyle
           {| classification := ECTOMORPH; characteristics := [];
              user_id := "user-123" |} scenario_body).
  by vm_compute.
Defined.

(** X12.  The confidence of a prediction is one of 60, 80, 85, 90 and
    95 (the clamp to 65..95 never acts), and it is 60 exactly when no
    factor contributes. *)
Theorem retention_confidence_values (l : LifestyleInput) (b : BodyType) :
  let r := predict_retention l b in
  confidence r ∈ [60; 80; 85; 90; 95] ∧
  (confidence r = 60 ↔ contributing_factors r = []).
Proof.
  intros r. unfold r. clear r.
  retention_profiles l b; vm_compute;
    (split; [repeat constructor | split; intros H; first [done | discriminate]]).
Qed.

(** X13.  The total impact of the contributing factors lies between 0
    and 9.  A total of at most 1 gives LOW and a total of at least 7
    gives HIGH for every body type, and HIGH is never predicted from
    fewer than two contributing factors. *)
Theorem level_by_total_impact (l : LifestyleInput) (b : BodyType) :
  let r := predict_retention l b in
  let total := sumZ (map impact (contributing_factors r)) in
  (0 <= total <= 9)%Z ∧
  ((total <= 1)%Z → level r = LOW) ∧
  ((7 <= total)%Z → level r = HIGH) ∧
  (level r = HIGH → (2 <= length (contributing_factors r))%nat).
Proof.
  intros r total. unfold total, r. clear total r.
  retention_profiles l b; vm_compute;
    (split; [split; discriminate |]);
    (split; [intros H; first [reflexivity | by destruct H] |]);
    (split; [intros H; first [reflexivity | by destruct H] |]);
    intros H; first [discriminate | lia].
Qed.

Lemma level_by_total_impact_witness :
  (2 <= length (contributing_factors
                  (predict_retention scenario_lifestyle scenario_body)))%nat.
Proof.
  apply (level_by_total_impact scenario_lifestyle scenario_body).
  by vm_compute.
Defined.

End WaterRetentionMore.

(** ** More on the trend detector *)

Module RegressionProps.
Import Py TrendAnalyzer TrendSpec SeriesSpec TrendStats TrendDetectorProps.
Import CorrelationStats.
Local Open Scope R_scope.

Lemma length_indices (n : nat) : length (indices n) = n.
Proof. unfold indices. by rewrite length_map, length_seq. Qed.

(** [_detect_pattern] on three or more points, in closed form: no step
    raises and the degenerate branch is never taken. *)
Lemma detect_pattern_eq metric (time_series : Series) time_range :
  (3 <= length time_series)%nat →
  let values := map snd time_series in
  let slope := fitted_slope values in
  let trend :=
    if Rlt_dec (Rabs slope) (sample_sd values * 0.1) then STABLE
    else if Rlt_dec 0 slope then INCREASING
    else DECREASING in
  let r_squared :=
    if Rlt_dec 0 (sq_dev values) then 1 - residual values / sq_dev values
    else 0 in
  _detect_pattern metric time_series time_range
  = Ok (Some (pattern_of metric trend
                (py_max 50 (py_min 100 (r_squared * 100))) time_range)).
Proof.
  intros Hn values slope trend r_squared.
  unfold _detect_pattern.
  assert (Hlt : (length time_series <? 3)%nat = false)
    by (apply Nat.ltb_ge; exact Hn).
  rewrite Hlt. cbv zeta. fold values.
  assert (Hlen : length values = length time_series)
    by (unfold values; apply length_map).
  fold (indices (length values)).
  set (x := indices (length values)).
  assert (Hxlen : length x = length values) by apply length_indices.
  rewrite (statistics_mean_ok x), (statistics_mean_ok values).
  2: { apply (length_ge_nonempty _ 2). lia. }
  2: { apply (length_ge_nonempty _ 2). lia. }
  rewrite !bind_Ok.
  fold (mean_of x) (mean_of values) (sq_dev x) (co_dev x values).
  destruct (Req_dec_T (sq_dev x) 0) as [H0 | Hd].
  { exfalso. revert H0. apply index_deviation_nonzero. lia. }
  rewrite (py_div_ok _ _ Hd), bind_Ok.
  rewrite statistics_stdev_ok by lia. rewrite bind_Ok.
  fold (mean_of values) (sq_dev values) (sample_sd values).
  fold (fitted_slope values). fold slope. fold trend.
  change (sum (zip_with (λ v p, (v - p) ^ 2) values
                 (map (λ i, mean_of values + slope * (i - mean_of x)) x)))
    with (residual values).
  destruct (Rlt_dec 0 (sq_dev values)) as [Hpos | Hno].
  - rewrite py_div_ok by lra. rewrite !bind_Ok.
    rewrite mk_Pattern_ok by apply confidence_valid.
    rewrite bind_Ok. unfold r_squared.
    destruct (Rlt_dec 0 (sq_dev values)); [reflexivity | done].
  - rewrite !bind_Ok.
    rewrite mk_Pattern_ok by apply confidence_valid.
    rewrite bind_Ok. unfold r_squared.
    destruct (Rlt_dec 0 (sq_dev values)); [done | reflexivity].
Qed.

Lemma sum_app (l1 l2 : list R) : sum (l1 ++ l2) = sum l1 + sum l2.
Proof.
  induction l1 as [| x l1 IH]; simpl app.
  - unfold sum at 2. simpl. lra.
  - rewrite !sum_cons, IH. lra.
Qed.

Lemma indices_S (n : nat) : indices (S n) = indices n ++ [INR n].
Proof. unfold indices. by rewrite seq_S, map_app. Qed.

Lemma sum_singleton (x : R) : sum [x] = x.
Proof. unfold sum. simpl. lra. Qed.

Lemma sum_indices (n : nat) : sum (indices n) = INR n * (INR n - 1) / 2.
Proof.
  induction n as [| n IH].
  - unfold indices, sum. simpl. lra.
  - rewrite indices_S, sum_app, sum_singleton, IH, S_INR. lra.
Qed.

Lemma sum_sq_indices (n : nat) :
  sum (map (λ x, x ^ 2) (indices n))
  = (INR n - 1) * INR n * (2 * INR n - 1) / 6.
Proof.
  induction n as [| n IH].
  - unfold indices, sum. simpl. lra.
  - rewrite indices_S, map_app, sum_app. cbn [map].
    rewrite sum_singleton, IH, S_INR. lra.
Qed.

Lemma sum_sq_shift (m : R) (xs : list R) :
  sum (map (λ x, (x - m) ^ 2) xs)
  = sum (map (λ x, x ^ 2) xs) - 2 * m * sum xs + INR (length xs) * m ^ 2.
Proof.
  induction xs as [| x xs IH].
  - unfold sum. simpl. lra.
  - cbn [map length]. rewrite !sum_cons, IH, S_INR. lra.
Qed.

Lemma mean_indices (n : nat) :
  (1 <= n)%nat → mean_of (indices n) = (INR n - 1) / 2.
Proof.
  intros Hn. unfold mean_of. rewrite sum_indices, length_indices.
  field. apply not_0_INR. lia.
Qed.

Lemma sq_dev_indices (n : nat) :
  (1 <= n)%nat → sq_dev (indices n) = INR n * (INR n ^ 2 - 1) / 12.
Proof.
  intros Hn. unfold sq_dev.
  rewrite sum_sq_shift, sum_sq_indices, sum_indices, length_indices.
  rewrite mean_indices by exact Hn. lra.
Qed.

(** *** Affine images *)

Lemma sum_map_affine (a b : R) (xs : list R) :
  sum (map (λ x, a * x + b) xs) = a * sum xs + INR (length xs) * b.
Proof.
  induction xs as [| x xs IH].
  - unfold sum. simpl. lra.
  - cbn [map length]. rewrite !sum_cons, IH, S_INR. lra.
Qed.

Lemma sum_map_scale {A} (k : R) (f : A → R) (l : list A) :
  sum (map (λ i, k * f i) l) = k * sum (map f l).
Proof.
  induction l as [| i l IH].
  - unfold sum. simpl. lra.
  - cbn [map]. rewrite !sum_cons, IH. lra.
Qed.

Lemma sum_map_ext {A} (f g : A → R) (l : list A) :
  (∀ i, f i = g i) → sum (map f l) = sum (map g l).
Proof. intros H. f_equal. by apply map_ext. Qed.

Lemma zip_with_map_diag {A B C D} (g : B → C → D) (f1 : A → B) (f2 : A → C)
    (l : list A) :
  zip_with g (map f1 l) (map f2 l) = map (λ i, g (f1 i) (f2 i)) l.
Proof. induction l as [| i l IH]; [done |]. simpl. by rewrite IH. Qed.

Lemma zip_with_map_r_diag {A C D} (g : A → C → D) (f2 : A → C) (l : list A) :
  zip_with g l (map f2 l) = map (λ i, g i (f2 i)) l.
Proof. induction l as [| i l IH]; [done |]. simpl. by rewrite IH. Qed.

Lemma mean_affine (a b : R) (xs : list R) :
  xs ≠ [] → mean_of (map (λ x, a * x + b) xs) = a * mean_of xs + b.
Proof.
  intros Hne. unfold mean_of. rewrite sum_map_affine, length_map.
  field. apply not_0_INR. by destruct xs.
Qed.

Lemma co_dev_affine (a b : R) (xs : list R) :
  xs ≠ [] → co_dev xs (map (λ x, a * x + b) xs) = a * sq_dev xs.
Proof.
  intros Hne. unfold co_dev, sq_dev. rewrite mean_affine by exact Hne.
  rewrite zip_with_map_r_diag, <- sum_map_scale.
  apply sum_map_ext. intros x. ring.
Qed.

Lemma sq_dev_affine (a b : R) (xs : list R) :
  xs ≠ [] → sq_dev (map (λ x, a * x + b) xs) = a ^ 2 * sq_dev xs.
Proof.
  intros Hne. unfold sq_dev. rewrite mean_affine by exact Hne.
  rewrite map_map, <- sum_map_scale.
  apply sum_map_ext. intros x. ring.
Qed.

Lemma line_values_indices (a b : R) (n : nat) :
  line_values a b n = map (λ x, a * x + b) (indices n).
Proof. unfold line_values, indices. by rewrite map_map. Qed.

Lemma indices_nonempty (n : nat) : (1 <= n)%nat → indices n ≠ [].
Proof. intros Hn. apply (length_ge_nonempty _ 0). by rewrite length_indices. Qed.

Lemma length_line_values (a b : R) (n : nat) : length (line_values a b n) = n.
Proof. unfold line_values. by rewrite length_map, length_seq. Qed.

Lemma sq_dev_indices_pos (n : nat) : (2 <= n)%nat → 0 < sq_dev (indices n).
Proof.
  intros Hn. rewrite sq_dev_indices by lia.
  apply le_INR in Hn. simpl in Hn. nra.
Qed.

Lemma fitted_slope_line (a b : R) (n : nat) :
  (2 <= n)%nat → fitted_slope (line_values a b n) = a.
Proof.
  intros Hn. unfold fitted_slope. rewrite length_line_values.
  rewrite line_values_indices, co_dev_affine by (apply indices_nonempty; lia).
  pose proof (sq_dev_indices_pos n Hn). field. lra.
Qed.

Lemma residual_line (a b : R) (n : nat) :
  (2 <= n)%nat → residual (line_values a b n) = 0.
Proof.
  intros Hn. unfold residual. rewrite fitted_slope_line by exact Hn.
  rewrite length_line_values, line_values_indices.
  rewrite mean_affine by (apply indices_nonempty; lia).
  rewrite zip_with_map_diag. apply sum_zero, Forall_map, Forall_forall.
  intros x _. simpl. ring.
Qed.

(** For 0 <= x and 0 <= y, x < sqrt y exactly when x² < y. *)
Lemma lt_sqrt_iff (x y : R) : 0 <= x → 0 <= y → x < sqrt y ↔ x * x < y.
Proof.
  intros Hx Hy. pose proof (sqrt_pos y) as Hs.
  pose proof (sqrt_sqrt y Hy) as Hss.
  set (s := sqrt y) in *. split; intros H; nra.
Qed.

(** The sample variance of a line: a² · n(n+1)/12. *)
Lemma sample_sd_line (a b : R) (n : nat) :
  (2 <= n)%nat →
  sample_sd (line_values a b n)
  = sqrt (a ^ 2 * (INR n * (INR n + 1) / 12)).
Proof.
  intros Hn. unfold sample_sd. rewrite length_line_values.
  rewrite line_values_indices, sq_dev_affine by (apply indices_nonempty; lia).
  rewrite sq_dev_indices by lia. f_equal.
  apply le_INR in Hn. simpl in Hn. field. lra.
Qed.

(** The test [abs(slope) < threshold] on a line of slope a ≠ 0 reads
    1200 < n(n+1), that is 35 <= n. *)
Lemma line_threshold (a b : R) (n : nat) :
  (2 <= n)%nat → a ≠ 0 →
  Rabs a < sample_sd (line_values a b n) * 0.1 ↔ (35 <= n)%nat.
Proof.
  intros Hn Ha. rewrite sample_sd_line by exact Hn.
  assert (Hn0 : 0 <= INR n) by apply pos_INR.
  set (K := INR n * (INR n + 1) / 12).
  assert (HK : 0 <= K) by (unfold K; nra).
  assert (Ha2 : 0 < a ^ 2) by (simpl; nra).
  assert (Hiff : Rabs a < sqrt (a ^ 2 * K) * 0.1 ↔ 100 < K).
  { transitivity (10 * Rabs a < sqrt (a ^ 2 * K)); [split; lra |].
    rewrite lt_sqrt_iff.
    - pose proof (Rabs_pos a).
      assert (Hsq : Rabs a * Rabs a = a ^ 2).
      { unfold Rabs. destruct (Rcase_abs a); simpl; ring. }
      split; intros H'; nra.
    - pose proof (Rabs_pos a). lra.
    - nra. }
  rewrite Hiff. unfold K. split.
  - intros H. destruct (le_lt_dec 35 n) as [Hge | Hlt]; [exact Hge |].
    exfalso. assert (Hle : (n <= 34)%nat) by lia.
    apply le_INR in Hle. replace (INR 34) with 34 in Hle by (simpl; lra).
    nra.
  - intros Hge. apply le_INR in Hge.
    replace (INR 35) with 35 in Hge by (simpl; lra). nra.
Qed.

(** X14.  A series of three or more points that lie exactly on a line
    of slope a ≠ 0 is given confidence 100, and its trend is the
    direction of the slope only while it has fewer than 35 points: from
    35 points on the threshold, a tenth of the sample deviation, exceeds
    the slope and the trend is "stable". *)
Theorem detect_pattern_line metric (time_series : Series) time_range
    (a b : R) :
  let n := length time_series in
  (3 <= n)%nat → a ≠ 0 →
  map snd time_series = line_values a b n →
  _detect_pattern metric time_series time_range
  = Ok (Some (pattern_of metric
                (if (35 <=? n)%nat then STABLE else slope_trend a)
                100 time_range)).
Proof.
  intros n Hn Ha Hvals.
  rewrite detect_pattern_eq by exact Hn. cbv zeta. rewrite Hvals.
  rewrite fitted_slope_line, residual_line by lia.
  assert (Hss : 0 < sq_dev (line_values a b n)).
  { rewrite line_values_indices, sq_dev_affine by (apply indices_nonempty; lia).
    pose proof (sq_dev_indices_pos n ltac:(lia)).
    assert (0 < a ^ 2) by (simpl; nra). nra. }
  destruct (Rlt_dec 0 (sq_dev (line_values a b n))) as [_ | Hno]; [| done].
  replace (py_max 50 (py_min 100 ((1 - 0 / sq_dev (line_values a b n)) * 100)))
    with 100.
  2: { unfold Rdiv. rewrite Rmult_0_l. unfold py_max, py_min.
       destruct (Rlt_dec ((1 - 0) * 100) 100); [lra |].
       destruct (Rlt_dec 50 100); lra. }
  do 2 f_equal. f_equal.
  pose proof (line_threshold a b n ltac:(lia) Ha) as Hth.
  destruct (Rlt_dec (Rabs a) (sample_sd (line_values a b n) * 0.1))
    as [Hlt | Hge].
  - apply Hth in Hlt. apply Nat.leb_le in Hlt. by rewrite Hlt.
  - assert (Hn35 : (35 <=? n)%nat = false).
    { apply Nat.leb_gt. destruct (le_lt_dec 35 n) as [H35 | ?]; [| done].
      exfalso. apply Hge, Hth, H35. }
    rewrite Hn35. reflexivity.
Qed.

Lemma detect_pattern_line_witness :
  _detect_pattern "steps" (line_series 100 5000 36)
    {| start := 0%Z; end_ := 35%Z |}
  = Ok (Some (pattern_of "steps" STABLE 100 {| start := 0%Z; end_ := 35%Z |})).
Proof.
  apply (detect_pattern_line "steps" (line_series 100 5000 36)
           {| start := 0%Z; end_ := 35%Z |} 100 5000).
  - unfold line_series. rewrite length_map, length_seq. lia.
  - lra.
  - unfold line_series, line_values. by rewrite map_map, length_map, length_seq.
Defined.

End RegressionProps.

(** ** More on the correlation coefficient *)

Module CorrelationCeiling.
Import Py TrendAnalyzer TrendSpec SeriesSpec TrendStats TrendDetectorProps.
Import CorrelationStats CorrelationProps RegressionProps.
Local Open Scope R_scope.

(** *** The ceiling of the strength *)

(** X15.  Over exact arithmetic, a value that [_calculate_correlation]
    returns never reaches 1 or -1: it is 0, or at most 1 - 1/n in
    absolute value over n points, because the sample deviations divide
    by n-1 and the denominator multiplies by n. *)
Theorem calculate_correlation_cap (xs ys : list R) (r : R) :
  _calculate_correlation xs ys = Ok r →
  Rabs r < 1 ∧ (r = 0 ∨ Rabs r <= 1 - / INR (length xs)).
Proof.
  intros Hr.
  assert (Hzero : r = 0 →
            Rabs r < 1 ∧ (r = 0 ∨ Rabs r <= 1 - / INR (length xs))).
  { intros ->. rewrite Rabs_R0. split; [lra | by left]. }
  destruct (decide (length xs = length ys ∧ (2 <= length xs)%nat))
    as [[Hlen Hn] | Hno].
  - rewrite calculate_correlation_eq in Hr by assumption.
    destruct (Req_dec_T _ 0) as [_ | Hd]; [apply Hzero; congruence |].
    injection Hr as <-.
    pose proof (co_dev_bound xs ys Hlen Hn) as Hb.
    pose proof (sample_sd_nonneg xs) as Hx.
    pose proof (sample_sd_nonneg ys) as Hy.
    assert (Hp : 0 <= sample_sd xs * sample_sd ys) by (by apply Rmult_le_pos).
    assert (Hn2 : 2 <= INR (length xs)).
    { apply le_INR in Hn. simpl in Hn. lra. }
    set (p := sample_sd xs * sample_sd ys) in *.
    set (n := INR (length xs)) in *.
    set (c := co_dev xs ys) in *.
    assert (Hp0 : 0 < p) by (destruct (Req_dec_T p 0); [subst; nra | lra]).
    assert (Hi : / n * n = 1) by (apply Rinv_l; lra).
    assert (Hipos : 0 < / n) by (apply Rinv_0_lt_compat; lra).
    assert (Hq : c / (p * n) * (p * n) = c) by (field; lra).
    set (q := c / (p * n)) in *.
    assert (Hqn : - (n - 1) <= q * n <= n - 1).
    { assert (Hqp : - ((n - 1) * p) <= (q * n) * p <= (n - 1) * p) by nra.
      split; apply (Rmult_le_reg_r p); lra. }
    assert (Hle : Rabs q <= 1 - / n).
    { apply Rabs_le.
      split; apply (Rmult_le_reg_r n); lra. }
    split; [lra | by right].
  - apply Hzero.
    revert Hr. unfold _calculate_correlation.
    destruct (length xs =? length ys)%nat eqn:E1;
      [| simpl; by intros [= <-]].
    destruct (length xs <? 2)%nat eqn:E2; [simpl; by intros [= <-] |].
    exfalso. apply Hno. split.
    + by apply Nat.eqb_eq.
    + apply Nat.ltb_ge in E2. lia.
Qed.

Lemma calculate_correlation_cap_witness :
  Rabs 0.9 <= 1 - / INR (length (map snd ramp_A)).
Proof.
  destruct (calculate_correlation_cap (map snd ramp_A) (map snd ramp_B) 0.9
              ramp_strength) as [_ [H0 | Hle]]; [lra | exact Hle].
Defined.

Lemma sq_dev_zero_const (xs : list R) :
  sq_dev xs = 0 → Forall (λ x, x = mean_of xs) xs.
Proof.
  unfold sq_dev. intros Hs.
  apply sum_nonneg_zero in Hs; [| apply Forall_squares].
  apply Forall_map in Hs. eapply Forall_impl; [exact Hs |].
  simpl. intros x Hx. nra.
Qed.

Lemma sq_dev_pos (xs : list R) (x1 x2 : R) :
  x1 ∈ xs → x2 ∈ xs → x1 ≠ x2 → 0 < sq_dev xs.
Proof.
  intros H1 H2 Hne. pose proof (sq_dev_nonneg xs) as Hnn.
  destruct (Req_dec_T (sq_dev xs) 0) as [H0 | ?]; [| lra].
  apply sq_dev_zero_const in H0. rewrite Forall_forall in H0.
  exfalso. apply Hne. by rewrite (H0 x1 H1), (H0 x2 H2).
Qed.

Lemma two_members_length (xs : list R) (x1 x2 : R) :
  x1 ∈ xs → x2 ∈ xs → x1 ≠ x2 → (2 <= length xs)%nat.
Proof.
  intros H1 H2 Hne. destruct xs as [| x [| y xs]]; simpl; [| | lia].
  - by apply elem_of_nil in H1.
  - apply list_elem_of_singleton in H1, H2. congruence.
Qed.

Lemma sample_sd_affine (k c : R) (xs : list R) :
  (2 <= length xs)%nat →
  sample_sd (map (λ x, k * x + c) xs) = Rabs k * sample_sd xs.
Proof.
  intros Hn. unfold sample_sd.
  rewrite sq_dev_affine by (by apply (length_ge_nonempty _ 1)).
  rewrite length_map.
  assert (Hm : 0 < INR (length xs) - 1).
  { apply le_INR in Hn. simpl in Hn. lra. }
  replace (k ^ 2 * sq_dev xs / (INR (length xs) - 1))
    with (k² * (sq_dev xs / (INR (length xs) - 1)))
    by (unfold Rsqr; field; lra).
  rewrite sqrt_mult.
  - by rewrite sqrt_Rsqr_abs.
  - apply Rle_0_sqr.
  - apply Rmult_le_pos; [apply sq_dev_nonneg |].
    left. by apply Rinv_0_lt_compat.
Qed.

(** X16.  The ceiling is reached: for values that are not all equal and
    a second sequence k·x + c of them with k ≠ 0, the strength is
    exactly 1 - 1/n for k > 0 and -(1 - 1/n) for k < 0. *)
Theorem calculate_correlation_linear (xs : list R) (k c x1 x2 : R) :
  x1 ∈ xs → x2 ∈ xs → x1 ≠ x2 → k ≠ 0 →
  _calculate_correlation xs (map (λ x, k * x + c) xs)
  = Ok (sign_of k * (1 - / INR (length xs))).
Proof.
  intros H1 H2 Hne Hk.
  pose proof (two_members_length xs x1 x2 H1 H2 Hne) as Hn.
  pose proof (sq_dev_pos xs x1 x2 H1 H2 Hne) as HS.
  rewrite calculate_correlation_eq by (by rewrite ?length_map).
  rewrite co_dev_affine by (by apply (length_ge_nonempty _ 1)).
  rewrite sample_sd_affine by exact Hn.
  pose proof (sample_sd_square xs Hn) as Hsq.
  pose proof (sample_sd_nonneg xs) as Hsd.
  assert (Hn2 : 2 <= INR (length xs)).
  { apply le_INR in Hn. simpl in Hn. lra. }
  set (n := INR (length xs)) in *. set (s := sample_sd xs) in *.
  assert (Hs : 0 < s) by (destruct (Req_dec_T s 0); [subst; nra | lra]).
  assert (Hak : 0 < Rabs k) by (by apply Rabs_pos_lt).
  destruct (Req_dec_T (s * (Rabs k * s) * n) 0) as [H0 | Hd].
  { exfalso. assert (0 < s * (Rabs k * s) * n); [| lra].
    repeat apply Rmult_lt_0_compat; lra. }
  f_equal. rewrite Hsq. unfold sign_of.
  destruct (Rlt_dec 0 k) as [Hpos | Hneg].
  - rewrite (Rabs_pos_eq k) by lra. field. lra.
  - rewrite (Rabs_left k) by lra. field. lra.
Qed.

Lemma calculate_correlation_linear_witness :
  _calculate_correlation [1; 2; 4] (map (λ x, 2 * x + 3) [1; 2; 4])
  = Ok (sign_of 2 * (1 - / INR 3)).
Proof.
  apply (calculate_correlation_linear [1; 2; 4] 2 3 1 2).
  - apply list_elem_of_here.
  - apply list_elem_of_further, list_elem_of_here.
  - lra.
  - lra.
Defined.

End CorrelationCeiling.

(** ** More on the change detector *)

Module ChangeReportProps.
Import Py TrendAnalyzer TrendSpec SeriesSpec TrendStats TrendDetectorProps.
Import ChangeDetectorProps.
Local Open Scope R_scope.

(** *** The change detector *)

Lemma not_exceeds_negative (baseline value : R) :
  baseline < 0 → ¬ exceeds baseline value.
Proof.
  intros Hb. unfold exceeds, significant_change_threshold.
  pose proof (Rabs_pos (value - baseline)) as Ha.
  assert (Hi : / baseline < 0) by (by apply Rinv_lt_0_compat).
  unfold Rdiv. nra.
Qed.

(** X17.  When the mean of the first half of a series is zero or
    negative, the change detector reports nothing, however far the
    second half moves. *)
Theorem change_needs_positive_baseline metric (time_series : Series) :
  baseline_of time_series <= 0 →
  _detect_significant_change metric time_series = Ok None.
Proof.
  intros Hb.
  destruct (le_lt_dec 7 (length time_series)) as [Hge | Hlt];
    [| by apply detect_change_short].
  rewrite detect_change_long by exact Hge.
  destruct (Req_dec_T (baseline_of time_series) 0) as [_ | Hne];
    [reflexivity |].
  apply scan_changes_none; [exact Hne |].
  apply Forall_forall. intros p _. apply not_exceeds_negative. lra.
Qed.

Lemma change_needs_positive_baseline_witness :
  _detect_significant_change "weight_change" falling = Ok None.
Proof.
  apply (change_needs_positive_baseline "weight_change" falling).
  unfold baseline_of, falling, sum. simpl. lra.
Defined.

Lemma py_int_lower (x : R) (z : Z) :
  (0 <= z)%Z → IZR z < x → (z <= py_int x)%Z.
Proof.
  intros Hz Hx. unfold py_int.
  assert (H0 : 0 <= x) by (apply IZR_le in Hz; lra).
  destruct (Rle_dec 0 x); [| done].
  unfold Int_part. destruct (archimed x) as [Hup _].
  assert (Hlt : (z < up x)%Z) by (apply lt_IZR; lra). lia.
Qed.

(** What the loop reports is a point of the window. *)
Lemma scan_changes_sound metric baseline (rest : Series) ch :
  baseline ≠ 0 →
  scan_changes metric baseline rest = Ok (Some ch) →
  ∃ pre t v post,
    rest = pre ++ (t, v) :: post ∧
    Forall (λ p, ¬ exceeds baseline p.2) pre ∧
    exceeds baseline v ∧
    ch = change_at metric baseline t v.
Proof.
  intros Hb. induction rest as [| [t v] rest IH]; [done |].
  rewrite scan_changes_cons by exact Hb.
  destruct (Rlt_dec _ _) as [Hex | Hn].
  - intros [= <-]. exists [], t, v, rest. by repeat split.
  - intros Hres. destruct (IH Hres) as (pre & t' & v' & post & -> & Hpre & Hv & ->).
    exists ((t, v) :: pre), t', v', post.
    split; [reflexivity |]. split; [by constructor | by split].
Qed.

(** X18.  A reported Change comes from a series of seven points or
    more with a positive baseline; it is the first point of the second
    half that deviates from the baseline by more than 30% of it, and it
    carries the name of the metric, the timestamp of that point, the
    signed deviation, the matching word "increased" or "decreased", and
    a percentage of 30 or more. *)
Theorem reported_change_sound metric (time_series : Series) (ch : Change.t) :
  _detect_significant_change metric time_series = Ok (Some ch) →
  let b := baseline_of time_series in
  (7 <= length time_series)%nat ∧ 0 < b ∧
  ∃ pre t v post,
    window_of time_series = pre ++ (t, v) :: post ∧
    Forall (λ p, Rabs (p.2 - b) <= 0.3 * b) pre ∧
    0.3 * b < Rabs (v - b) ∧
    Change.metric ch = metric ∧
    Change.change_point ch = t ∧
    Change.magnitude ch = v - b ∧
    Change.description ch
    = metric +:+ " " +:+ (if Rlt_dec b v then "increased" else "decreased")
        +:+ " by " +:+ pretty (py_int (Rabs (v - b) / b * 100))
        +:+ "% from baseline" ∧
    (30 <= py_int (Rabs (v - b) / b * 100))%Z.
Proof.
  intros Hres b.
  destruct (le_lt_dec 7 (length time_series)) as [Hge | Hlt].
  2: { rewrite detect_change_short in Hres by exact Hlt. discriminate. }
  rewrite detect_change_long in Hres by exact Hge. fold b in Hres.
  destruct (Req_dec_T b 0) as [? | Hne]; [discriminate |].
  assert (Hb : 0 < b).
  { destruct (Rlt_dec 0 b) as [? | Hneg]; [done |].
    rewrite scan_changes_none in Hres; [discriminate | exact Hne |].
    apply Forall_forall. intros p _. apply not_exceeds_negative. lra. }
  assert (Hex : ∀ v, exceeds b v ↔ 0.3 * b < Rabs (v - b)).
  { intros v. unfold exceeds, significant_change_threshold. split; intros H.
    - apply (Rmult_lt_compat_r b) in H; [| exact Hb].
      unfold Rdiv in H. rewrite Rmult_assoc, Rinv_l, Rmult_1_r in H; lra.
    - apply (Rmult_lt_reg_r b); [exact Hb |].
      unfold Rdiv. rewrite Rmult_assoc, Rinv_l, Rmult_1_r; lra. }
  destruct (scan_changes_sound _ _ _ _ Hne Hres)
    as (pre & t & v & post & Hw & Hpre & Hv & ->).
  split; [exact Hge |]. split; [exact Hb |].
  exists pre, t, v, post. split; [exact Hw |]. split.
  { eapply Forall_impl; [exact Hpre |]. simpl. intros p Hp.
    rewrite Hex in Hp. lra. }
  split; [by apply Hex |].
  repeat split.
  - simpl. destruct (Rlt_dec 0 (v - b)), (Rlt_dec b v); first [done | lra].
  - apply py_int_lower; [lia |].
    unfold exceeds, significant_change_threshold in Hv. lra.
Qed.

Lemma rising_change :
  _detect_significant_change "steps" rising
  = Ok (Some (change_at "steps" 100 7%Z 135)).
Proof.
  assert (Hb : baseline_of rising = 100).
  { unfold baseline_of, rising, sum. simpl. lra. }
  rewrite detect_change_long by (simpl; lia). rewrite Hb.
  destruct (Req_dec_T 100 0) as [? | Hne]; [lra |].
  apply (scan_changes_first "steps" 100 [] _ 7%Z 135 Hne); [constructor |].
  unfold exceeds, significant_change_threshold.
  rewrite Rabs_pos_eq; lra.
Qed.

Lemma reported_change_sound_witness :
  (7 <= length rising)%nat ∧ 0 < baseline_of rising.
Proof.
  destruct (reported_change_sound "steps" rising
              (change_at "steps" 100 7%Z 135) rising_change)
    as (Hn & Hb & _).
  by split.
Defined.

End ChangeReportProps.

(** ** The façade *)

Module FacadeProps.
Import Py TrendAnalyzer TrendSpec SeriesSpec TrendStats TrendDetectorProps.
Import ChangeDetectorProps AlignProps CorrelationStats CorrelationProps.
Import RegressionProps ChangeReportProps.
Local Open Scope R_scope.


(** The next lemmas are about the model: over exact arithmetic every
    call returns. *)
Lemma detect_change_total metric (time_series : Series) :
  ∃ o, _detect_significant_change metric time_series = Ok o ∧
       ∀ ch, o = Some ch → Change.metric ch = metric.
Proof.
  destruct (le_lt_dec 7 (length time_series)) as [Hge | Hlt].
  2: { exists None. split; [by apply detect_change_short | done]. }
  rewrite detect_change_long by exact Hge.
  destruct (Req_dec_T (baseline_of time_series) 0) as [_ | Hne].
  { exists None. by split. }
  destruct (scan_changes_total metric _ (window_of time_series) Hne)
    as (o & Ho & _).
  exists o. split; [exact Ho |]. intros ch ->.
  by destruct (scan_changes_sound _ _ _ _ Hne Ho)
    as (? & ? & ? & ? & _ & _ & _ & ->).
Qed.

Lemma detect_correlations_total user_id metric1 metric2 (data1 data2 : Series) :
  ∃ o, detect_correlations user_id metric1 metric2 data1 data2 = Ok o ∧
       ∀ c, o = Some c →
            Correlation.metric1 c = metric1 ∧ Correlation.metric2 c = metric2.
Proof.
  destruct (align_total data1 data2) as (l & Hl & _ & _).
  destruct (calculate_correlation_total (column1 l) (column2 l)) as [r Hr].
  rewrite (detect_correlations_eq _ _ _ _ _ _ _ Hl Hr).
  repeat (destruct (_ : bool) || destruct (Rlt_dec _ _));
    eexists; (split; [reflexivity |]); by intros c [= <-].
Qed.

Lemma data_getitem_ok (data : Data) (metric : string) :
  metric ∈ map fst data → ∃ s, data_getitem data metric = Ok s.
Proof.
  induction data as [| [k v] data IH]; simpl.
  - intros H. by apply elem_of_nil in H.
  - intros H. case_decide; [by eexists |].
    apply elem_of_cons in H as [-> | H]; [done | by apply IH].
Qed.

Lemma correlations_with_total (data : Data) (metric1 : string)
    (later : list string) (acc : list Correlation.t) :
  metric1 ∈ map fst data → later ⊆ map fst data →
  ∃ new, correlations_with data metric1 later acc = Ok (acc ++ new) ∧
         (length new <= length later)%nat ∧
         Forall (λ c, Correlation.metric1 c = metric1 ∧
                      Correlation.metric2 c ∈ later) new.
Proof.
  intros H1. revert acc.
  induction later as [| metric2 later IH]; intros acc Hsub.
  - exists []. rewrite app_nil_r. by repeat split.
  - destruct (data_getitem_ok data metric1 H1) as [d1 Hd1].
    destruct (data_getitem_ok data metric2) as [d2 Hd2]; [set_solver |].
    destruct (detect_correlations_total "" metric1 metric2 d1 d2)
      as (o & Ho & Hm).
    cbn [correlations_with]. rewrite Hd1, bind_Ok, Hd2, bind_Ok, Ho, bind_Ok.
    destruct (IH (append_some acc o)) as (new & Hnew & Hlen & Hall);
      [set_solver |].
    rewrite Hnew. destruct o as [c |]; simpl.
    + exists (c :: new). rewrite <- app_assoc. split; [done |].
      split; [simpl; lia |]. constructor.
      * destruct (Hm c eq_refl) as [-> ->]. split; [done | set_solver].
      * eapply Forall_impl; [exact Hall |]. simpl. intros ? [? ?].
        split; [done | set_solver].
    + exists new. split; [done |]. split; [simpl; lia |].
      eapply Forall_impl; [exact Hall |]. simpl. intros ? [? ?].
      split; [done | set_solver].
Qed.

Lemma correlations_from_total (data : Data) (metrics : list string)
    (acc : list Correlation.t) :
  metrics ⊆ map fst data →
  ∃ new, correlations_from data metrics acc = Ok (acc ++ new) ∧
         (2 * length new <= length metrics * (length metrics - 1))%nat ∧
         Forall (λ c, before metrics (Correlation.metric1 c)
                        (Correlation.metric2 c)) new.
Proof.
  revert acc. induction metrics as [| metric1 later IH]; intros acc Hsub.
  - exists []. rewrite app_nil_r. split; [done |]. split; [simpl; lia | done].
  - destruct (correlations_with_total data metric1 later acc)
      as (new1 & Hnew1 & Hlen1 & Hall1); [set_solver | set_solver |].
    cbn [correlations_from]. rewrite Hnew1, bind_Ok.
    destruct (IH (acc ++ new1)) as (new2 & Hnew2 & Hlen2 & Hall2);
      [set_solver |].
    rewrite Hnew2. exists (new1 ++ new2). rewrite app_assoc.
    split; [done |]. split.
    + rewrite length_app. cbn [length]. nia.
    + apply Forall_app. split.
      * eapply Forall_impl; [exact Hall1 |]. simpl. intros c [Hc1 Hc2].
        apply list_elem_of_split in Hc2 as (mid & post & ->).
        exists [], mid, post. by rewrite Hc1.
      * eapply Forall_impl; [exact Hall2 |]. simpl.
        intros c (pre & mid & post & ->).
        by exists (metric1 :: pre), mid, post.
Qed.

Lemma analysed_cons_long metric (time_series : Series) (items : Data) :
  (3 <= length time_series)%nat →
  analysed ((metric, time_series) :: items)
  = (metric, time_series) :: analysed items.
Proof. intros H. unfold analysed, Data. by rewrite filter_cons_True. Qed.

Lemma analysed_cons_short metric (time_series : Series) (items : Data) :
  ¬ (3 <= length time_series)%nat →
  analysed ((metric, time_series) :: items) = analysed items.
Proof. intros H. unfold analysed, Data. by rewrite filter_cons_False. Qed.

Lemma analyze_metrics_total time_range (items : Data) ps cs vs :
  ∃ ps' cs',
    analyze_metrics time_range items ps cs vs
    = Ok (ps ++ ps', cs ++ cs', vs ++ map line_chart (analysed items)) ∧
    map Pattern.metric ps' = map fst (analysed items) ∧
    Forall (λ p, Pattern.time_range p = time_range ∧
                 Pattern.trend p ≠ CYCLICAL ∧
                 50 <= Pattern.confidence p <= 100) ps' ∧
    sublist (map Change.metric cs') (map fst (analysed items)).
Proof.
  revert ps cs vs.
  induction items as [| [metric time_series] items IH]; intros ps cs vs.
  - exists [], []. rewrite !app_nil_r. by repeat split.
  - cbn [analyze_metrics].
    destruct (3 <=? length time_series)%nat eqn:E.
    + apply Nat.leb_le in E. rewrite analysed_cons_long by exact E.
      rewrite (detect_pattern_eq metric time_series time_range E).
      cbv zeta. rewrite bind_Ok.
      set (p := pattern_of _ _ _ _).
      destruct (detect_change_total metric time_series) as (o & Ho & Hm).
      rewrite Ho, bind_Ok.
      destruct (IH (append_some ps (Some p)) (append_some cs o)
                  (vs ++ [line_chart (metric, time_series)]))
        as (ps' & cs' & Hres & Hps & Hall & Hcs).
      change ({| ChartData.metric := metric;
                 ChartData.data_points := time_series;
                 ChartData.chart_type := "line" |})
        with (line_chart (metric, time_series)).
      rewrite Hres. exists (p :: ps'), (match o with
                                         | Some ch => ch :: cs'
                                         | None => cs'
                                         end).
      split.
      { destruct o; simpl; by rewrite <- !app_assoc. }
      split; [simpl; by rewrite Hps |]. split.
      { constructor; [| exact Hall]. unfold p. simpl.
        split; [done |]. split.
        - repeat destruct (Rlt_dec _ _); done.
        - apply py_max_min_bounds. lra. }
      destruct o as [ch |]; simpl.
      * rewrite (Hm ch eq_refl). by apply sublist_skip.
      * by apply sublist_cons.
    + apply Nat.leb_gt in E. rewrite analysed_cons_short by lia.
      apply IH.
Qed.

(** X19.  An analysis that [analyze_trends] returns holds one line
    chart and one pattern for each metric with three points or more, in
    the order of the data; every pattern carries the given time range,
    a trend other than "cyclical" and a confidence from 50 to 100; the
    changes belong to those metrics, at most one each, in the same
    order; the correlations are those that [_detect_correlations]
    returns. *)
Theorem analyze_trends_shape user_id time_range (data : Data)
    (ta : TrendAnalysis.t) :
  analyze_trends user_id time_range data = Ok ta →
  TrendAnalysis.visualizations ta = map line_chart (analysed data) ∧
  map Pattern.metric (TrendAnalysis.patterns ta) = map fst (analysed data) ∧
  Forall (λ p, Pattern.time_range p = time_range ∧
               Pattern.trend p ≠ CYCLICAL ∧
               50 <= Pattern.confidence p <= 100)
    (TrendAnalysis.patterns ta) ∧
  sublist (map Change.metric (TrendAnalysis.significant_changes ta))
    (map fst (analysed data)) ∧
  _detect_correlations data = Ok (TrendAnalysis.correlations ta).
Proof.
  unfold analyze_trends.
  destruct (analyze_metrics_total time_range data [] [] [])
    as (ps & cs & Hres & Hps & Hall & Hcs).
  rewrite Hres, bind_Ok.
  destruct (_detect_correlations data) as [correlations | e];
    [| discriminate].
  unfold mbind, result_bind. intros [= <-]. simpl. by repeat split.
Qed.

(** The analysis of the flat weight: one pattern, one chart, no change
    and no correlation; the single step count is skipped. *)
Lemma flat_data_analysis (time_range : TimeRange) :
  analyze_trends "user-123" time_range flat_data
  = Ok {| TrendAnalysis.patterns :=
            [pattern_of "weight" DECREASING 50 time_range];
          TrendAnalysis.correlations := [];
          TrendAnalysis.significant_changes := [];
          TrendAnalysis.visualizations :=
            [line_chart ("weight", [(0%Z, 5); (1%Z, 5); (2%Z, 5)])] |}.
Proof.
  unfold analyze_trends, flat_data. cbn [analyze_metrics length Nat.leb].
  rewrite (detect_pattern_constant "weight" _ time_range 5);
    [| simpl; lia | repeat constructor].
  rewrite bind_Ok, detect_change_short by (simpl; lia).
  rewrite bind_Ok. reflexivity.
Qed.

Lemma analyze_trends_shape_witness :
  map Pattern.metric [pattern_of "weight" DECREASING 50
                        {| start := 0%Z; end_ := 2%Z |}]
  = map fst (analysed flat_data).
Proof.
  apply (analyze_trends_shape "user-123" {| start := 0%Z; end_ := 2%Z |}
           flat_data _ (flat_data_analysis _)).
Defined.

(** X20.  Each Correlation of a list that [_detect_correlations]
    returns pairs a metric with one that comes later in the data, and
    over n metrics there are at most n(n-1)/2 of them. *)
Theorem detect_all_correlations_pairs (data : Data)
    (correlations : list Correlation.t) :
  _detect_correlations data = Ok correlations →
  (2 * length correlations <= length data * (length data - 1))%nat ∧
  Forall (λ c, before (map fst data) (Correlation.metric1 c)
                 (Correlation.metric2 c)) correlations.
Proof.
  intros Hres.
  destruct (correlations_from_total data (map fst data) [])
    as (new & Hnew & Hlen & Hall); [done |].
  unfold _detect_correlations in Hres. cbv zeta in Hres.
  rewrite Hnew in Hres. injection Hres as <-.
  rewrite length_map in Hlen. by split.
Qed.

(** The noise-free pair as a data set: one Correlation. *)
Lemma ramp_data_correlations :
  _detect_correlations ramp_data
  = Ok [correlation_of "metric_a" "metric_b" 0.9].
Proof.
  unfold _detect_correlations, ramp_data.
  cbn [map fst correlations_from correlations_with data_getitem].
  repeat case_decide; try discriminate; try done.
  rewrite !bind_Ok, ramp_pair_detected, bind_Ok. reflexivity.
Qed.

Lemma detect_all_correlations_pairs_witness :
  Forall (λ c, before ["metric_a"; "metric_b"] (Correlation.metric1 c)
                 (Correlation.metric2 c))
    [correlation_of "metric_a" "metric_b" 0.9].
Proof.
  apply (detect_all_correlations_pairs ramp_data _ ramp_data_correlations).
Defined.

End FacadeProps.
